(** * ai_course_assignment: the product catalogue parser and the
      embedding upload / search pipeline of assignment_10

    Shallow embedding of
    - [src/assignment_10/convert_products.py] (function
      [parse_products_from_text]) and
    - [src/assignment_10/assignment_10.py] (functions [get_embedding],
      [generate_and_upsert_embeddings], [search_similar_products] and the
      query block of [main]).

    Python text is a sequence of code points, Python [int] is [Z], the
    floats the parser builds are the doubles nearest to a decimal integer.
    The hosted services (embedding provider, vector index) are an interface
    whose calls and replies are recorded in a trace. *)

From Stdlib Require Import String Ascii.
From Stdlib Require Import List NArith ZArith QArith Lia Bool.
From Stdlib Require Import DecimalNat DecimalFacts.
Import ListNotations.

Local Open Scope N_scope.

(* ================================================================== *)
(** * Python [str] *)
(* ================================================================== *)

Module PyStr.

(** A character is a Unicode code point; a [str] is a list of them. *)
Definition char := N.
Definition str := list char.

(** Source literals are written as UTF-8 text and decoded to code points. *)
Fixpoint utf8_decode (bs : list N) : str :=
  match bs with
  | [] => []
  | b :: rest =>
      if b <? 128 then b :: utf8_decode rest
      else if b <? 224 then
        match rest with
        | b1 :: rest1 =>
            N.lor (N.shiftl (N.land b 31) 6) (N.land b1 63) :: utf8_decode rest1
        | _ => [b]
        end
      else if b <? 240 then
        match rest with
        | b1 :: b2 :: rest2 =>
            N.lor (N.shiftl (N.land b 15) 12)
              (N.lor (N.shiftl (N.land b1 63) 6) (N.land b2 63))
            :: utf8_decode rest2
        | _ => b :: rest
        end
      else
        match rest with
        | b1 :: b2 :: b3 :: rest3 =>
            N.lor (N.shiftl (N.land b 7) 18)
              (N.lor (N.shiftl (N.land b1 63) 12)
                 (N.lor (N.shiftl (N.land b2 63) 6) (N.land b3 63)))
            :: utf8_decode rest3
        | _ => b :: rest
        end
  end.

Definition u (s : string) : str :=
  utf8_decode (map N_of_ascii (list_ascii_of_string s)).
Arguments u s%_string.

(** [bool(s)]: a string is true when it is not empty. *)
Definition nonempty {A} (s : list A) : bool :=
  match s with [] => false | _ :: _ => true end.

Fixpoint eqb (s t : str) : bool :=
  match s, t with
  | [], [] => true
  | a :: s', b :: t' => (a =? b) && eqb s' t'
  | _, _ => false
  end.

(** [s.startswith(prefix)] *)
Fixpoint startswith (prefix s : str) : bool :=
  match prefix, s with
  | [], _ => true
  | a :: prefix', b :: s' => (a =? b) && startswith prefix' s'
  | _ :: _, [] => false
  end.

(** [word in s]: [word] occurs in [s] as a contiguous substring. *)
Fixpoint contains (word s : str) : bool :=
  startswith word s
  || match s with
     | [] => false
     | _ :: s' => contains word s'
     end.

(** [str.isspace] on one character, which is also the class [\s] of [re]
    on text patterns (both are CPython's [Py_UNICODE_ISSPACE]). *)
Definition isspace (c : char) : bool :=
  ((9 <=? c) && (c <=? 13)) || ((28 <=? c) && (c <=? 32))
  || (c =? 133) || (c =? 160) || (c =? 5760)
  || ((8192 <=? c) && (c <=? 8202))
  || (c =? 8232) || (c =? 8233) || (c =? 8239) || (c =? 8287)
  || (c =? 12288).

Fixpoint lstrip (s : str) : str :=
  match s with
  | c :: s' => if isspace c then lstrip s' else s
  | [] => []
  end.

Definition rstrip (s : str) : str := rev (lstrip (rev s)).

(** [s.strip()] *)
Definition strip (s : str) : str := rstrip (lstrip s).

(** [s.replace(c, "")] for a one-character string [c]. *)
Definition remove_char (c : char) (s : str) : str :=
  filter (fun x => negb (x =? c)) s.

End PyStr.
Import PyStr.

(* ================================================================== *)
(** * What the interpreter fixes *)
(* ================================================================== *)

(** A decimal digit, and its value. *)
Inductive digit := Zero | One | Two | Three | Four | Five | Six | Seven | Eight | Nine.

Definition digit_value (d : digit) : Z :=
  match d with
  | Zero => 0 | One => 1 | Two => 2 | Three => 3 | Four => 4
  | Five => 5 | Six => 6 | Seven => 7 | Eight => 8 | Nine => 9
  end%Z.

(** The parser depends on three facts of the running CPython: the Unicode
    table of decimal digits (the class [\d] of [re] and the digits that
    [int] and [float] accept are both [Py_UNICODE_TODECIMAL]), the case
    mapping behind [str.lower], and the limit on the length of a decimal
    string that [int] converts ([sys.get_int_max_str_digits()], 4300 by
    default since 3.11, [0] meaning no limit). *)
Class Runtime := {
  to_decimal : char -> option digit;
  lower : str -> str;
  int_max_str_digits : nat
}.

Inductive exn :=
| ValueError
| ServiceError (message : str).

Inductive result (A : Type) :=
| Ok (a : A)
| Exc (e : exn).
Arguments Ok {A} a.
Arguments Exc {A} e.

(* ================================================================== *)
(** * Numbers *)
(* ================================================================== *)

Module PyNum.

(** The floats that [float] returns on a string of decimal digits: the
    double nearest to the integer written, which is an integer itself, or
    [inf] beyond the range of doubles. *)
Inductive pyfloat :=
| Fin (z : Z)
| Inf.

(** Round-to-nearest, ties-to-even, of a non-negative integer to the 53
    bit significand of a double. *)
Definition float_of_Z (n : Z) : pyfloat :=
  (if n <? 2 ^ 53 then Fin n
   else
     let e := Z.log2 n - 52 in
     let q := Z.shiftr n e in
     let r := n mod 2 ^ e in
     let half := 2 ^ (e - 1) in
     let q' := if (half <? r) || ((r =? half) && Z.odd q) then q + 1 else q in
     let v := q' * 2 ^ e in
     if 2 ^ 1024 <=? v then Inf else Fin v)%Z.

Section WithRuntime.
Context {rt : Runtime}.

(** The value of a string of decimal digits, most significant first;
    [None] when a character is not a decimal digit. *)
Fixpoint digits_value (acc : Z) (s : str) : option Z :=
  match s with
  | [] => Some acc
  | c :: s' =>
      match to_decimal c with
      | Some d => digits_value (10 * acc + digit_value d) s'
      | None => None
      end
  end.

(** [float(s)] for the strings the parser passes: what is left of a
    match of [[\d.,]+] once the separators are removed.  The empty
    string is a [ValueError]. *)
Definition float (s : str) : result pyfloat :=
  match s with
  | [] => Exc ValueError
  | _ :: _ =>
      match digits_value 0 s with
      | Some n => Ok (float_of_Z n)
      | None => Exc ValueError
      end
  end.

(** [int(s)] for the strings the parser passes: a match of [\d+]. *)
Definition int (s : str) : result Z :=
  match s with
  | [] => Exc ValueError
  | _ :: _ =>
      if negb (int_max_str_digits =? 0)%nat
         && (int_max_str_digits <? length s)%nat
      then Exc ValueError
      else
        match digits_value 0 s with
        | Some n => Ok n
        | None => Exc ValueError
        end
  end.
End WithRuntime.

(** Decimal digits of a natural number, as text. *)
Fixpoint uint_str (d : Decimal.uint) : str :=
  match d with
  | Decimal.Nil => []
  | Decimal.D0 d => 48 :: uint_str d
  | Decimal.D1 d => 49 :: uint_str d
  | Decimal.D2 d => 50 :: uint_str d
  | Decimal.D3 d => 51 :: uint_str d
  | Decimal.D4 d => 52 :: uint_str d
  | Decimal.D5 d => 53 :: uint_str d
  | Decimal.D6 d => 54 :: uint_str d
  | Decimal.D7 d => 55 :: uint_str d
  | Decimal.D8 d => 56 :: uint_str d
  | Decimal.D9 d => 57 :: uint_str d
  end.

(** [f"{n:04d}"] for [n >= 0]: at least four digits, padded with zeros. *)
Definition format_04d (n : nat) : str :=
  let ds := uint_str (Nat.to_uint n) in
  repeat 48 (4 - length ds) ++ ds.

(** Insert a comma before every group of three digits, from the right. *)
Fixpoint group_thousands (rev_digits : str) : str :=
  match rev_digits with
  | a :: b :: c :: ((_ :: _) as rest) => a :: b :: c :: 44 :: group_thousands rest
  | _ => rev_digits
  end.

(** [f"{x:,.0f}"] on the floats above. *)
Definition format_comma_0f (x : pyfloat) : str :=
  match x with
  | Fin z => rev (group_thousands (rev (uint_str (N.to_uint (Z.to_N z)))))
  | Inf => u "inf"
  end.

End PyNum.
Import PyNum.

(* ================================================================== *)
(** * Regular expressions: the backtracking matcher of [re] *)
(* ================================================================== *)

Module Re.

(** Sets of characters. *)
Inductive cset :=
| Chr (c : char)          (* a literal character *)
| AnyChar                 (* [.]: anything but a newline *)
| Digit                   (* [\d] *)
| Space                   (* [\s] *)
| Union (a b : cset).     (* [[ab]] *)

(** The fragment of the pattern language that the parser's pattern uses:
    repetition is applied to single characters only. *)
Inductive regex :=
| Eps
| Lits (l : str)                    (* a literal string *)
| Atom (a : cset)                   (* one character *)
| Star (greedy : bool) (a : cset)   (* [a*] and [a*?] *)
| Plus (greedy : bool) (a : cset)   (* [a+] and [a+?] *)
| Opt (r : regex)                   (* [(?:r)?] *)
| Group (n : nat) (r : regex)       (* the capturing group number [n] *)
| Cat (r1 r2 : regex).

(** The groups captured so far, latest first. *)
Definition groups := list (nat * str).

(** [m.group(n)], [None] when the group took no part in the match. *)
Fixpoint group (g : groups) (n : nat) : option str :=
  match g with
  | [] => None
  | (i, s) :: g' => if (i =? n)%nat then Some s else group g' n
  end.

Notation "x 'orelse' y" :=
  (match x with Some r => Some r | None => y end)
  (at level 60, right associativity).

Section Matcher.
Context {rt : Runtime}.

Fixpoint cset_mem (a : cset) (c : char) : bool :=
  match a with
  | Chr c' => c =? c'
  | AnyChar => negb (c =? 10)
  | Digit => match to_decimal c with Some _ => true | None => false end
  | Space => isspace c
  | Union a1 a2 => cset_mem a1 c || cset_mem a2 c
  end.

(** Zero or more characters of [a], then the continuation [k] on what
    is left.  Greedy: the longest run first, then shorter ones; lazy:
    the shortest first. *)
Fixpoint star (a : cset) (greedy : bool) (k : str -> option groups)
    (s : str) : option groups :=
  match s with
  | [] => k []
  | c :: s' =>
      if cset_mem a c then
        if greedy then star a greedy k s' orelse k s
        else k s orelse star a greedy k s'
      else k s
  end.

(** [m r s g k]: match [r] at the start of [s] with the groups [g], and
    continue with [k] on the rest; the first alternative for which the
    continuation succeeds wins. *)
Fixpoint m (r : regex) (s : str) (g : groups)
    (k : str -> groups -> option groups) : option groups :=
  match r with
  | Eps => k s g
  | Lits l => if startswith l s then k (skipn (length l) s) g else None
  | Atom a =>
      match s with
      | c :: s' => if cset_mem a c then k s' g else None
      | [] => None
      end
  | Star greedy a => star a greedy (fun s' => k s' g) s
  | Plus greedy a =>
      match s with
      | c :: s' =>
          if cset_mem a c then star a greedy (fun s' => k s' g) s' else None
      | [] => None
      end
  | Opt r1 => m r1 s g k orelse k s g
  | Group n r1 =>
      m r1 s g
        (fun s' g' => k s' ((n, firstn (length s - length s') s) :: g'))
  | Cat r1 r2 => m r1 s g (fun s' g' => m r2 s' g' k)
  end.

(** [re.search(r, s)]: the match at the leftmost position that has one. *)
Fixpoint search (r : regex) (s : str) : option groups :=
  m r s [] (fun _ g => Some g)
  orelse match s with
         | [] => None
         | _ :: s' => search r s'
         end.
End Matcher.

Declare Scope regex_scope.
Delimit Scope regex_scope with re.
Infix ";;" := Cat (at level 61, right associativity) : regex_scope.

End Re.

(* ================================================================== *)
(** * convert_products.py *)
(* ================================================================== *)

Module Product.
(** One entry of [products]: the dictionary built at lines 72-81. *)
Record t := {
  id : str;
  title : str;
  category : str;
  price : pyfloat;
  original_price : pyfloat;
  discount_percent : Z;
  short_description : str;
  description : str
}.
End Product.

Module ConvertProducts.
Import Re.

(** The sample of lines 12-23, used when [untitled_products.txt] is
    missing. *)
Definition sample_product_lines : list str := [
  u "Sản phẩm Tshirt chạy bộ AirRush Gradient có giá 199.000đ";
  u "Sản phẩm Combo 3 Quần Lót Nam Trunk Excool có giá 289.000đ (Giảm 12% từ 329.000đ)";
  u "Sản phẩm Shorts thể thao nam 6 inch đai siêu co giãn có giá 239.000đ";
  u "Sản phẩm Quần Dài Nam Kaki Excool có giá 419.000đ (Giảm 16% từ 499.000đ)";
  u "Sản phẩm Áo ba lỗ nam mặc trong thoáng khí nhanh khô Excool có giá 99.000đ";
  u "Sản phẩm Áo Thun Gym Cotton Oversized Comfort Washed có giá 299.000đ";
  u "Sản phẩm Áo thun chạy bộ " ++ [34] ++ u "Việt Nam tiến bước" ++ [34]
    ++ u " có giá 239.000đ";
  u "Sản phẩm Áo Thun Nam Viet Devils - Bật Như Man có giá 329.000đ (Giảm 15% từ 389.000đ)";
  u "Sản phẩm Áo Thun Nam Viet Devils - Ăn Mày Quá Khứ có giá 329.000đ (Giảm 15% từ 389.000đ)";
  u "Sản phẩm Áo Thun Nam Viet Devils - Mùa Sau Vô Địch có giá 329.000đ (Giảm 15% từ 389.000đ)"
].

(** Line 37:
    [Sản phẩm (.+?) có giá ([\d.,]+)đ(?:\s*\(Giảm\s*(\d+)%\s*từ\s*([\d.,]+)đ\))?] *)
Definition number_chars : cset := Union Digit (Union (Chr 46) (Chr 44)).

Definition pattern : regex :=
  (Lits (u "Sản phẩm ") ;; Group 1 (Plus false AnyChar) ;;
   Lits (u " có giá ") ;; Group 2 (Plus true number_chars) ;; Lits (u "đ") ;;
   Opt (Star true Space ;; Lits (u "(Giảm") ;; Star true Space ;;
        Group 3 (Plus true Digit) ;; Lits (u "%") ;; Star true Space ;;
        Lits (u "từ") ;; Star true Space ;;
        Group 4 (Plus true number_chars) ;; Lits (u "đ)")))%re.

(** What a line of the input does to the loop of lines 32-84. *)
Inductive outcome :=
| Skipped
| Emitted (product : Product.t)
| Raised (e : exn).

(** [f"prod_{product_id:04d}"] *)
Definition format_id (product_id : nat) : str :=
  u "prod_" ++ format_04d product_id.

Section WithRuntime.
Context {rt : Runtime}.

(** [any(word in title_lower for word in words)] *)
Definition any_in (words : list str) (title_lower : str) : bool :=
  existsb (fun word => contains word title_lower) words.

(** Lines 46-69: the category of a title. *)
Definition classify (title : str) : str :=
  let title_lower := lower title in
  if any_in [u "áo thun"; u "tshirt"; u "t-shirt"] title_lower then u "Áo thun"
  else if any_in [u "quần"; u "shorts"; u "pants"] title_lower then u "Quần"
  else if any_in [u "áo polo"; u "polo"] title_lower then u "Áo polo"
  else if any_in [u "áo sơ mi"; u "shirt"] title_lower then u "Áo sơ mi"
  else if any_in [u "áo khoác"; u "jacket"; u "hoodie"; u "nỉ"] title_lower
       then u "Áo khoác"
  else if any_in [u "quần lót"; u "trunk"; u "briefs"] title_lower then u "Đồ lót"
  else if any_in [u "váy"; u "dress"] title_lower then u "Váy"
  else if any_in [u "bra"; u "áo bra"] title_lower then u "Áo bra"
  else if any_in [u "legging"; u "tights"] title_lower then u "Legging"
  else if any_in [u "tất"; u "socks"] title_lower then u "Tất"
  else u "Khác".

(** [float(text.replace(".", "").replace(",", ""))] *)
Definition parse_number (text : str) : result pyfloat :=
  float (remove_char 44 (remove_char 46 text)).

(** Lines 41-81 on a match [mt]: the record for the current
    [product_id], or the [ValueError] of a conversion. *)
Definition build_product (product_id : nat) (mt : groups) : outcome :=
  let title := strip (match group mt 1 with Some s => s | None => [] end) in
  match parse_number (match group mt 2 with Some s => s | None => [] end) with
  | Exc e => Raised e
  | Ok current_price =>
      let discount_percent := group mt 3 in
      let original_price := group mt 4 in
      let category := classify title in
      match (match original_price with
             | Some ((_ :: _) as text) => parse_number text
             | _ => Ok current_price
             end) with
      | Exc e => Raised e
      | Ok original =>
          match (match discount_percent with
                 | Some ((_ :: _) as text) => int text
                 | _ => Ok 0%Z
                 end) with
          | Exc e => Raised e
          | Ok discount =>
              Emitted
                {| Product.id := format_id product_id;
                   Product.title := title;
                   Product.category := category;
                   Product.price := current_price;
                   Product.original_price := original;
                   Product.discount_percent := discount;
                   Product.short_description := title;
                   Product.description :=
                     u "Sản phẩm " ++ title ++ u " thuộc danh mục "
                     ++ category ++ u " với giá "
                     ++ format_comma_0f current_price ++ u "đ" |}
          end
      end
  end.

(** The test of line 34 and the search of line 38, on the stripped
    line. *)
Definition find_match (line : str) : option groups :=
  let line := strip line in
  if nonempty line && startswith (u "Sản phẩm") line
  then search pattern line
  else None.

(** One turn of the loop of lines 32-84. *)
Definition parse_line (product_id : nat) (line : str) : outcome :=
  match find_match line with
  | Some mt => build_product product_id mt
  | None => Skipped
  end.

(** The loop of lines 32-84 with its two variables. *)
Fixpoint parse_loop (product_lines : list str) (product_id : nat)
    (products : list Product.t) : result (list Product.t) :=
  match product_lines with
  | [] => Ok products
  | line :: rest =>
      match parse_line product_id line with
      | Skipped => parse_loop rest product_id products
      | Emitted product => parse_loop rest (S product_id) (products ++ [product])
      | Raised e => Exc e
      end
  end.

(** [parse_products_from_text()]; [file] is [f.readlines()] of
    [untitled_products.txt], or [None] when the file does not exist. *)
Definition parse_products_from_text (file : option (list str))
    : result (list Product.t) :=
  let product_lines :=
    match file with
    | Some lines => lines
    | None => sample_product_lines
    end in
  parse_loop product_lines 1 [].
End WithRuntime.

End ConvertProducts.

(* ================================================================== *)
(** * A runtime for Vietnamese text *)
(* ================================================================== *)

Module Vietnamese.

(** The lower-case mapping of one code point, as CPython 3.11 has it on
    Basic Latin, Latin-1 Supplement, Latin Extended-A, the letters
    U+01A0, U+01A1, U+01AF, U+01B0 and U+1EA0 to U+1EFF; other code
    points are left as they are. *)
Definition lower_char (c : char) : str :=
  if (65 <=? c) && (c <=? 90) then [c + 32]
  else if (192 <=? c) && (c <=? 222) && negb (c =? 215) then [c + 32]
  else if c =? 304 then [105; 775]
  else if (((256 <=? c) && (c <=? 311)) || ((330 <=? c) && (c <=? 375)))
          && N.even c then [c + 1]
  else if (((313 <=? c) && (c <=? 328)) || ((377 <=? c) && (c <=? 382)))
          && N.odd c then [c + 1]
  else if c =? 376 then [255]
  else if (c =? 416) || (c =? 431) then [c + 1]
  else if (7840 <=? c) && (c <=? 7935) && N.even c then [c + 1]
  else [c].

(** The decimal digits below U+0660 are the ASCII ones. *)
Definition ascii_decimal (c : char) : option digit :=
  if c =? 48 then Some Zero
  else if c =? 49 then Some One
  else if c =? 50 then Some Two
  else if c =? 51 then Some Three
  else if c =? 52 then Some Four
  else if c =? 53 then Some Five
  else if c =? 54 then Some Six
  else if c =? 55 then Some Seven
  else if c =? 56 then Some Eight
  else if c =? 57 then Some Nine
  else None.

(** CPython 3.11 with its default settings, on text whose characters lie
    in the ranges above. *)
#[export] Instance runtime : Runtime := {|
  to_decimal := ascii_decimal;
  lower := flat_map lower_char;
  int_max_str_digits := 4300
|}.

End Vietnamese.

(* ================================================================== *)
(** * assignment_10.py *)
(* ================================================================== *)

(** An embedding is a list of doubles; the program never looks inside. *)
Definition embedding := list Q.

Module Metadata.
(** The [metadata] of a vector (lines 151-157). *)
Record t := {
  title : str;
  category : str;
  price : pyfloat;
  description : str;
  discount_percent : Z
}.
End Metadata.

Module Vector.
(** A vector to upsert (lines 148-158). *)
Record t := {
  id : str;
  values : embedding;
  metadata : Metadata.t
}.
End Vector.

Module Match.
(** One entry of [results.matches]. *)
Record t := {
  id : str;
  score : Q;
  metadata : Metadata.t
}.
End Match.

(** The two hosted services.  A call takes the state of the outside world
    and returns a reply, or the exception it raises, and the next state. *)
Class Services (World : Type) := {
  embeddings_create : str -> World -> result embedding * World;
  describe_index_stats : World -> result Z * World;
  index_upsert : list Vector.t -> World -> result unit * World;
  index_query : embedding -> Z -> World -> result (list Match.t) * World
}.

Module Assignment10.

(** What the page displays through [st.error], [st.info], [st.success],
    [st.warning] and [st.markdown]. *)
Inductive message :=
| ErrorGettingEmbedding (e : exn)                  (* line 91 *)
| InfoAlreadyContains (total_vector_count : Z)     (* line 133 *)
| ErrorProcessingProduct (id : str) (e : exn)      (* line 172 *)
| SuccessUploaded (n : nat)                        (* line 181 *)
| InfoFinalStats (total_vector_count : Z)          (* line 185 *)
| ErrorEmbeddingGeneration (e : exn)               (* line 188 *)
| ErrorDuringSearch (e : exn)                      (* line 206 *)
| FoundSimilar (n : nat)                           (* line 305 *)
| WarningNoProductsMatchFilters                    (* line 335 *)
| ErrorNoSimilarProducts.                          (* line 337 *)

(** The trace of a run: every call to a service with its reply, and
    every message displayed. *)
Inductive event :=
| EmbeddingsCreate (input : str) (reply : result embedding)
| DescribeIndexStats (reply : result Z)
| IndexUpsert (vectors : list Vector.t) (reply : result unit)
| IndexQuery (vector : embedding) (top_k : Z) (reply : result (list Match.t))
| Display (msg : message).

Section WithServices.
Context {World : Type} {services : Services World}.

(** Computations that call the services, may raise, and leave a trace. *)
Definition M (A : Type) : Type := World -> result A * World * list event.

Definition ret {A} (a : A) : M A := fun w => (Ok a, w, []).

Definition raise {A} (e : exn) : M A := fun w => (Exc e, w, []).

Definition bind {A B} (c : M A) (f : A -> M B) : M B :=
  fun w =>
    match c w with
    | (Ok a, w1, t1) => let '(r, w2, t2) := f a w1 in (r, w2, t1 ++ t2)
    | (Exc e, w1, t1) => (Exc e, w1, t1)
    end.

(** [try: c  except Exception as e: handler(e)] *)
Definition try_except {A} (c : M A) (handler : exn -> M A) : M A :=
  fun w =>
    match c w with
    | (Ok a, w1, t1) => (Ok a, w1, t1)
    | (Exc e, w1, t1) => let '(r, w2, t2) := handler e w1 in (r, w2, t1 ++ t2)
    end.

Definition display (msg : message) : M unit := fun w => (Ok tt, w, [Display msg]).

Notation "x <- c ;; f" := (bind c (fun x => f))
  (at level 61, c at next level, right associativity).
Notation "c ;; f" := (bind c (fun _ => f))
  (at level 61, right associativity).

(** The calls to the services, recorded in the trace. *)
Definition client_embeddings_create (input : str) : M embedding :=
  fun w => let '(r, w1) := embeddings_create input w in (r, w1, [EmbeddingsCreate input r]).

Definition index_describe_index_stats : M Z :=
  fun w => let '(r, w1) := describe_index_stats w in (r, w1, [DescribeIndexStats r]).

Definition index_upsert_vectors (vectors : list Vector.t) : M unit :=
  fun w => let '(r, w1) := index_upsert vectors w in (r, w1, [IndexUpsert vectors r]).

Definition index_query_matches (vector : embedding) (top_k : Z) : M (list Match.t) :=
  fun w =>
    let '(r, w1) := index_query vector top_k w in (r, w1, [IndexQuery vector top_k r]).

(** Lines 78-92. *)
Definition get_embedding (text : str) : M embedding :=
  try_except (client_embeddings_create text)
    (fun e => display (ErrorGettingEmbedding e) ;; raise e).

(** Line 142. *)
Definition rich_description (product : Product.t) : str :=
  Product.title product ++ u " " ++ Product.category product ++ u " "
  ++ Product.description product.

(** Lines 148-158.  Every record of the catalogue has its
    [discount_percent], so the default of [get] is not used. *)
Definition vector_of (product : Product.t) (values : embedding) : Vector.t :=
  {| Vector.id := Product.id product;
     Vector.values := values;
     Vector.metadata :=
       {| Metadata.title := Product.title product;
          Metadata.category := Product.category product;
          Metadata.price := Product.price product;
          Metadata.description := Product.description product;
          Metadata.discount_percent := Product.discount_percent product |} |}.

(** One turn of the loop of lines 139-173, from the buffer
    [vectors_to_upsert] before the turn to the buffer after it.  The
    vector is appended to the buffer in place before the flush is
    tried, and the buffer is reset only by the statement that follows
    a flush that returned. The progress widgets are left out. *)
Definition process_product (product : Product.t)
    (vectors_to_upsert : list Vector.t) : M (list Vector.t) :=
  fun w =>
    match get_embedding (rich_description product) w with
    | (Exc e, w1, t1) =>
        (Ok vectors_to_upsert, w1,
         t1 ++ [Display (ErrorProcessingProduct (Product.id product) e)])
    | (Ok values, w1, t1) =>
        let vectors_to_upsert := vectors_to_upsert ++ [vector_of product values] in
        if (50 <=? length vectors_to_upsert)%nat then
          match index_upsert_vectors vectors_to_upsert w1 with
          | (Ok _, w2, t2) => (Ok [], w2, t1 ++ t2)
          | (Exc e, w2, t2) =>
              (Ok vectors_to_upsert, w2,
               t1 ++ t2 ++ [Display (ErrorProcessingProduct (Product.id product) e)])
          end
        else (Ok vectors_to_upsert, w1, t1)
    end.

(** The loop of lines 139-173. *)
Fixpoint upload_loop (products : list Product.t)
    (vectors_to_upsert : list Vector.t) : M (list Vector.t) :=
  match products with
  | [] => ret vectors_to_upsert
  | product :: rest =>
      vectors_to_upsert <- process_product product vectors_to_upsert ;;
      upload_loop rest vectors_to_upsert
  end.

(** Lines 124-189, the body of the function. *)
Definition generate_and_upsert_embeddings (products : list Product.t) : M unit :=
  try_except
    (total_vector_count <- index_describe_index_stats ;;
     if (0 <? total_vector_count)%Z then
       display (InfoAlreadyContains total_vector_count)
     else
       vectors_to_upsert <- upload_loop products [] ;;
       (if nonempty vectors_to_upsert
        then index_upsert_vectors vectors_to_upsert
        else ret tt) ;;
       display (SuccessUploaded (length products)) ;;
       final_count <- index_describe_index_stats ;;
       display (InfoFinalStats final_count))
    (fun e => display (ErrorEmbeddingGeneration e) ;; raise e).

(** The decorator of line 123.  The three parameters start with an
    underscore, so none of them is part of the key: once a call has
    returned, later calls return its result and do not run the body.
    [cached] tells whether the entry exists.  What the framework shows
    again on such a call is display only and is not part of the
    trace. *)
Definition st_cache_data (body : M unit) (cached : bool)
    : World -> result unit * World * list event * bool :=
  fun w =>
    if cached then (Ok tt, w, [], true)
    else
      match body w with
      | (Ok a, w1, t1) => (Ok a, w1, t1, true)
      | (Exc e, w1, t1) => (Exc e, w1, t1, false)
      end.

(** Lines 191-207. *)
Definition search_similar_products (query : str) (top_k : Z) : M (list Match.t) :=
  try_except
    (query_embedding <- get_embedding query ;;
     matches <- index_query_matches query_embedding top_k ;;
     ret matches)
    (fun e => display (ErrorDuringSearch e) ;; ret []).

(** [lo <= x <= hi] between two [int] bounds and a float. *)
Definition between (lo : Z) (x : pyfloat) (hi : Z) : bool :=
  match x with
  | Fin z => (lo <=? z)%Z && (z <=? hi)%Z
  | Inf => false
  end.

(** The test of lines 298-299. *)
Definition passes_filters (selected_category : str) (price_range : Z * Z)
    (match_ : Match.t) : bool :=
  let metadata := Match.metadata match_ in
  (eqb selected_category (u "All Categories")
   || eqb (Metadata.category metadata) selected_category)
  && between (fst price_range) (Metadata.price metadata) (snd price_range).

(** The loop of lines 295-302, with its [break]. *)
Fixpoint filter_matches (selected_category : str) (price_range : Z * Z)
    (top_k : Z) (matches filtered_matches : list Match.t) : list Match.t :=
  match matches with
  | [] => filtered_matches
  | match_ :: rest =>
      if passes_filters selected_category price_range match_ then
        let filtered_matches := filtered_matches ++ [match_] in
        if (top_k <=? Z.of_nat (length filtered_matches))%Z
        then filtered_matches
        else filter_matches selected_category price_range top_k rest filtered_matches
      else filter_matches selected_category price_range top_k rest filtered_matches
  end.

(** Lines 289-337 of [main]: the block run for a query, given the
    values of the widgets; it returns the matches it lists
    ([filtered_matches]). *)
Definition main_query (query : str) (top_k : Z) (selected_category : str)
    (price_range : Z * Z) : M (list Match.t) :=
  if nonempty query then
    matches <- search_similar_products query (top_k * 2)%Z ;;
    if nonempty matches then
      let filtered_matches :=
        filter_matches selected_category price_range top_k matches [] in
      if nonempty filtered_matches then
        display (FoundSimilar (length filtered_matches)) ;; ret filtered_matches
      else
        display WarningNoProductsMatchFilters ;; ret filtered_matches
    else
      display ErrorNoSimilarProducts ;; ret []
  else ret [].
End WithServices.

(** ** Reading a trace *)

(** The inputs of the calls to the embedding provider, in order. *)
Definition embedding_inputs (t : list event) : list str :=
  flat_map (fun ev => match ev with EmbeddingsCreate input _ => [input] | _ => [] end) t.

(** The batches sent to the index, in order, with the reply to each. *)
Definition upserts (t : list event) : list (list Vector.t * result unit) :=
  flat_map (fun ev => match ev with IndexUpsert vs r => [(vs, r)] | _ => [] end) t.

Definition is_ok {A} (r : result A) : bool :=
  match r with Ok _ => true | Exc _ => false end.

(** The batches that the index accepted. *)
Definition flushed (t : list event) : list (list Vector.t) :=
  map fst (filter (fun b => is_ok (snd b)) (upserts t)).

(** The queries sent to the index, in order, with the reply to each. *)
Definition queries (t : list event) : list (embedding * Z * result (list Match.t)) :=
  flat_map (fun ev => match ev with IndexQuery v k r => [(v, k, r)] | _ => [] end) t.

End Assignment10.

(* ================================================================== *)
(** * The notions the properties are stated with *)
(* ================================================================== *)

Module Spec.
Import Re ConvertProducts Assignment10.

(** ** The classifier as an ordered table *)

(** The rules as a list of (category, keywords), in the order of the
    tests of lines 50-69. *)
Definition category_rules : list (str * list str) := [
  (u "Áo thun", [u "áo thun"; u "tshirt"; u "t-shirt"]);
  (u "Quần", [u "quần"; u "shorts"; u "pants"]);
  (u "Áo polo", [u "áo polo"; u "polo"]);
  (u "Áo sơ mi", [u "áo sơ mi"; u "shirt"]);
  (u "Áo khoác", [u "áo khoác"; u "jacket"; u "hoodie"; u "nỉ"]);
  (u "Đồ lót", [u "quần lót"; u "trunk"; u "briefs"]);
  (u "Váy", [u "váy"; u "dress"]);
  (u "Áo bra", [u "bra"; u "áo bra"]);
  (u "Legging", [u "legging"; u "tights"]);
  (u "Tất", [u "tất"; u "socks"])
].

Definition default_category : str := u "Khác".

(** The category of the first rule one of whose keywords occurs in the
    lower-cased title, the default when there is none. *)
Fixpoint first_match (rules : list (str * list str)) (title_lower : str) : str :=
  match rules with
  | [] => default_category
  | (category, words) :: rest =>
      if existsb (fun word => contains word title_lower) words then category
      else first_match rest title_lower
  end.

Definition categories : list str := map fst category_rules ++ [default_category].

(** The keywords of the rule of a category. *)
Definition keywords (category : str) : list str :=
  match find (fun rule => eqb (fst rule) category) category_rules with
  | Some rule => snd rule
  | None => []
  end.

(** A keyword of the category occurs in the lower-cased title. *)
Definition has_keyword (category title_lower : str) : bool :=
  existsb (fun word => contains word title_lower) (keywords category).

(** ** What a pattern matches *)

Section Matches.
Context {rt : Runtime}.

(** [matches r w g g']: the pattern [r] matches exactly the text [w],
    taking the captured groups from [g] to [g']. *)
Fixpoint matches (r : regex) (w : str) (g g' : groups) : Prop :=
  match r with
  | Eps => w = [] /\ g' = g
  | Lits l => w = l /\ g' = g
  | Atom a => exists c, w = [c] /\ cset_mem a c = true /\ g' = g
  | Star _ a => forallb (cset_mem a) w = true /\ g' = g
  | Plus _ a => w <> [] /\ forallb (cset_mem a) w = true /\ g' = g
  | Opt r1 => (w = [] /\ g' = g) \/ matches r1 w g g'
  | Group n r1 => exists g1, matches r1 w g g1 /\ g' = (n, w) :: g1
  | Cat r1 r2 =>
      exists w1 w2 g1, w = w1 ++ w2 /\ matches r1 w1 g g1 /\ matches r2 w2 g1 g'
  end.

(** The line is one the loop makes a record from, or raises on. *)
Definition matches_grammar (line : str) : bool :=
  match find_match line with Some _ => true | None => false end.
End Matches.

(** The optional clause of the pattern, [(Giảm <percent>% từ
    <original>đ)], with the white space allowed around its parts. *)
Definition discount_clause (percent original text : str) : Prop :=
  exists ws1 ws2 ws3 ws4,
    forallb isspace ws1 = true /\ forallb isspace ws2 = true
    /\ forallb isspace ws3 = true /\ forallb isspace ws4 = true
    /\ text = ws1 ++ u "(Giảm" ++ ws2 ++ percent ++ u "%" ++ ws3
              ++ u "từ" ++ ws4 ++ original ++ u "đ)".


(** ** Constraints on the fields of a record *)

(** [x <= y] on the floats of the parser. *)
Definition pyfloat_le (x y : pyfloat) : Prop :=
  match x, y with
  | Fin a, Fin b => (a <= b)%Z
  | _, Inf => True
  | Inf, Fin _ => False
  end.

(** The double nearest to a non-negative integer. *)
Definition double_of_integer (x : pyfloat) : Prop :=
  exists n, (0 <= n)%Z /\ x = float_of_Z n.

(** A non-negative number: an integer, or [inf]. *)
Definition nonneg (x : pyfloat) : Prop :=
  match x with
  | Fin z => (0 <= z)%Z
  | Inf => True
  end.

(** [discount_percent == 0] if and only if [original_price == price]. *)
Definition discount_iff_reduced (product : Product.t) : Prop :=
  Product.discount_percent product = 0%Z
  <-> Product.original_price product = Product.price product.

(** The constraints of the data model: [price] a non-negative integer
    value, [original_price >= price], [discount_percent] from 0 to 100. *)
Definition field_constraints (product : Product.t) : Prop :=
  (exists z, Product.price product = Fin z /\ (0 <= z)%Z)
  /\ pyfloat_le (Product.price product) (Product.original_price product)
  /\ (0 <= Product.discount_percent product <= 100)%Z.

(** The index written in an id made by [format_id]. *)
Definition id_index (id : str) : option nat :=
  if startswith (u "prod_") id then
    match digits_value (rt := Vietnamese.runtime) 0 (skipn 5 id) with
    | Some n => Some (Z.to_nat n)
    | None => None
    end
  else None.

(** ** Reading the trace of an upload *)

(** The replies of the embedding provider, in order. *)
Definition embedding_replies (t : list event) : list (result embedding) :=
  flat_map (fun ev => match ev with EmbeddingsCreate _ r => [r] | _ => [] end) t.

(** The vectors of the records whose embedding succeeded, in the order
    of the catalogue: the reply number [i] is the one for the record
    number [i]. *)
Definition embedded (products : list Product.t) (t : list event) : list Vector.t :=
  flat_map
    (fun pr => match snd pr with
               | Ok values => [vector_of (fst pr) values]
               | Exc _ => []
               end)
    (combine products (embedding_replies t)).

(** The batches sent to the index, accepted or not. *)
Definition sent (t : list event) : list (list Vector.t) := map fst (upserts t).

(** Batches of exactly 50, but for a last one that may hold fewer. *)
Definition batches_of_50 (batches : list (list Vector.t)) : Prop :=
  Forall (fun batch => length batch = 50%nat) (removelast batches)
  /\ Forall (fun batch => (1 <= length batch <= 50)%nat) batches.

(** Every embedded record is in exactly one batch: the batches, put end
    to end, are the embedded records. *)
Definition each_in_one_batch (products : list Product.t) (t : list event) : Prop :=
  concat (sent t) = embedded products t.

(** The records for which a failure was reported (line 172). *)
Definition reported (t : list event) : list (str * exn) :=
  flat_map (fun ev => match ev with
                      | Display (ErrorProcessingProduct id e) => [(id, e)]
                      | _ => []
                      end) t.

(** The replies of the index to the queries that returned. *)
Definition replies (t : list event) : list Match.t :=
  flat_map (fun q => match snd q with Ok matches => matches | Exc _ => [] end)
    (queries t).

(** ** The turns of the upload loop, as seen in the trace *)

(** [turn product buffer t buffer']: what one turn of the loop does for
    [product], from the buffer before to the buffer after, with the
    events [t]. *)
Inductive turn (product : Product.t) (buffer : list Vector.t)
    : list event -> list Vector.t -> Prop :=
| turn_embedding_failed e :
    turn product buffer
      [EmbeddingsCreate (rich_description product) (Exc e);
       Display (ErrorGettingEmbedding e);
       Display (ErrorProcessingProduct (Product.id product) e)]
      buffer
| turn_buffered values :
    (length (buffer ++ [vector_of product values]) < 50)%nat ->
    turn product buffer
      [EmbeddingsCreate (rich_description product) (Ok values)]
      (buffer ++ [vector_of product values])
| turn_flushed values :
    (50 <= length (buffer ++ [vector_of product values]))%nat ->
    turn product buffer
      [EmbeddingsCreate (rich_description product) (Ok values);
       IndexUpsert (buffer ++ [vector_of product values]) (Ok tt)]
      []
| turn_flush_failed values e :
    (50 <= length (buffer ++ [vector_of product values]))%nat ->
    turn product buffer
      [EmbeddingsCreate (rich_description product) (Ok values);
       IndexUpsert (buffer ++ [vector_of product values]) (Exc e);
       Display (ErrorProcessingProduct (Product.id product) e)]
      (buffer ++ [vector_of product values]).

Inductive turns : list Product.t -> list Vector.t -> list event
                  -> list Vector.t -> Prop :=
| turns_nil buffer : turns [] buffer [] buffer
| turns_cons product products buffer t1 buffer1 t2 buffer2 :
    turn product buffer t1 buffer1 ->
    turns products buffer1 t2 buffer2 ->
    turns (product :: products) buffer (t1 ++ t2) buffer2.

End Spec.

(* ================================================================== *)
(** * Inputs used in the examples *)
(* ================================================================== *)

Module Examples.
Import ConvertProducts.

(** The eighth line of the sample. *)
Definition viet_devils_line : str :=
  u "Sản phẩm Áo Thun Nam Viet Devils - Bật Như Man có giá 329.000đ (Giảm 15% từ 389.000đ)".

(** A line without a discount clause. *)
Definition tshirt_line : str :=
  u "Sản phẩm Tshirt chạy bộ AirRush Gradient có giá 199.000đ".

(** A discount of zero percent from a higher price. *)
Definition zero_percent_line : str :=
  u "Sản phẩm Áo có giá 100đ (Giảm 0% từ 200đ)".

(** A discount from the price itself. *)
Definition same_price_line : str :=
  u "Sản phẩm Áo có giá 100đ (Giảm 10% từ 100đ)".

(** A discount of 150 percent from a lower price. *)
Definition wild_clause_line : str :=
  u "Sản phẩm Áo có giá 200đ (Giảm 150% từ 100đ)".

(** A price of 310 digits. *)
Definition huge_price_line : str :=
  u "Sản phẩm Áo có giá " ++ repeat 57 310 ++ u "đ".

(** A price made of separators only. *)
Definition no_digit_line : str := u "Sản phẩm Áo có giá .đ".

(** Two product lines around a heading, a blank line and a line whose
    price has no currency sign. *)
Definition mixed_lines : list str := [
  u "Danh sách sản phẩm";
  u "Sản phẩm Áo có giá 100đ" ++ [10];
  u "   " ++ [10];
  u "Sản phẩm Quần có giá 200";
  u "  Sản phẩm Quần có giá 200đ  " ++ [10]
].

(** Titles with keywords of more than one category. *)
Definition ao_thun_quan_title : str := u "Combo Áo Thun và Quần Shorts".
Definition ao_thun_quan_lot_title : str := u "Set áo thun và quần lót nam".
Definition trunk_title : str := u "Boxer Trunk Excool".

End Examples.

(* ================================================================== *)
(** * Services in memory, for the examples *)
(* ================================================================== *)

Module InMemory.
Import ConvertProducts.

(** An index kept in a list and a provider that rejects given inputs;
    the next [failing_upserts] calls of [upsert] raise. *)
Record world := {
  stored : list Vector.t;
  failing_upserts : nat;
  failing_inputs : list str
}.

Definition unavailable : exn := ServiceError (u "service unavailable").

Definition same_id (v v' : Vector.t) : bool := eqb (Vector.id v) (Vector.id v').

(** Insert, or overwrite the vector of the same id. *)
Definition upsert_all (vectors stored : list Vector.t) : list Vector.t :=
  filter (fun v => negb (existsb (same_id v) vectors)) stored ++ vectors.

Definition as_match (v : Vector.t) : Match.t :=
  {| Match.id := Vector.id v; Match.score := 1; Match.metadata := Vector.metadata v |}.

#[export] Instance services : Services world := {|
  embeddings_create input w :=
    if existsb (eqb input) (failing_inputs w)
    then (Exc unavailable, w)
    else (Ok [inject_Z (Z.of_nat (length input))], w);
  describe_index_stats w := (Ok (Z.of_nat (length (stored w))), w);
  index_upsert vectors w :=
    match failing_upserts w with
    | S n =>
        (Exc unavailable,
         {| stored := stored w; failing_upserts := n;
            failing_inputs := failing_inputs w |})
    | O =>
        (Ok tt,
         {| stored := upsert_all vectors (stored w); failing_upserts := 0;
            failing_inputs := failing_inputs w |})
    end;
  index_query vector top_k w :=
    (Ok (firstn (Z.to_nat top_k) (map as_match (stored w))), w)
|}.

(** The record number [i] of a catalogue of T-shirts. *)
Definition tshirt (i : nat) : Product.t :=
  let title := u "Tshirt " ++ format_04d i in
  let price := Fin (1000 * Z.of_nat i) in
  {| Product.id := format_id i;
     Product.title := title;
     Product.category := u "Áo thun";
     Product.price := price;
     Product.original_price := price;
     Product.discount_percent := 0;
     Product.short_description := title;
     Product.description :=
       u "Sản phẩm " ++ title ++ u " thuộc danh mục Áo thun với giá "
       ++ format_comma_0f price ++ u "đ" |}.

Definition catalogue (n : nat) : list Product.t := map tshirt (seq 1 n).

(** An empty index and a provider in working order; the first
    [failing] calls of [upsert] raise. *)
Definition empty_store (failing : nat) : world :=
  {| stored := []; failing_upserts := failing; failing_inputs := [] |}.

(** An index that holds the vectors of a catalogue of [n] records. *)
Definition loaded_store (n : nat) : world :=
  {| stored := map (fun p => Assignment10.vector_of p []) (catalogue n);
     failing_upserts := 0; failing_inputs := [] |}.

End InMemory.

From Stdlib Require DecimalPos DecimalN.

(* ================================================================== *)
(** * assignment_10.py: the initial values of the filters in [main] *)
(* ================================================================== *)

Module Main.







End Main.

(* ================================================================== *)
(** * Services that are down, for the examples *)
(* ================================================================== *)

Module Offline.

(** Every call raises. *)
#[export] Instance services : Services unit := {|
  embeddings_create _ w := (Exc InMemory.unavailable, w);
  describe_index_stats w := (Exc InMemory.unavailable, w);
  index_upsert _ w := (Exc InMemory.unavailable, w);
  index_query _ _ w := (Exc InMemory.unavailable, w)
|}.

(** An empty index in working order and a provider that rejects the
    description of every record of the catalogue of [n] records. *)
Definition rejecting_provider (n : nat) : InMemory.world :=
  {| InMemory.stored := [];
     InMemory.failing_upserts := 0;
     InMemory.failing_inputs :=
       map Assignment10.rich_description (InMemory.catalogue n) |}.

End Offline.

(* ================================================================== *)
(** * More notions for the properties *)
(* ================================================================== *)

Module More.
Import Re ConvertProducts Assignment10 Spec.

(** The text of a number without its separators (line 42). *)
Definition without_separators (text : str) : str :=
  remove_char 44 (remove_char 46 text).

(** Everything in a record but its id. *)
Definition content (product : Product.t)
    : str * str * pyfloat * pyfloat * Z * str * str :=
  (Product.title product, Product.category product, Product.price product,
   Product.original_price product, Product.discount_percent product,
   Product.short_description product, Product.description product).

(** The record that lines 72-81 build from a title and three numbers. *)
Definition record {rt : Runtime} (product_id : nat) (title : str)
    (price original : pyfloat) (discount : Z) : Product.t :=
  {| Product.id := format_id product_id;
     Product.title := title;
     Product.category := classify title;
     Product.price := price;
     Product.original_price := original;
     Product.discount_percent := discount;
     Product.short_description := title;
     Product.description :=
       u "Sản phẩm " ++ title ++ u " thuộc danh mục " ++ classify title
       ++ u " với giá " ++ format_comma_0f price ++ u "đ" |}.

(** A record under another id. *)
Definition with_id (id : str) (product : Product.t) : Product.t :=
  {| Product.id := id;
     Product.title := Product.title product;
     Product.category := Product.category product;
     Product.price := Product.price product;
     Product.original_price := Product.original_price product;
     Product.discount_percent := Product.discount_percent product;
     Product.short_description := Product.short_description product;
     Product.description := Product.description product |}.

(** The records numbered again, from [start] on. *)
Fixpoint renumber (start : nat) (products : list Product.t) : list Product.t :=
  match products with
  | [] => []
  | product :: rest => with_id (format_id start) product :: renumber (S start) rest
  end.

(** The table of the classifier without the three keywords that contain
    a keyword tested no later: "áo polo", "áo bra" and "quần lót". *)
Definition shorter_rules : list (str * list str) := [
  (u "Áo thun", [u "áo thun"; u "tshirt"; u "t-shirt"]);
  (u "Quần", [u "quần"; u "shorts"; u "pants"]);
  (u "Áo polo", [u "polo"]);
  (u "Áo sơ mi", [u "áo sơ mi"; u "shirt"]);
  (u "Áo khoác", [u "áo khoác"; u "jacket"; u "hoodie"; u "nỉ"]);
  (u "Đồ lót", [u "trunk"; u "briefs"]);
  (u "Váy", [u "váy"; u "dress"]);
  (u "Áo bra", [u "bra"]);
  (u "Legging", [u "legging"; u "tights"]);
  (u "Tất", [u "tất"; u "socks"])
].

(** The first character, if any, is not in the set. *)
Definition starts_outside {rt : Runtime} (a : cset) (s : str) : bool :=
  match s with
  | [] => true
  | c :: _ => negb (cset_mem a c)
  end.

(** The optional part of the pattern of line 37, and what is before it. *)
Definition clause : regex :=
  (Star true Space ;; Lits (u "(Giảm") ;; Star true Space ;;
   Group 3 (Plus true Digit) ;; Lits (u "%") ;; Star true Space ;;
   Lits (u "từ") ;; Star true Space ;;
   Group 4 (Plus true number_chars) ;; Lits (u "đ)"))%re.

(** The call of line 177, made when the buffer is not empty, once it
    has returned. *)
Definition last_flush (buffer : list Vector.t) : list event :=
  match buffer with
  | [] => []
  | _ :: _ => [IndexUpsert buffer (Ok tt)]
  end.


(** The messages displayed, in order. *)
Definition displayed (t : list event) : list message :=
  flat_map (fun ev => match ev with Display msg => [msg] | _ => [] end) t.

(** The calls to a service in the trace. *)
Definition is_call (ev : event) : bool :=
  match ev with Display _ => false | _ => true end.

Definition calls (t : list event) : list event := filter is_call t.

End More.

(* ================================================================== *)
(** * Facts about text *)
(* ================================================================== *)

Module PyStrFacts.

Lemma startswith_iff (prefix s : str) :
  startswith prefix s = true <-> exists rest, s = prefix ++ rest.
Proof.
  revert s. induction prefix as [|a prefix IH]; intros s; simpl.
  - split; [intros _; now exists s | reflexivity].
  - destruct s as [|b s].
    + split; [discriminate | intros [rest H]; discriminate].
    + rewrite andb_true_iff, N.eqb_eq, IH. split.
      * intros [-> [rest ->]]. now exists rest.
      * intros [rest [= -> ->]]. split; [reflexivity | now exists rest].
Qed.

Lemma startswith_skipn (prefix s : str) :
  startswith prefix s = true -> s = prefix ++ skipn (length prefix) s.
Proof.
  intros H. apply startswith_iff in H as [rest ->].
  now rewrite skipn_app, skipn_all, Nat.sub_diag.
Qed.

Lemma contains_iff (word s : str) :
  contains word s = true <-> exists before after, s = before ++ word ++ after.
Proof.
  induction s as [|c s IH]; simpl.
  - rewrite orb_false_r, startswith_iff. split.
    + intros [rest H]. now exists [], rest.
    + intros [before [after H]]. destruct before as [|b before].
      * now exists after.
      * discriminate.
  - rewrite orb_true_iff, IH, startswith_iff. split.
    + intros [[rest H] | [before [after ->]]].
      * now exists [], rest.
      * now exists (c :: before), after.
    + intros [[|b before] [after H]].
      * left. now exists after.
      * right. injection H as _ ->. now exists before, after.
Qed.

(** A text that contains [w1 ++ w2] contains [w1]. *)
Lemma contains_app_l (w1 w2 s : str) :
  contains (w1 ++ w2) s = true -> contains w1 s = true.
Proof.
  rewrite !contains_iff. intros [before [after ->]].
  exists before, (w2 ++ after). now rewrite <- app_assoc.
Qed.

Lemma eqb_eq (s t : str) : eqb s t = true <-> s = t.
Proof.
  revert t. induction s as [|a s IH]; intros [|b t]; simpl;
    try (split; [discriminate | intros [=]]); try tauto.
  rewrite andb_true_iff, N.eqb_eq, IH. split.
  - now intros [-> ->].
  - now intros [= -> ->].
Qed.

End PyStrFacts.

(* ================================================================== *)
(** * The matcher finds only what the pattern matches *)
(* ================================================================== *)

Module ReFacts.
Import Re ConvertProducts Spec PyStrFacts.

Section WithRuntime.
Context {rt : Runtime}.

Lemma star_sound a greedy k s res :
  star a greedy k s = Some res ->
  exists w s', s = w ++ s' /\ forallb (cset_mem a) w = true /\ k s' = Some res.
Proof.
  induction s as [|c s IH]; simpl.
  - intros H. now exists [], [].
  - destruct (cset_mem a c) eqn:Hc.
    + assert (Hmore : star a greedy k s = Some res ->
                      exists w s', c :: s = w ++ s'
                        /\ forallb (cset_mem a) w = true /\ k s' = Some res).
      { intros H. apply IH in H as (w & s' & -> & Hw & Hk).
        exists (c :: w), s'. simpl. now rewrite Hc, Hw. }
      assert (Hstop : k (c :: s) = Some res ->
                      exists w s', c :: s = w ++ s'
                        /\ forallb (cset_mem a) w = true /\ k s' = Some res).
      { intros H. now exists [], (c :: s). }
      destruct greedy.
      * destruct (star a true k s) eqn:E; [intros [= <-]; auto | auto].
      * destruct (k (c :: s)) eqn:E; [intros [= <-]; auto | auto].
    + intros H. now exists [], (c :: s).
Qed.

Lemma m_sound r : forall s g k res,
  m r s g k = Some res ->
  exists w s' g', s = w ++ s' /\ matches r w g g' /\ k s' g' = Some res.
Proof.
  induction r as [|l|a|greedy a|greedy a|r1 IH1|n r1 IH1|r1 IH1 r2 IH2];
    intros s g k res; simpl.
  - intros H. now exists [], s, g.
  - destruct (startswith l s) eqn:Hl; [|discriminate].
    intros H. exists l, (skipn (length l) s), g.
    split; [now apply startswith_skipn | auto].
  - destruct s as [|c s]; [discriminate|].
    destruct (cset_mem a c) eqn:Hc; [|discriminate].
    intros H. exists [c], s, g. repeat split; eauto.
  - intros H. apply star_sound in H as (w & s' & -> & Hw & Hk).
    now exists w, s', g.
  - destruct s as [|c s]; [discriminate|].
    destruct (cset_mem a c) eqn:Hc; [|discriminate].
    intros H. apply star_sound in H as (w & s' & -> & Hw & Hk).
    exists (c :: w), s', g. simpl. rewrite Hc, Hw.
    repeat split; auto. discriminate.
  - destruct (m r1 s g k) eqn:E.
    + intros [= <-]. apply IH1 in E as (w & s' & g' & -> & Hm & Hk).
      exists w, s', g'. auto.
    + intros H. exists [], s, g. auto.
  - intros H. apply IH1 in H as (w & s' & g' & -> & Hm & Hk).
    rewrite length_app, Nat.add_sub, firstn_app, firstn_all, Nat.sub_diag in Hk.
    simpl in Hk. rewrite List.app_nil_r in Hk.
    exists w, s', ((n, w) :: g'). repeat split; eauto.
  - intros H. apply IH1 in H as (w1 & s1 & g1 & -> & Hm1 & H).
    apply IH2 in H as (w2 & s2 & g2 & -> & Hm2 & Hk).
    exists (w1 ++ w2), s2, g2. rewrite <- app_assoc.
    repeat split; auto. now exists w1, w2, g1.
Qed.

Lemma search_sound r s g :
  search r s = Some g ->
  exists before w after, s = before ++ w ++ after /\ matches r w [] g.
Proof.
  induction s as [|c s IH].
  - simpl. destruct (m r [] [] _) eqn:E; [|discriminate].
    intros [= <-]. apply m_sound in E as (w & s' & g' & Hs & Hm & [= ->]).
    now exists [], w, s'.
  - simpl. destruct (m r (c :: s) [] _) eqn:E.
    + intros [= <-]. apply m_sound in E as (w & s' & g' & Hs & Hm & [= ->]).
      now exists [], w, s'.
    + intros H. apply IH in H as (before & w & after & -> & Hm).
      now exists (c :: before), w, after.
Qed.

(** The texts the pattern of line 37 matches, and the groups of each. *)
Lemma pattern_sound w g :
  matches pattern w [] g ->
  exists title price,
    title <> [] /\ forallb (cset_mem AnyChar) title = true
    /\ price <> [] /\ forallb (cset_mem number_chars) price = true
    /\ ((g = [(2, price); (1, title)]%nat
         /\ w = u "Sản phẩm " ++ title ++ u " có giá " ++ price ++ u "đ")
        \/ exists percent original clause,
            percent <> [] /\ forallb (cset_mem Digit) percent = true
            /\ original <> []
            /\ forallb (cset_mem number_chars) original = true
            /\ discount_clause percent original clause
            /\ g = [(4, original); (3, percent); (2, price); (1, title)]%nat
            /\ w = u "Sản phẩm " ++ title ++ u " có giá " ++ price ++ u "đ"
                   ++ clause).
Proof.
  unfold pattern. cbn [matches].
  intros (w1 & w2 & g1 & -> & [-> ->] & H).
  destruct H as (title & w3 & g2 & -> & (g3 & (Ht1 & Ht2 & ->) & ->) & H).
  destruct H as (w4 & w5 & g4 & -> & [-> ->] & H).
  destruct H as (price & w6 & g5 & -> & (g6 & (Hp1 & Hp2 & ->) & ->) & H).
  destruct H as (w7 & w8 & g7 & -> & [-> ->] & H).
  exists title, price. repeat (split; [assumption|]).
  destruct H as [[-> ->] | H].
  - left. now rewrite List.app_nil_r.
  - right.
    destruct H as (ws1 & x1 & h1 & -> & [Hws1 ->] & H).
    destruct H as (x2 & x3 & h2 & -> & [-> ->] & H).
    destruct H as (ws2 & x4 & h3 & -> & [Hws2 ->] & H).
    destruct H as (percent & x5 & h4 & -> & (h5 & (Hd1 & Hd2 & ->) & ->) & H).
    destruct H as (x6 & x7 & h6 & -> & [-> ->] & H).
    destruct H as (ws3 & x8 & h7 & -> & [Hws3 ->] & H).
    destruct H as (x9 & x10 & h8 & -> & [-> ->] & H).
    destruct H as (ws4 & x11 & h9 & -> & [Hws4 ->] & H).
    destruct H as (original & x12 & h10 & -> & (h11 & (Ho1 & Ho2 & ->) & ->) & H).
    destruct H as [-> ->].
    exists percent, original. eexists.
    repeat (split; [assumption|]).
    split; [|split; reflexivity].
    now exists ws1, ws2, ws3, ws4.
Qed.

(** A match of the pattern in a line. *)
Lemma find_match_sound line mt :
  find_match line = Some mt ->
  startswith (u "Sản phẩm") (strip line) = true
  /\ exists before w after,
       strip line = before ++ w ++ after /\ matches pattern w [] mt.
Proof.
  unfold find_match.
  destruct (nonempty (strip line)); cbn [andb]; [|discriminate].
  destruct (startswith (u "Sản phẩm") (strip line)); [|discriminate].
  intros H. split; [reflexivity|]. now apply search_sound.
Qed.
End WithRuntime.

End ReFacts.

(* ================================================================== *)
(** * Facts about the conversions *)
(* ================================================================== *)

Module PyNumFacts.

(** Below 2^53 the conversion to a double is exact. *)
Lemma float_of_Z_exact (n : Z) : (n < 2 ^ 53)%Z -> float_of_Z n = Fin n.
Proof.
  intros H. unfold float_of_Z.
  destruct (Z.ltb_spec n (2 ^ 53)); [reflexivity | lia].
Qed.

(** A float is never negative when the integer is not. *)
Lemma float_of_Z_nonneg (n : Z) :
  (0 <= n)%Z ->
  match float_of_Z n with Fin z => (0 <= z)%Z | Inf => True end.
Proof.
  intros Hn. unfold float_of_Z.
  destruct (n <? 2 ^ 53)%Z; [assumption|]. cbv zeta.
  destruct (2 ^ 1024 <=? _)%Z; [exact I|].
  apply Z.mul_nonneg_nonneg; [|apply Z.pow_nonneg; lia].
  pose proof (proj2 (Z.shiftr_nonneg n (Z.log2 n - 52)) Hn).
  destruct (_ || _); lia.
Qed.

(** A float is finite when the integer is below 2^1023. *)
Lemma float_of_Z_finite (n : Z) :
  (0 <= n < 2 ^ 1023)%Z -> exists z, float_of_Z n = Fin z.
Proof.
  intros [Hlo Hhi]. unfold float_of_Z.
  destruct (Z.ltb_spec n (2 ^ 53)) as [Hsmall|Hbig]; [now exists n|].
  cbv zeta.
  set (e := (Z.log2 n - 52)%Z).
  assert (Hn : (0 < n)%Z) by lia.
  pose proof (Z.log2_spec n Hn) as [Hl1 Hl2].
  assert (Hlog : (53 <= Z.log2 n < 1023)%Z).
  { split.
    - apply Z.log2_le_pow2; lia.
    - apply Z.log2_lt_pow2; lia. }
  assert (He : (1 <= e)%Z) by (unfold e; lia).
  assert (Hq : (Z.shiftr n e < 2 ^ 53)%Z).
  { rewrite Z.shiftr_div_pow2 by lia.
    apply Z.div_lt_upper_bound; [apply Z.pow_pos_nonneg; lia|].
    rewrite <- Z.pow_add_r by lia.
    replace (e + 53)%Z with (Z.succ (Z.log2 n)) by (unfold e; lia). exact Hl2. }
  match goal with |- context [if ?c then (_ + 1)%Z else _] => set (up := c) end.
  set (q' := (if up then Z.shiftr n e + 1 else Z.shiftr n e)%Z).
  assert (Hq' : (q' <= 2 ^ 53)%Z) by (unfold q'; destruct up; lia).
  assert (Hv : (q' * 2 ^ e <= 2 ^ 53 * 2 ^ e)%Z).
  { apply Z.mul_le_mono_nonneg_r; [apply Z.pow_nonneg; lia | exact Hq']. }
  rewrite <- Z.pow_add_r in Hv by lia.
  assert (Hpow : (2 ^ (53 + e) < 2 ^ 1024)%Z).
  { apply Z.pow_lt_mono_r; unfold e; lia. }
  destruct (Z.leb_spec (2 ^ 1024) (q' * 2 ^ e)) as [Hinf|Hfin]; [lia|].
  eexists. reflexivity.
Qed.

Section WithRuntime.
Context {rt : Runtime}.

Lemma digits_value_nonneg (s : str) : forall acc n,
  (0 <= acc)%Z -> digits_value acc s = Some n -> (0 <= n)%Z.
Proof.
  induction s as [|c s IH]; cbn [digits_value]; intros acc n Hacc.
  - now intros [= <-].
  - destruct (to_decimal c) as [d|]; [|discriminate].
    apply IH. destruct d; cbn [digit_value]; lia.
Qed.

Lemma float_nonneg (s : str) (x : pyfloat) :
  float s = Ok x -> match x with Fin z => (0 <= z)%Z | Inf => True end.
Proof.
  unfold float. destruct s as [|c s]; [discriminate|].
  destruct (digits_value 0 (c :: s)) as [n|] eqn:Hn; [|discriminate].
  intros [= <-]. apply float_of_Z_nonneg.
  now apply digits_value_nonneg in Hn.
Qed.

(** What [float] returns is the double of the integer written. *)
Lemma float_value (s : str) (x : pyfloat) :
  float s = Ok x ->
  exists n, digits_value 0 s = Some n /\ (0 <= n)%Z /\ x = float_of_Z n.
Proof.
  unfold float. destruct s as [|c s]; [discriminate|].
  destruct (digits_value 0 (c :: s)) as [n|] eqn:Hn; [|discriminate].
  intros [= <-]. exists n. repeat split.
  now apply digits_value_nonneg in Hn.
Qed.

Lemma int_nonneg (s : str) (n : Z) : int s = Ok n -> (0 <= n)%Z.
Proof.
  unfold int. destruct s as [|c s]; [discriminate|].
  destruct (_ && _); [discriminate|].
  destruct (digits_value 0 (c :: s)) as [v|] eqn:Hv; [|discriminate].
  intros [= <-]. now apply digits_value_nonneg in Hv.
Qed.
End WithRuntime.

(** The digits that [format_04d] writes denote the number formatted. *)
Lemma digits_value_uint_str (d : Decimal.uint) : forall acc : nat,
  digits_value (rt := Vietnamese.runtime) (Z.of_nat acc) (uint_str d)
  = Some (Z.of_nat (Nat.of_uint_acc d acc)).
Proof.
  induction d; intros acc; cbn [uint_str Nat.of_uint_acc]; [reflexivity | ..];
    cbn [digits_value to_decimal Vietnamese.runtime];
    match goal with
    | |- context [Vietnamese.ascii_decimal ?c] =>
        let v := eval vm_compute in (Vietnamese.ascii_decimal c) in
        change (Vietnamese.ascii_decimal c) with v
    end;
    cbv iota; cbn [digit_value];
    rewrite <- IHd; f_equal; rewrite ?Nat.tail_mul_spec; lia.
Qed.

Lemma digits_value_zeros (k : nat) (s : str) :
  digits_value (rt := Vietnamese.runtime) 0 (repeat 48 k ++ s)
  = digits_value (rt := Vietnamese.runtime) 0 s.
Proof. induction k as [|k IH]; [reflexivity | exact IH]. Qed.

Lemma id_index_format_id (n : nat) :
  Spec.id_index (ConvertProducts.format_id n) = Some n.
Proof.
  unfold Spec.id_index, ConvertProducts.format_id, format_04d.
  change (startswith (u "prod_") (u "prod_" ++ ?x)) with true. cbv iota.
  change (skipn 5 (u "prod_" ++ ?x)) with x.
  rewrite digits_value_zeros.
  change 0%Z with (Z.of_nat 0).
  rewrite (digits_value_uint_str (Nat.to_uint n) 0).
  change (Nat.of_uint_acc (Nat.to_uint n) 0) with (Nat.of_uint (Nat.to_uint n)).
  now rewrite DecimalNat.Unsigned.of_to, Nat2Z.id.
Qed.

End PyNumFacts.

(* ================================================================== *)
(** * The classifier *)
(* ================================================================== *)

Module ClassifyFacts.
Import Re ConvertProducts Spec PyStrFacts.

Lemma first_match_in (rules : list (str * list str)) (title_lower : str) :
  In (first_match rules title_lower) (map fst rules ++ [default_category]).
Proof.
  induction rules as [|[category words] rules IH]; simpl.
  - now left.
  - destruct (existsb _ words); [now left | now right].
Qed.

Lemma categories_distinct : NoDup categories.
Proof.
  vm_compute.
  repeat (constructor;
          [intros H; simpl in H;
           repeat (destruct H as [H|H]; [discriminate H|]); exact H|]).
  constructor.
Qed.

Lemma quan_lot_has_quan (s : str) :
  contains (u "quần lót") s = true -> contains (u "quần") s = true.
Proof.
  change (u "quần lót") with (u "quần" ++ u " lót"). apply contains_app_l.
Qed.

Section WithRuntime.
Context {rt : Runtime}.

Lemma classify_table (title : str) :
  classify title = first_match category_rules (lower title).
Proof. reflexivity. Qed.

(** What a record that was emitted is made of. *)
Lemma build_product_inv product_id mt product :
  build_product product_id mt = Emitted product ->
  exists current_price original discount,
    parse_number (match group mt 2 with Some s => s | None => [] end)
      = Ok current_price
    /\ match group mt 4 with
       | Some ((_ :: _) as text) => parse_number text
       | _ => Ok current_price
       end = Ok original
    /\ match group mt 3 with
       | Some ((_ :: _) as text) => int text
       | _ => Ok 0%Z
       end = Ok discount
    /\ Product.id product = format_id product_id
    /\ Product.title product
       = strip (match group mt 1 with Some s => s | None => [] end)
    /\ Product.category product = classify (Product.title product)
    /\ Product.price product = current_price
    /\ Product.original_price product = original
    /\ Product.discount_percent product = discount.
Proof.
  unfold build_product.
  destruct (parse_number (match group mt 2 with Some s => s | None => [] end))
    as [current_price|] eqn:E2; [|intros [=]].
  destruct (match group mt 4 with
            | Some ((_ :: _) as text) => parse_number text
            | _ => Ok current_price
            end) as [original|] eqn:E4; [|intros [=]].
  destruct (match group mt 3 with
            | Some ((_ :: _) as text) => int text
            | _ => Ok 0%Z
            end) as [discount|] eqn:E3; [|intros [=]].
  intros [= <-]. exists current_price, original, discount. simpl.
  repeat split; assumption || reflexivity.
Qed.

Lemma parse_line_inv product_id line product :
  parse_line product_id line = Emitted product ->
  exists mt, find_match line = Some mt
             /\ build_product product_id mt = Emitted product.
Proof.
  unfold parse_line. destruct (find_match line) as [mt|]; [|intros [=]].
  intros H. now exists mt.
Qed.

Lemma parse_line_category product_id line product :
  parse_line product_id line = Emitted product ->
  Product.category product = classify (Product.title product).
Proof.
  intros H. apply parse_line_inv in H as (mt & _ & H).
  apply build_product_inv in H
    as (current & original & discount & _ & _ & _ & _ & _ & H & _).
  exact H.
Qed.
End WithRuntime.

End ClassifyFacts.

(* ================================================================== *)
(** * The loop over the lines *)
(* ================================================================== *)

Module ParserFacts.
Import Re ConvertProducts Spec PyStrFacts ReFacts ClassifyFacts PyNumFacts.

Section WithRuntime.
Context {rt : Runtime}.

Lemma build_product_not_skipped product_id mt :
  build_product product_id mt <> Skipped.
Proof.
  unfold build_product.
  destruct (parse_number (match group mt 2 with Some s => s | None => [] end));
    [|discriminate].
  destruct (match group mt 4 with
            | Some ((_ :: _) as text) => parse_number text
            | _ => Ok a
            end); [|discriminate].
  destruct (match group mt 3 with
            | Some ((_ :: _) as text) => int text
            | _ => Ok 0%Z
            end); discriminate.
Qed.

Lemma parse_line_skipped product_id line :
  parse_line product_id line = Skipped <-> matches_grammar line = false.
Proof.
  unfold parse_line, matches_grammar.
  destruct (find_match line) as [mt|].
  - split; [|discriminate]. intros H. now apply build_product_not_skipped in H.
  - split; reflexivity.
Qed.

Lemma parse_line_emitted_id product_id line product :
  parse_line product_id line = Emitted product ->
  matches_grammar line = true /\ Product.id product = format_id product_id.
Proof.
  intros H. unfold matches_grammar.
  apply parse_line_inv in H as (mt & -> & H). split; [reflexivity|].
  apply build_product_inv in H
    as (current & original & discount & _ & _ & _ & H & _).
  exact H.
Qed.

(** The records added by the loop carry the ids from the current value
    of the counter on, one for each line of the grammar. *)
Lemma parse_loop_ids lines : forall product_id products result,
  parse_loop lines product_id products = Ok result ->
  exists added,
    result = products ++ added
    /\ map Product.id added = map format_id (seq product_id (length added))
    /\ length added = length (filter matches_grammar lines).
Proof.
  induction lines as [|line lines IH]; intros product_id products result;
    cbn [parse_loop filter].
  - intros [= <-]. exists []. now rewrite List.app_nil_r.
  - destruct (parse_line product_id line) as [|product|e] eqn:Hline.
    + apply parse_line_skipped in Hline. rewrite Hline. apply IH.
    + apply parse_line_emitted_id in Hline as [-> Hid].
      intros H. apply IH in H as (added & -> & Hids & Hlen).
      exists (product :: added). rewrite <- app_assoc. split; [reflexivity|].
      cbn [map length seq]. now rewrite Hid, Hids, Hlen.
    + discriminate.
Qed.

Lemma parse_loop_skip before : forall line after product_id products,
  matches_grammar line = false ->
  parse_loop (before ++ line :: after) product_id products
  = parse_loop (before ++ after) product_id products.
Proof.
  induction before as [|l before IH]; intros line after product_id products H;
    cbn [app parse_loop].
  - apply parse_line_skipped with (product_id := product_id) in H. now rewrite H.
  - destruct (parse_line product_id l); auto.
Qed.

Lemma parse_loop_returns lines : forall product_id products,
  (forall line, In line lines ->
     forall product_id e, parse_line product_id line <> Raised e) ->
  exists result, parse_loop lines product_id products = Ok result.
Proof.
  induction lines as [|line lines IH]; intros product_id products H;
    cbn [parse_loop].
  - now exists products.
  - destruct (parse_line product_id line) as [|product|e] eqn:Hline.
    + apply IH. intros l Hl. apply H. now right.
    + apply IH. intros l Hl. apply H. now right.
    + exfalso. apply (H line (or_introl eq_refl) product_id e Hline).
Qed.

(** The three ways a line is outside the grammar. *)
Lemma matches_grammar_false line :
  matches_grammar line = false <->
  strip line = []
  \/ startswith (u "Sản phẩm") (strip line) = false
  \/ search pattern (strip line) = None.
Proof.
  unfold matches_grammar, find_match.
  destruct (strip line) as [|c s] eqn:Hs; cbn [nonempty andb].
  - split; [now left | reflexivity].
  - destruct (startswith (u "Sản phẩm") (c :: s)).
    + destruct (search pattern (c :: s)).
      * split; [discriminate | now intros [H | [H | H]]].
      * split; [now right; right | reflexivity].
    + split; [now right; left | reflexivity].
Qed.

(** The groups of a match of the pattern: 1 and 2 always, 3 and 4
    together or not at all. *)
Lemma find_match_groups line mt :
  find_match line = Some mt ->
  exists title price,
    group mt 1 = Some title /\ group mt 2 = Some price
    /\ ((group mt 3 = None /\ group mt 4 = None)
        \/ exists c1 percent c2 original,
            group mt 3 = Some (c1 :: percent)
            /\ group mt 4 = Some (c2 :: original)).
Proof.
  intros H. apply find_match_sound in H as (_ & before & w & after & _ & H).
  apply pattern_sound in H
    as (title & price & _ & _ & _ & _ & [[-> _] | H]).
  - exists title, price. repeat split. now left.
  - destruct H as (percent & original & clause & Hp & _ & Ho & _ & _ & -> & _).
    exists title, price. repeat split. right.
    destruct percent as [|c1 percent]; [contradiction|].
    destruct original as [|c2 original]; [contradiction|].
    now exists c1, percent, c2, original.
Qed.
End WithRuntime.

(** The id of the record number [i] (from 0) of a run whose ids are
    sequential from [start]. *)
Lemma sequential_ids_nth (products : list Product.t) : forall start,
  map Product.id products = map format_id (seq start (length products)) ->
  forall i product,
    nth_error products i = Some product ->
    Product.id product = format_id (start + i).
Proof.
  induction products as [|p products IH]; intros start Hids i product Hnth.
  - destruct i; discriminate Hnth.
  - cbn [length seq map] in Hids. injection Hids as Hp Hrest.
    destruct i as [|i]; cbn [nth_error] in Hnth.
    + injection Hnth as <-. now rewrite Nat.add_0_r.
    + rewrite <- Nat.add_succ_comm. now apply IH.
Qed.

(** A line of the grammar whose price is made of separators only: the
    conversion of the empty string raises, and so does the run. *)
Lemma separator_price_raises :
  matches_grammar (rt := Vietnamese.runtime) Examples.no_digit_line = true
  /\ parse_line (rt := Vietnamese.runtime) 1 Examples.no_digit_line
     = Raised ValueError
  /\ parse_products_from_text (rt := Vietnamese.runtime)
       (Some [Examples.tshirt_line; Examples.no_digit_line])
     = Exc ValueError.
Proof. repeat split; vm_compute; reflexivity. Qed.

End ParserFacts.

(* ================================================================== *)
(** * The upload loop and the query block *)
(* ================================================================== *)

Module PipelineFacts.
Import Assignment10 Spec PyStrFacts.

(** ** Traces *)

Lemma embedding_inputs_app t1 t2 :
  embedding_inputs (t1 ++ t2) = embedding_inputs t1 ++ embedding_inputs t2.
Proof. apply flat_map_app. Qed.

Lemma embedding_replies_app t1 t2 :
  embedding_replies (t1 ++ t2) = embedding_replies t1 ++ embedding_replies t2.
Proof. apply flat_map_app. Qed.

Lemma upserts_app t1 t2 : upserts (t1 ++ t2) = upserts t1 ++ upserts t2.
Proof. apply flat_map_app. Qed.

Lemma queries_app t1 t2 : queries (t1 ++ t2) = queries t1 ++ queries t2.
Proof. apply flat_map_app. Qed.

Lemma reported_app t1 t2 : reported (t1 ++ t2) = reported t1 ++ reported t2.
Proof. apply flat_map_app. Qed.

Lemma sent_app t1 t2 : sent (t1 ++ t2) = sent t1 ++ sent t2.
Proof. unfold sent. now rewrite upserts_app, map_app. Qed.

Lemma flushed_app t1 t2 : flushed (t1 ++ t2) = flushed t1 ++ flushed t2.
Proof. unfold flushed. now rewrite upserts_app, filter_app, map_app. Qed.

Lemma replies_app t1 t2 : replies (t1 ++ t2) = replies t1 ++ replies t2.
Proof. unfold replies. now rewrite queries_app, flat_map_app. Qed.

Lemma embedded_cons product products r t :
  embedded (product :: products)
    (EmbeddingsCreate (rich_description product) r :: t)
  = match r with Ok values => [vector_of product values] | Exc _ => [] end
    ++ embedded products t.
Proof. reflexivity. Qed.

Lemma embedded_skip products ev t :
  (forall input r, ev <> EmbeddingsCreate input r) ->
  embedded products (ev :: t) = embedded products t.
Proof.
  intros H. unfold embedded. cbn [embedding_replies flat_map].
  destruct ev; try reflexivity. now elim (H input reply).
Qed.

(** ** One turn *)

Section WithServices.
Context {World : Type} {services : Services World}.

Lemma process_product_turn product buffer w r w' t :
  process_product product buffer w = (r, w', t) ->
  exists buffer', r = Ok buffer' /\ turn product buffer t buffer'.
Proof.
  unfold process_product, get_embedding, try_except, client_embeddings_create,
    index_upsert_vectors, bind, display, raise.
  destruct (embeddings_create (rich_description product) w) as [[values|e] w1].
  - destruct (50 <=? length (buffer ++ [vector_of product values]))%nat eqn:Hlen.
    + apply Nat.leb_le in Hlen.
      destruct (index_upsert (buffer ++ [vector_of product values]) w1)
        as [[[]|e] w2]; intros [= <- <- <-]; eexists; split; try reflexivity.
      * now apply turn_flushed.
      * now apply turn_flush_failed.
    + apply Nat.leb_gt in Hlen. intros [= <- <- <-].
      eexists; split; [reflexivity|]. now apply turn_buffered.
  - intros [= <- <- <-]. eexists; split; [reflexivity|].
    apply turn_embedding_failed.
Qed.

Lemma upload_loop_turns products : forall buffer w r w' t,
  upload_loop products buffer w = (r, w', t) ->
  exists buffer', r = Ok buffer' /\ turns products buffer t buffer'.
Proof.
  induction products as [|product products IH]; intros buffer w r w' t;
    cbn [upload_loop].
  - unfold ret. intros [= <- <- <-]. eexists; split; [reflexivity|].
    apply turns_nil.
  - unfold bind.
    destruct (process_product product buffer w) as [[r1 w1] t1] eqn:H1.
    apply process_product_turn in H1 as (buffer1 & -> & Hturn).
    destruct (upload_loop products buffer1 w1) as [[r2 w2] t2] eqn:H2.
    apply IH in H2 as (buffer2 & -> & Hturns).
    intros [= <- <- <-]. eexists; split; [reflexivity|].
    now apply turns_cons with (buffer1 := buffer1).
Qed.
End WithServices.

(** ** What the turns leave in the trace *)

(** One call to the provider for each record, in the order of the
    catalogue. *)
Lemma turns_embedding_inputs products buffer t buffer' :
  turns products buffer t buffer' ->
  embedding_inputs t = map rich_description products.
Proof.
  induction 1 as [|product products buffer t1 buffer1 t2 buffer2 Hturn _ IH].
  - reflexivity.
  - rewrite embedding_inputs_app, IH. destruct Hturn; reflexivity.
Qed.

Lemma turn_embedded product products buffer t1 buffer1 t2 :
  turn product buffer t1 buffer1 ->
  exists vs, embedded (product :: products) (t1 ++ t2) = vs ++ embedded products t2
             /\ buffer ++ vs = concat (flushed t1) ++ buffer1.
Proof.
  intros Hturn. destruct Hturn; cbn [app]; rewrite embedded_cons.
  - exists []. rewrite !embedded_skip by discriminate.
    split; [reflexivity|]. cbn. now rewrite List.app_nil_r.
  - eexists. split; reflexivity.
  - eexists. rewrite embedded_skip by discriminate. split; [reflexivity|].
    cbn. now rewrite !List.app_nil_r.
  - eexists. rewrite !embedded_skip by discriminate. split; reflexivity.
Qed.

(** Nothing is lost and nothing is sent twice to a store that accepts:
    the buffer and the embedded records make the accepted batches and
    the buffer that is left. *)
Lemma turns_conservation products buffer t buffer' :
  turns products buffer t buffer' ->
  buffer ++ embedded products t = concat (flushed t) ++ buffer'.
Proof.
  induction 1 as [buffer|product products buffer t1 buffer1 t2 buffer2 Hturn _ IH].
  - cbn. now rewrite List.app_nil_r.
  - destruct (turn_embedded product products buffer t1 buffer1 t2 Hturn)
      as (vs & -> & Hvs).
    rewrite flushed_app, concat_app, app_assoc, Hvs, <- !app_assoc.
    now rewrite IH.
Qed.

(** Every failure inside the loop is reported for the record of the
    turn, and only such failures are. *)
Lemma turns_reported products buffer t buffer' :
  turns products buffer t buffer' ->
  (forall input e, In (EmbeddingsCreate input (Exc e)) t ->
     exists product, In product products
                     /\ rich_description product = input
                     /\ In (Product.id product, e) (reported t))
  /\ (forall vectors e, In (IndexUpsert vectors (Exc e)) t ->
        exists product values earlier,
          In product products
          /\ vectors = earlier ++ [vector_of product values]
          /\ In (Product.id product, e) (reported t))
  /\ (forall id e, In (id, e) (reported t) ->
        exists product, In product products /\ Product.id product = id).
Proof.
  induction 1 as [|product products buffer t1 buffer1 t2 buffer2 Hturn _ IH].
  - repeat split; intros; contradiction.
  - destruct IH as (IH1 & IH2 & IH3).
    repeat split.
    + intros input e Hin. rewrite reported_app. apply in_app_or in Hin as [Hin|Hin].
      * exists product. destruct Hturn; cbn in Hin;
          repeat (destruct Hin as [Hin|Hin]; try discriminate Hin);
          try contradiction.
        injection Hin as <- <-. repeat split; [now left|]. cbn. now left.
      * apply IH1 in Hin as (p & Hp & Hr & Hrep). exists p.
        repeat split; [now right | assumption | apply in_or_app; now right].
    + intros vectors e Hin. rewrite reported_app.
      apply in_app_or in Hin as [Hin|Hin].
      * destruct Hturn as [e0|values Hlt|values Hge|values e0 Hge]; cbn in Hin;
          repeat (destruct Hin as [Hin|Hin]; try discriminate Hin);
          try contradiction.
        injection Hin as <- <-. exists product, values, buffer.
        repeat split; [now left|]. cbn. now left.
      * apply IH2 in Hin as (p & values & earlier & Hp & Hv & Hrep).
        exists p, values, earlier.
        repeat split; [now right | assumption | apply in_or_app; now right].
    + intros id e Hin. rewrite reported_app in Hin.
      apply in_app_or in Hin as [Hin|Hin].
      * exists product. split; [now left|].
        destruct Hturn; cbn in Hin;
          repeat (destruct Hin as [Hin|Hin]; try discriminate Hin);
          try contradiction; now injection Hin as <- _.
      * apply IH3 in Hin as (p & Hp & Hid). exists p. split; [now right | assumption].
Qed.

(** When no call of [upsert] fails, the loop sends batches of exactly 50
    and keeps fewer than 50 records in its buffer. *)
Lemma turns_healthy products buffer t buffer' :
  turns products buffer t buffer' ->
  forallb (fun b => is_ok (snd b)) (upserts t) = true ->
  (length buffer < 50)%nat ->
  Forall (fun batch => length batch = 50%nat) (sent t)
  /\ (length buffer' < 50)%nat
  /\ sent t = flushed t.
Proof.
  induction 1 as [|product products buffer t1 buffer1 t2 buffer2 Hturn _ IH];
    intros Hok Hlen.
  - repeat split; [constructor | assumption].
  - rewrite upserts_app, forallb_app in Hok. apply andb_true_iff in Hok as [Hok1 Hok2].
    rewrite sent_app, flushed_app.
    destruct Hturn as [e|values Hlt|values Hge|values e Hge].
    + destruct (IH Hok2 Hlen) as (H1 & H2 & H3).
      change (sent [_; _; _]) with (@nil (list Vector.t)).
      change (flushed [_; _; _]) with (@nil (list Vector.t)).
      cbn [app]. auto.
    + destruct (IH Hok2 Hlt) as (H1 & H2 & H3).
      change (sent [_]) with (@nil (list Vector.t)).
      change (flushed [_]) with (@nil (list Vector.t)).
      cbn [app]. auto.
    + assert (H0 : (length (@nil Vector.t) < 50)%nat) by (cbn; lia).
      destruct (IH Hok2 H0) as (H1 & H2 & H3).
      change (sent [_; IndexUpsert ?b _]) with [b].
      change (flushed [_; IndexUpsert ?b _]) with [b].
      cbn [app]. rewrite <- H3. repeat split; [|assumption].
      constructor; [|assumption].
      rewrite length_app in Hge |- *. cbn [length] in Hge |- *. lia.
    + discriminate Hok1.
Qed.

(** ** The whole upload *)

Section WithServices.
Context {World : Type} {services : Services World}.

(** The run on a store that reports a count above zero. *)
Lemma generate_skips products w count w0 :
  describe_index_stats w = (Ok count, w0) ->
  (0 < count)%Z ->
  generate_and_upsert_embeddings products w
  = (Ok tt, w0, [DescribeIndexStats (Ok count); Display (InfoAlreadyContains count)]).
Proof.
  intros Hstats Hcount.
  unfold generate_and_upsert_embeddings, try_except, bind,
    index_describe_index_stats, display.
  rewrite Hstats. apply Z.ltb_lt in Hcount. now rewrite Hcount.
Qed.

(** The run on a store that reports no vector: the loop, then the
    events [t2] of the last flush and of what follows it. *)
Lemma generate_uploads products w count w0 :
  describe_index_stats w = (Ok count, w0) ->
  (count <= 0)%Z ->
  exists r w' buffer t1 t2,
    generate_and_upsert_embeddings products w
    = (r, w', DescribeIndexStats (Ok count) :: t1 ++ t2)
    /\ turns products [] t1 buffer
    /\ embedding_replies t2 = []
    /\ reported t2 = []
    /\ match buffer with
       | [] => upserts t2 = []
       | _ :: _ =>
           exists reply, upserts t2 = [(buffer, reply)]
                         /\ (r = Ok tt -> reply = Ok tt)
                         /\ (forall e, reply = Exc e -> r = Exc e)
       end
    /\ (forall e, r = Exc e -> In (Display (ErrorEmbeddingGeneration e)) t2).
Proof.
  intros Hstats Hcount.
  unfold generate_and_upsert_embeddings, try_except, bind,
    index_describe_index_stats, index_upsert_vectors, display, raise, ret.
  rewrite Hstats. apply Z.ltb_ge in Hcount. rewrite Hcount.
  destruct (upload_loop products [] w0) as [[r1 w1] t1] eqn:Hloop.
  apply upload_loop_turns in Hloop as (buffer & -> & Hturns).
  destruct buffer as [|v buffer]; cbn [nonempty].
  - destruct (describe_index_stats w1) as [[final|e] w2];
      rewrite <- ?List.app_assoc; cbn [app];
      eexists _, _, [], t1, _; (split; [reflexivity|]);
      (split; [assumption|]); repeat (split; [reflexivity|]).
    + discriminate.
    + intros e' [= <-]. cbn. auto.
  - destruct (index_upsert (v :: buffer) w1) as [[[]|e] w2].
    + destruct (describe_index_stats w2) as [[final|e] w3];
        rewrite <- ?List.app_assoc; cbn [app];
        eexists _, _, (v :: buffer), t1, _; (split; [reflexivity|]);
        (split; [assumption|]); repeat (split; [reflexivity|]);
        (split; [eexists; repeat split; discriminate|]).
      * discriminate.
      * intros e' [= <-]. cbn. auto.
    + rewrite <- ?List.app_assoc; cbn [app].
      eexists _, _, (v :: buffer), t1, _. split; [reflexivity|].
      split; [assumption|]. repeat (split; [reflexivity|]).
      split; [eexists; repeat split; [discriminate | now intros e' [= <-]]|].
      intros e' [= <-]. cbn. auto.
Qed.
End WithServices.
End PipelineFacts.

Module UploadFacts.
Import Assignment10 Spec PyStrFacts PipelineFacts.

Lemma flushed_sent (t : list event) (batch : list Vector.t) :
  In batch (flushed t) -> In batch (sent t).
Proof.
  unfold flushed, sent. rewrite !in_map_iff.
  intros (b & <- & Hb). apply filter_In in Hb as [Hb _]. now exists b.
Qed.

Lemma embedded_replies (products : list Product.t) (t t' : list event) :
  embedding_replies t = embedding_replies t' ->
  embedded products t = embedded products t'.
Proof. unfold embedded. now intros ->. Qed.

(** Whatever is sent, and whatever is left in the buffer, was in the
    buffer at the start or comes from an embedding that succeeded. *)
Lemma turns_sent_sound products buffer t buffer' :
  turns products buffer t buffer' ->
  (forall v, In v buffer' -> In v (buffer ++ embedded products t))
  /\ (forall batch v, In batch (sent t) -> In v batch ->
        In v (buffer ++ embedded products t)).
Proof.
  induction 1 as [|product products buffer t1 buffer1 t2 buffer2 Hturn _ [IH1 IH2]].
  - split; [intros v Hv; apply in_or_app; now left | intros batch v []].
  - assert (Hfrom : forall v, In v (buffer1 ++ embedded products t2) ->
                      In v (buffer ++ embedded (product :: products) (t1 ++ t2))).
    { intros v Hv.
      destruct (turn_embedded product products buffer t1 buffer1 t2 Hturn)
        as (vs & -> & Hvs).
      rewrite app_assoc, Hvs, <- app_assoc.
      apply in_or_app. right. exact Hv. }
    assert (Hbatch : forall batch v, In batch (sent t1) -> In v batch ->
                       In v (buffer ++ embedded (product :: products) (t1 ++ t2))).
    { intros batch v Hb Hv.
      destruct Hturn as [e|values Hlt|values Hge|values e Hge]; cbn in Hb;
        try contradiction; destruct Hb as [<-|[]];
        cbn [app]; rewrite embedded_cons, app_assoc;
        apply in_or_app; left; exact Hv. }
    split.
    + intros v Hv. apply Hfrom, IH1, Hv.
    + intros batch v Hb Hv. rewrite sent_app in Hb.
      apply in_app_or in Hb as [Hb|Hb].
      * now apply Hbatch with (batch := batch).
      * apply Hfrom. now apply IH2 with (batch := batch).
Qed.

Lemma batches_of_50_app (full : list (list Vector.t)) (rest : list Vector.t) :
  Forall (fun batch => length batch = 50%nat) full ->
  (length rest < 50)%nat ->
  batches_of_50 (full ++ match rest with [] => [] | _ :: _ => [rest] end).
Proof.
  intros Hfull Hrest. unfold batches_of_50.
  assert (Hall : Forall (fun batch => (1 <= length batch <= 50)%nat) full).
  { eapply Forall_impl; [|exact Hfull]. cbn. intros batch ->. lia. }
  destruct rest as [|v rest].
  - rewrite List.app_nil_r. split; [|assumption].
    destruct full as [|b full] using rev_ind; [constructor|].
    rewrite removelast_last. apply Forall_app in Hfull. tauto.
  - rewrite removelast_last. split; [assumption|].
    apply Forall_app. split; [assumption|].
    constructor; [cbn in Hrest |- *; lia | constructor].
Qed.

Section WithServices.
Context {World : Type} {services : Services World}.

(** On a store that accepts every batch, the upload sends batches of
    exactly 50 and one last batch with what is left, and every
    embedded record goes in exactly one of them. *)
Lemma upload_batches_when_store_accepts products w count w0 r w' t :
  describe_index_stats w = (Ok count, w0) ->
  (count <= 0)%Z ->
  generate_and_upsert_embeddings products w = (r, w', t) ->
  forallb (fun b => is_ok (snd b)) (upserts t) = true ->
  batches_of_50 (sent t) /\ each_in_one_batch products t.
Proof.
  intros Hstats Hcount Hrun Hok.
  destruct (generate_uploads products w count w0 Hstats Hcount)
    as (r0 & w1 & buffer & t1 & t2 & Hrun' & Hturns & Hrep & _ & Hlast & _).
  rewrite Hrun in Hrun'. injection Hrun' as <- <- ->.
  change (DescribeIndexStats (Ok count) :: t1 ++ t2)
    with ([DescribeIndexStats (Ok count)] ++ t1 ++ t2) in *.
  rewrite !upserts_app, !forallb_app in Hok.
  apply andb_true_iff in Hok as [_ Hok]. apply andb_true_iff in Hok as [Hok1 Hok2].
  assert (H0 : (length (@nil Vector.t) < 50)%nat) by (cbn; lia).
  destruct (turns_healthy products [] t1 buffer Hturns Hok1 H0)
    as (Hfull & Hlen & Hsent).
  pose proof (turns_conservation products [] t1 buffer Hturns) as Hcons.
  cbn [app] in Hcons.
  assert (Hsent2 : sent t2 = match buffer with [] => [] | _ :: _ => [buffer] end).
  { unfold sent. destruct buffer as [|v buffer].
    - now rewrite Hlast.
    - destruct Hlast as (reply & -> & _). reflexivity. }
  unfold each_in_one_batch.
  rewrite !sent_app, Hsent2. change (sent [DescribeIndexStats (Ok count)]) with
    (@nil (list Vector.t)). cbn [app].
  split.
  - now apply batches_of_50_app.
  - rewrite (embedded_replies products _ t1).
    + rewrite Hcons, concat_app, <- Hsent. f_equal.
      destruct buffer; cbn; now rewrite ?List.app_nil_r.
    + cbn [app]. change (embedding_replies (DescribeIndexStats (Ok count) :: ?l))
        with (embedding_replies l).
      rewrite embedding_replies_app, Hrep. now rewrite List.app_nil_r.
Qed.
End WithServices.
End UploadFacts.

Module QueryFacts.
Import Assignment10 Spec PyStrFacts PipelineFacts.

Lemma in_firstn {A} (n : nat) (l : list A) (x : A) : In x (firstn n l) -> In x l.
Proof.
  revert l. induction n as [|n IH]; intros [|y l]; cbn; try tauto.
  intros [H|H]; [now left | right; now apply IH].
Qed.

(** The loop with its [break] keeps the first [top_k] matches that pass
    the filters, in the order of the reply. *)
Lemma filter_matches_firstn selected_category price_range top_k matches :
  forall filtered_matches,
    (Z.of_nat (length filtered_matches) < top_k)%Z ->
    filter_matches selected_category price_range top_k matches filtered_matches
    = firstn (Z.to_nat top_k)
        (filtered_matches
         ++ filter (passes_filters selected_category price_range) matches).
Proof.
  induction matches as [|match_ rest IH]; intros filtered Hlen;
    cbn [filter_matches filter].
  - rewrite List.app_nil_r, firstn_all2; [reflexivity | lia].
  - destruct (passes_filters selected_category price_range match_).
    + destruct (Z.leb_spec top_k (Z.of_nat (length (filtered ++ [match_]))))
        as [Hstop|Hgo].
      * rewrite length_app in Hstop. cbn [length] in Hstop.
        replace (filtered ++ match_ :: filter (passes_filters selected_category price_range) rest)
          with ((filtered ++ [match_])
                ++ filter (passes_filters selected_category price_range) rest)
          by (rewrite <- app_assoc; reflexivity).
        rewrite firstn_app.
        replace (Z.to_nat top_k) with (length (filtered ++ [match_]))
          by (rewrite length_app; cbn [length]; lia).
        rewrite firstn_all, Nat.sub_diag. cbn [firstn].
        now rewrite List.app_nil_r.
      * rewrite IH by exact Hgo. now rewrite <- app_assoc.
    + now apply IH.
Qed.

Section WithServices.
Context {World : Type} {services : Services World}.

(** A search makes at most one query, for the number of neighbours it
    is asked, and returns the reply of the index, or nothing. *)
Lemma search_similar_products_trace query top_k w :
  exists matches w' t,
    search_similar_products query top_k w = (Ok matches, w', t)
    /\ matches = replies t
    /\ (length (queries t) <= 1)%nat
    /\ (forall vector k reply, In (vector, k, reply) (queries t) -> k = top_k).
Proof.
  unfold search_similar_products, get_embedding, try_except, bind,
    client_embeddings_create, index_query_matches, display, raise, ret.
  destruct (embeddings_create query w) as [[vector|e] w1].
  - destruct (index_query vector top_k w1) as [[matches|e] w2];
      eexists _, _, _; (split; [reflexivity|]); cbn.
    + rewrite List.app_nil_r. repeat split; [lia|].
      intros v k r [[= _ <- _]|[]]. reflexivity.
    + repeat split; [lia|].
      intros v k r [[= _ <- _]|[]]. reflexivity.
  - eexists _, _, _. split; [reflexivity|]. cbn.
    repeat split; [lia | intros v k r []].
Qed.
End WithServices.
End QueryFacts.

(* ================================================================== *)
(** * Properties of the classifier *)
(* ================================================================== *)

Section Classifier.
Import Re ConvertProducts Spec PyStrFacts ClassifyFacts.

Lemma has_keyword_ao_thun (t : str) :
  has_keyword (u "Áo thun") t = any_in [u "áo thun"; u "tshirt"; u "t-shirt"] t.
Proof. reflexivity. Qed.

Lemma has_keyword_quan (t : str) :
  has_keyword (u "Quần") t = any_in [u "quần"; u "shorts"; u "pants"] t.
Proof. reflexivity. Qed.

Lemma has_keyword_ao_polo (t : str) :
  has_keyword (u "Áo polo") t = any_in [u "áo polo"; u "polo"] t.
Proof. reflexivity. Qed.

Lemma has_keyword_ao_so_mi (t : str) :
  has_keyword (u "Áo sơ mi") t = any_in [u "áo sơ mi"; u "shirt"] t.
Proof. reflexivity. Qed.

Lemma has_keyword_ao_khoac (t : str) :
  has_keyword (u "Áo khoác") t
  = any_in [u "áo khoác"; u "jacket"; u "hoodie"; u "nỉ"] t.
Proof. reflexivity. Qed.

Lemma has_keyword_do_lot (t : str) :
  has_keyword (u "Đồ lót") t = any_in [u "quần lót"; u "trunk"; u "briefs"] t.
Proof. reflexivity. Qed.

(** The category is decided by the first five tests and the sixth. *)
Lemma classify_first_six {rt : Runtime} (title : str) :
  let t := lower title in
  classify title =
    if has_keyword (u "Áo thun") t then u "Áo thun"
    else if has_keyword (u "Quần") t then u "Quần"
    else if has_keyword (u "Áo polo") t then u "Áo polo"
    else if has_keyword (u "Áo sơ mi") t then u "Áo sơ mi"
    else if has_keyword (u "Áo khoác") t then u "Áo khoác"
    else if has_keyword (u "Đồ lót") t then u "Đồ lót"
    else classify title.
Proof.
  intros t. rewrite has_keyword_ao_thun, has_keyword_quan, has_keyword_ao_polo,
    has_keyword_ao_so_mi, has_keyword_ao_khoac, has_keyword_do_lot.
  unfold classify. fold t.
  repeat (match goal with |- context [if ?b then _ else _] =>
                            destruct b; [reflexivity|] end).
  reflexivity.
Qed.

Lemma not_do_lot_after {rt : Runtime} (title : str) :
  let t := lower title in
  has_keyword (u "Đồ lót") t = false -> classify title <> u "Đồ lót".
Proof.
  intros t. rewrite has_keyword_do_lot. unfold classify. fold t. intros ->.
  repeat (match goal with |- context [if ?b then _ else _] =>
                            destruct b; [intros H; vm_compute in H; discriminate H|]
          end).
  intros H; vm_compute in H; discriminate H.
Qed.

(** C1. The category is a function of the title alone: the classifier
    lower-cases the title and returns the category of the first rule, in
    the fixed order of the table, one of whose keywords occurs in it, and
    the default category when no rule applies; there are eleven
    categories; a title with a keyword of "Áo thun" and a keyword of
    "Quần" is given "Áo thun", the earlier of the two; and the category
    of an emitted record is the classifier's value on its title. *)
Theorem category_first_match_wins (rt : Runtime) :
  (forall title, classify title = first_match category_rules (lower title))
  /\ length categories = 11%nat
  /\ NoDup categories
  /\ (forall title, In (classify title) categories)
  /\ (forall title,
        has_keyword (u "Áo thun") (lower title) = true ->
        has_keyword (u "Quần") (lower title) = true ->
        classify title = u "Áo thun")
  /\ (forall product_id line product,
        parse_line product_id line = Emitted product ->
        Product.category product = classify (Product.title product)).
Proof.
  split; [reflexivity|].
  split; [reflexivity|].
  split; [exact categories_distinct|].
  split; [intros title; rewrite classify_table; apply first_match_in|].
  split.
  - intros title H1 _. rewrite classify_first_six. cbv zeta. now rewrite H1.
  - intros product_id line product. apply parse_line_category.
Qed.

Lemma category_first_match_wins_witness :
  classify (rt := Vietnamese.runtime) Examples.ao_thun_quan_title = u "Áo thun".
Proof.
  destruct (category_first_match_wins Vietnamese.runtime)
    as (_ & _ & _ & _ & H & _).
  apply H; vm_compute; reflexivity.
Defined.

(** C10 as stated fails: a title with "quần lót" and a keyword of
    "Áo thun" is not given "Quần". *)
Lemma quan_lot_with_ao_thun_is_ao_thun :
  contains (u "quần lót")
    (lower (Runtime := Vietnamese.runtime) Examples.ao_thun_quan_lot_title) = true
  /\ classify (rt := Vietnamese.runtime) Examples.ao_thun_quan_lot_title
     <> u "Quần".
Proof.
  split; [vm_compute; reflexivity|].
  intros H. vm_compute in H. discriminate H.
Qed.

(** C10 (amended). A title whose lower-case form contains "quần lót" is
    given "Quần", or "Áo thun" when it also has a keyword of that
    earlier group, and never "Đồ lót"; a title is given "Đồ lót" exactly
    when it contains "trunk" or "briefs" and no keyword of the five
    groups tested before. *)
Theorem quan_lot_never_do_lot (rt : Runtime) (title : str) :
  (contains (u "quần lót") (lower title) = true ->
     classify title
     = (if has_keyword (u "Áo thun") (lower title) then u "Áo thun" else u "Quần")
     /\ classify title <> u "Đồ lót")
  /\ (classify title = u "Đồ lót" <->
        (contains (u "trunk") (lower title) = true
         \/ contains (u "briefs") (lower title) = true)
        /\ has_keyword (u "Áo thun") (lower title) = false
        /\ has_keyword (u "Quần") (lower title) = false
        /\ has_keyword (u "Áo polo") (lower title) = false
        /\ has_keyword (u "Áo sơ mi") (lower title) = false
        /\ has_keyword (u "Áo khoác") (lower title) = false).
Proof.
  pose proof (classify_first_six title) as Hsix. cbv zeta in Hsix.
  pose proof (not_do_lot_after title) as Hafter. cbv zeta in Hafter.
  set (t := lower title) in *.
  assert (Hquan : contains (u "quần lót") t = true -> has_keyword (u "Quần") t = true).
  { intros H. apply quan_lot_has_quan in H. rewrite has_keyword_quan.
    unfold any_in. cbn [existsb]. now rewrite H. }
  assert (Hdl : has_keyword (u "Đồ lót") t
                = contains (u "quần lót") t
                  || (contains (u "trunk") t || contains (u "briefs") t)).
  { rewrite has_keyword_do_lot. unfold any_in. cbn [existsb].
    now rewrite orb_false_r. }
  split.
  - intros H. specialize (Hquan H).
    destruct (has_keyword (u "Áo thun") t) eqn:E1.
    + rewrite Hsix. split; [reflexivity|].
      intros H'. vm_compute in H'. discriminate H'.
    + rewrite Hquan in Hsix. rewrite Hsix. split; [reflexivity|].
      intros H'. vm_compute in H'. discriminate H'.
  - split.
    + intros Hc.
      destruct (has_keyword (u "Áo thun") t) eqn:E1;
        [rewrite Hsix in Hc; vm_compute in Hc; discriminate Hc|].
      destruct (has_keyword (u "Quần") t) eqn:E2;
        [rewrite Hsix in Hc; vm_compute in Hc; discriminate Hc|].
      destruct (has_keyword (u "Áo polo") t) eqn:E3;
        [rewrite Hsix in Hc; vm_compute in Hc; discriminate Hc|].
      destruct (has_keyword (u "Áo sơ mi") t) eqn:E4;
        [rewrite Hsix in Hc; vm_compute in Hc; discriminate Hc|].
      destruct (has_keyword (u "Áo khoác") t) eqn:E5;
        [rewrite Hsix in Hc; vm_compute in Hc; discriminate Hc|].
      destruct (has_keyword (u "Đồ lót") t) eqn:E6;
        [|now apply Hafter in Hc].
      repeat split; try reflexivity.
      symmetry in Hdl.
      destruct (contains (u "quần lót") t) eqn:Eq.
      * discriminate (Hquan eq_refl).
      * cbn [orb] in Hdl. now apply orb_true_iff in Hdl.
    + intros (Htb & E1 & E2 & E3 & E4 & E5).
      rewrite Hsix, E1, E2, E3, E4, E5, Hdl.
      apply orb_true_iff in Htb. rewrite Htb, orb_true_r. reflexivity.
Qed.

Lemma quan_lot_never_do_lot_witness :
  classify (rt := Vietnamese.runtime) (u "Combo 3 Quần Lót Nam Trunk Excool")
  = u "Quần"
  /\ classify (rt := Vietnamese.runtime) Examples.trunk_title = u "Đồ lót".
Proof.
  split.
  - destruct (quan_lot_never_do_lot Vietnamese.runtime
                (u "Combo 3 Quần Lót Nam Trunk Excool")) as [H _].
    destruct H as [H _]; [vm_compute; reflexivity|].
    exact H.
  - destruct (quan_lot_never_do_lot Vietnamese.runtime Examples.trunk_title)
      as [_ [_ H]].
    apply H. repeat split; try (vm_compute; reflexivity).
    left. vm_compute. reflexivity.
Defined.
End Classifier.

(* ================================================================== *)
(** * Properties of the parser *)
(* ================================================================== *)

Section Parser.
Import Re ConvertProducts Spec PyStrFacts ReFacts ClassifyFacts PyNumFacts
  ParserFacts.

(** C3 as stated fails: the parser accepts a line whose clause reduces
    the price by zero percent from a higher price, and a line whose
    clause reduces it by ten percent from the price itself. *)
Lemma discount_not_tied_to_prices :
  (exists product,
      parse_line (rt := Vietnamese.runtime) 1 Examples.zero_percent_line
      = Emitted product
      /\ ~ discount_iff_reduced product)
  /\ (exists product,
         parse_line (rt := Vietnamese.runtime) 1 Examples.same_price_line
         = Emitted product
         /\ ~ discount_iff_reduced product).
Proof.
  split; eexists; (split; [vm_compute; reflexivity|]);
    unfold discount_iff_reduced; cbn; intros [H1 H2].
  - specialize (H1 eq_refl). discriminate H1.
  - specialize (H2 eq_refl). discriminate H2.
Qed.

(** C3 (amended). For every line the parser accepts: when the line has
    no discount clause, [original_price] is the price and
    [discount_percent] is 0; when it has one, [discount_percent] is the
    integer written in the clause and [original_price] the number written
    in it, whatever the price is. *)
Theorem no_clause_no_discount (rt : Runtime) (product_id : nat) (line : str)
    (product : Product.t) :
  parse_line product_id line = Emitted product ->
  exists mt,
    find_match line = Some mt
    /\ ((group mt 3 = None /\ group mt 4 = None
         /\ Product.original_price product = Product.price product
         /\ Product.discount_percent product = 0%Z)
        \/ exists percent original,
            group mt 3 = Some percent /\ group mt 4 = Some original
            /\ int percent = Ok (Product.discount_percent product)
            /\ parse_number original = Ok (Product.original_price product)).
Proof.
  intros H. apply parse_line_inv in H as (mt & Hmt & H). exists mt.
  split; [assumption|].
  apply build_product_inv in H
    as (current & original & discount & _ & H4 & H3 & _ & _ & _ & <- & <- & <-).
  destruct (find_match_groups line mt Hmt)
    as (title & price & _ & _ & [[E3 E4] | (c1 & p & c2 & o & E3 & E4)]).
  - left. rewrite E3 in H3. rewrite E4 in H4.
    injection H3 as <-. injection H4 as <-. auto.
  - right. rewrite E3 in H3. rewrite E4 in H4.
    exists (c1 :: p), (c2 :: o). auto.
Qed.

Lemma no_clause_no_discount_witness :
  exists product,
    parse_line (rt := Vietnamese.runtime) 1 Examples.tshirt_line = Emitted product
    /\ Product.original_price product = Product.price product
    /\ Product.discount_percent product = 0%Z.
Proof.
  eexists. split; [vm_compute; reflexivity|].
  destruct (@no_clause_no_discount Vietnamese.runtime 1 Examples.tshirt_line _
              eq_refl) as (mt & Hmt & H).
  destruct H as [(_ & _ & H1 & H2) | (percent & original & H3 & _)].
  - split; [exact H1 | exact H2].
  - vm_compute in Hmt. injection Hmt as <-. discriminate H3.
Defined.

(** C8 as stated fails: the parser accepts a line whose clause gives an
    original price below the price and a discount above 100, and a line
    whose price is beyond the range of doubles. *)
Lemma clause_numbers_unchecked :
  (exists product,
      parse_line (rt := Vietnamese.runtime) 1 Examples.wild_clause_line
      = Emitted product
      /\ Product.price product = Fin 200
      /\ Product.original_price product = Fin 100
      /\ Product.discount_percent product = 150%Z
      /\ ~ field_constraints product)
  /\ (exists product,
         parse_line (rt := Vietnamese.runtime) 1 Examples.huge_price_line
         = Emitted product
         /\ Product.price product = Inf
         /\ ~ field_constraints product).
Proof.
  split; eexists; (split; [vm_compute; reflexivity|]).
  - repeat (split; [reflexivity|]).
    intros (_ & H & _). cbn in H. lia.
  - split; [reflexivity|].
    intros ((z & H & _) & _). discriminate H.
Qed.

(** C8 (amended). Every record the parser emits has a [price] and an
    [original_price] that are not negative, each the double nearest to
    the non-negative integer written (that integer itself below 2^53,
    [inf] only from 2^1023 on), and a [discount_percent] that is a
    non-negative integer; when the line has no discount clause the record
    meets [original_price >= price] and [0 <= discount_percent <= 100],
    as [original_price] is the price and [discount_percent] is 0. *)
Theorem emitted_fields (rt : Runtime) (product_id : nat) (line : str)
    (product : Product.t) :
  parse_line product_id line = Emitted product ->
  (double_of_integer (Product.price product)
   /\ double_of_integer (Product.original_price product)
   /\ (forall n, (n < 2 ^ 53)%Z -> float_of_Z n = Fin n)
   /\ (forall n, (0 <= n < 2 ^ 1023)%Z -> exists z, float_of_Z n = Fin z))
  /\ nonneg (Product.price product)
  /\ nonneg (Product.original_price product)
  /\ (0 <= Product.discount_percent product)%Z
  /\ (forall mt, find_match line = Some mt -> group mt 3 = None ->
        pyfloat_le (Product.price product) (Product.original_price product)
        /\ (0 <= Product.discount_percent product <= 100)%Z).
Proof.
  intros H. apply parse_line_inv in H as (mt & Hmt & H).
  apply build_product_inv in H
    as (current & original & discount & H2 & H4 & H3 & _ & _ & _ & E1 & E2 & E3).
  rewrite E1, E2, E3.
  assert (Hcur : nonneg current) by (now apply float_nonneg in H2).
  assert (Hdouble : double_of_integer current).
  { apply float_value in H2 as (n & _ & Hn & ->). now exists n. }
  split.
  { split; [exact Hdouble|]. split.
    - destruct (group mt 4) as [[|c o]|].
      + now injection H4 as <-.
      + apply float_value in H4 as (n & _ & Hn & ->). now exists n.
      + now injection H4 as <-.
    - split; [exact float_of_Z_exact | exact float_of_Z_finite]. }
  split; [exact Hcur|].
  split.
  { destruct (group mt 4) as [[|c o]|].
    - now injection H4 as <-.
    - now apply float_nonneg in H4.
    - now injection H4 as <-. }
  split.
  { destruct (group mt 3) as [[|c p]|].
    - injection H3 as <-. lia.
    - now apply int_nonneg in H3.
    - injection H3 as <-. lia. }
  intros mt' Hmt' Hnone. rewrite Hmt in Hmt'. injection Hmt' as <-.
  rewrite Hnone in H3. injection H3 as <-.
  destruct (find_match_groups line mt Hmt)
    as (title & price & _ & _ & [[_ E4] | (c1 & p & c2 & o & E3' & _)]).
  - rewrite E4 in H4. injection H4 as <-. split; [|lia].
    destruct current; cbn; [lia | exact I].
  - rewrite Hnone in E3'. discriminate E3'.
Qed.

Lemma emitted_fields_witness :
  exists product,
    parse_line (rt := Vietnamese.runtime) 1 Examples.viet_devils_line
    = Emitted product
    /\ nonneg (Product.price product)
    /\ nonneg (Product.original_price product)
    /\ (0 <= Product.discount_percent product)%Z.
Proof.
  eexists. split; [vm_compute; reflexivity|].
  destruct (@emitted_fields Vietnamese.runtime 1 Examples.viet_devils_line _
              eq_refl) as (_ & H1 & H2 & H3 & _).
  exact (conj H1 (conj H2 H3)).
Defined.

(** C9. The line "Sản phẩm Áo Thun Nam Viet Devils - Bật Như Man có giá
    329.000đ (Giảm 15% từ 389.000đ)" yields a record with that title,
    price 329000, original price 389000, discount 15 and category
    "Áo thun"; in the run on the sample it is the record "prod_0008". *)
Theorem viet_devils_record :
  (forall product_id,
      exists product,
        parse_line (rt := Vietnamese.runtime) product_id Examples.viet_devils_line
        = Emitted product
        /\ Product.id product = format_id product_id
        /\ Product.title product = u "Áo Thun Nam Viet Devils - Bật Như Man"
        /\ Product.price product = Fin 329000
        /\ Product.original_price product = Fin 389000
        /\ Product.discount_percent product = 15%Z
        /\ Product.category product = u "Áo thun")
  /\ (exists products,
         parse_products_from_text (rt := Vietnamese.runtime) None = Ok products
         /\ option_map Product.id (nth_error products 7) = Some (u "prod_0008")
         /\ option_map Product.title (nth_error products 7)
            = Some (u "Áo Thun Nam Viet Devils - Bật Như Man")).
Proof.
  split.
  - intros product_id. eexists. split; [vm_compute; reflexivity|].
    repeat split; vm_compute; reflexivity.
  - eexists. split; [vm_compute; reflexivity|].
    split; vm_compute; reflexivity.
Qed.

(** C4. In one run the ids of the emitted records are "prod_" followed
    by the index, padded with zeros to four digits, of the record among
    the emitted ones: 1, 2, 3 and so on without a gap (the number read
    back from the id of the record at position [i], from 0, is [i + 1]);
    there is one record for each line of the grammar and none for the
    other lines, which are a blank line, a line that does not start with
    the marker and a line on which the search of the pattern fails; such
    a line leaves the records, the counter and the rest of the run as
    they are without it and raises nothing; and the run returns when no
    line of the grammar raises. *)
Theorem ids_sequential_skips_silent (rt : Runtime) :
  (forall file products,
      parse_products_from_text file = Ok products ->
      map Product.id products = map format_id (seq 1 (length products))
      /\ length products
         = length (filter matches_grammar
                     (match file with
                      | Some lines => lines
                      | None => sample_product_lines
                      end)))
  /\ (forall n, id_index (format_id n) = Some n)
  /\ (forall file products i product,
        parse_products_from_text file = Ok products ->
        nth_error products i = Some product ->
        id_index (Product.id product) = Some (S i))
  /\ (forall line,
        matches_grammar line = false <->
        strip line = []
        \/ startswith (u "Sản phẩm") (strip line) = false
        \/ search pattern (strip line) = None)
  /\ (forall line product_id,
        matches_grammar line = false -> parse_line product_id line = Skipped)
  /\ (forall before line after product_id products,
        matches_grammar line = false ->
        parse_loop (before ++ line :: after) product_id products
        = parse_loop (before ++ after) product_id products)
  /\ (forall lines,
        (forall line, In line lines ->
           forall product_id e, parse_line product_id line <> Raised e) ->
        exists products, parse_products_from_text (Some lines) = Ok products).
Proof.
  split.
  { intros file products H. unfold parse_products_from_text in H.
    apply parse_loop_ids in H as (added & -> & Hids & Hlen). now split. }
  split; [exact id_index_format_id|].
  split.
  { intros file products i product H Hnth. unfold parse_products_from_text in H.
    apply parse_loop_ids in H as (added & -> & Hids & _). cbn [app] in Hnth.
    rewrite (sequential_ids_nth added 1 Hids i product Hnth).
    apply id_index_format_id. }
  split; [exact matches_grammar_false|].
  split; [intros line product_id H; now apply parse_line_skipped|].
  split; [intros; now apply parse_loop_skip|].
  intros lines H. now apply parse_loop_returns.
Qed.

Lemma ids_sequential_skips_silent_witness :
  exists products,
    parse_products_from_text (rt := Vietnamese.runtime) (Some Examples.mixed_lines)
    = Ok products
    /\ map Product.id products = [u "prod_0001"; u "prod_0002"]
    /\ length products = 2%nat.
Proof.
  eexists. split; [vm_compute; reflexivity|].
  destruct (ids_sequential_skips_silent Vietnamese.runtime) as (H & _).
  exact (H (Some Examples.mixed_lines) _ eq_refl).
Defined.
End Parser.

(* ================================================================== *)
(** * Properties of the upload and of the search *)
(* ================================================================== *)

Section Pipeline.
Import Assignment10 Spec PyStrFacts PipelineFacts UploadFacts QueryFacts.

(** C2. For every query, every number of results [top_k] from 1 on (the
    slider of the page gives 1 to 20), and whatever the services reply,
    the query block asks the index for [top_k * 2] neighbours, in one query
    at most, and lists the first [top_k] matches of the reply that pass
    the category filter ("All Categories", or the category of the match)
    and the price range, bounds included, in the order of the reply: at
    most [top_k] matches, each passing both filters. *)
Theorem search_returns_filtered_top_k
    (World : Type) (services : Services World)
    (query : str) (top_k : Z) (selected_category : str) (price_range : Z * Z)
    (w : World) :
  (1 <= top_k)%Z ->
  exists results w' t,
    main_query query top_k selected_category price_range w = (Ok results, w', t)
    /\ (forall vector k reply, In (vector, k, reply) (queries t) -> k = (top_k * 2)%Z)
    /\ (length (queries t) <= 1)%nat
    /\ results
       = firstn (Z.to_nat top_k)
           (filter (passes_filters selected_category price_range) (replies t))
    /\ (length results <= Z.to_nat top_k)%nat
    /\ Forall
         (fun match_ =>
            (selected_category = u "All Categories"
             \/ Metadata.category (Match.metadata match_) = selected_category)
            /\ between (fst price_range)
                 (Metadata.price (Match.metadata match_)) (snd price_range) = true)
         results.
Proof.
  intros Hk.
  assert (Hshape : exists results w' t,
             main_query query top_k selected_category price_range w
             = (Ok results, w', t)
             /\ (forall vector k reply,
                   In (vector, k, reply) (queries t) -> k = (top_k * 2)%Z)
             /\ (length (queries t) <= 1)%nat
             /\ results
                = firstn (Z.to_nat top_k)
                    (filter (passes_filters selected_category price_range)
                       (replies t))).
  { unfold main_query. destruct (nonempty query).
    - destruct (search_similar_products_trace query (top_k * 2)%Z w)
        as (matches & w1 & t1 & Hsearch & Hmatches & Hone & Hk2).
      unfold bind. rewrite Hsearch.
      assert (Hfiltered :
                filter_matches selected_category price_range top_k matches []
                = firstn (Z.to_nat top_k)
                    (filter (passes_filters selected_category price_range)
                       (replies t1))).
      { rewrite filter_matches_firstn by (cbn; lia). now rewrite Hmatches. }
      destruct (nonempty matches) eqn:Hne.
      + destruct (nonempty (filter_matches _ _ _ matches [])); unfold display, ret;
          eexists _, _, _; (split; [reflexivity|]);
          rewrite queries_app, replies_app, !List.app_nil_r;
          repeat split; assumption.
      + unfold display, ret. eexists _, _, _. split; [reflexivity|].
        rewrite queries_app, replies_app, !List.app_nil_r.
        repeat split; try assumption.
        destruct matches; [|discriminate Hne].
        rewrite <- Hmatches. now rewrite firstn_nil.
    - unfold ret. eexists _, _, _. split; [reflexivity|]. cbn.
      repeat split; [intros v k r [] | lia | now rewrite firstn_nil]. }
  destruct Hshape as (results & w' & t & Hrun & Hq & Hone & Hres).
  exists results, w', t. repeat (split; [assumption|]). split.
  - rewrite Hres, length_firstn. lia.
  - apply Forall_forall. intros match_ Hin. rewrite Hres in Hin.
    apply in_firstn, filter_In in Hin as [_ Hpass].
    unfold passes_filters in Hpass. apply andb_true_iff in Hpass as [Hcat Hprice].
    split; [|exact Hprice].
    apply orb_true_iff in Hcat as [Hcat|Hcat]; apply eqb_eq in Hcat; auto.
Qed.

Lemma search_returns_filtered_top_k_witness :
  exists results w' t,
    main_query (services := InMemory.services) (u "áo thun cotton") 5
      (u "All Categories") (1000, 20000)%Z (InMemory.loaded_store 30)
    = (Ok results, w', t)
    /\ (length results <= 5)%nat.
Proof.
  destruct (search_returns_filtered_top_k InMemory.world InMemory.services
              (u "áo thun cotton") 5 (u "All Categories") (1000, 20000)%Z
              (InMemory.loaded_store 30))
    as (results & w' & t & Hrun & _ & _ & _ & Hlen & _).
  - lia.
  - exists results, w', t. split; [exact Hrun | exact Hlen].
Defined.

(** C5. For every catalogue and every state of the store, when the store
    reports a count of vectors above zero the upload calls neither the
    embedding provider nor [upsert] and returns at once; so of two calls
    in a row the second does none of that work once the first has left
    a count above zero, whether the second runs the body or is answered
    from the cache of the decorator. *)
Theorem sync_skips_when_store_not_empty
    (World : Type) (services : Services World)
    (products : list Product.t) (w : World) :
  (forall count w0,
      describe_index_stats w = (Ok count, w0) -> (0 < count)%Z ->
      exists t,
        generate_and_upsert_embeddings products w = (Ok tt, w0, t)
        /\ t = [DescribeIndexStats (Ok count); Display (InfoAlreadyContains count)]
        /\ embedding_inputs t = [] /\ upserts t = [])
  /\ (forall cached,
        let '(r1, w1, t1, cached1) :=
          st_cache_data (generate_and_upsert_embeddings products) cached w in
        let '(r2, w2, t2, cached2) :=
          st_cache_data (generate_and_upsert_embeddings products) cached1 w1 in
        forall count w0,
          describe_index_stats w1 = (Ok count, w0) -> (0 < count)%Z ->
          embedding_inputs t2 = [] /\ upserts t2 = []).
Proof.
  split.
  - intros count w0 Hstats Hcount. eexists.
    split; [exact (generate_skips products w count w0 Hstats Hcount)|].
    repeat split.
  - intros cached.
    destruct (st_cache_data (generate_and_upsert_embeddings products) cached w)
      as [[[r1 w1] t1] cached1].
    destruct (st_cache_data (generate_and_upsert_embeddings products) cached1 w1)
      as [[[r2 w2] t2] cached2] eqn:Hsecond.
    intros count w0 Hstats Hcount.
    unfold st_cache_data in Hsecond. destruct cached1.
    + injection Hsecond as _ _ <- _. now split.
    + rewrite (generate_skips products w1 count w0 Hstats Hcount) in Hsecond.
      injection Hsecond as _ _ <- _. now split.
Qed.

Lemma sync_skips_when_store_not_empty_witness :
  exists t,
    generate_and_upsert_embeddings (services := InMemory.services)
      (InMemory.catalogue 3) (InMemory.loaded_store 2)
    = (Ok tt, InMemory.loaded_store 2, t)
    /\ embedding_inputs t = [] /\ upserts t = [].
Proof.
  destruct (sync_skips_when_store_not_empty InMemory.world InMemory.services
              (InMemory.catalogue 3) (InMemory.loaded_store 2)) as [H _].
  destruct (H 2%Z (InMemory.loaded_store 2) eq_refl eq_refl)
    as (t & Hrun & _ & Hemb & Hups).
  exists t. split; [exact Hrun | split; [exact Hemb | exact Hups]].
Defined.

(** C6 as stated fails: with a catalogue of one record and a store whose
    [upsert] raises, the run ends with that exception and displays no
    report for the record. *)
Lemma last_flush_failure_ends_run :
  exists w' t,
    generate_and_upsert_embeddings (services := InMemory.services)
      (InMemory.catalogue 1) (InMemory.empty_store 1)
    = (Exc InMemory.unavailable, w', t)
    /\ map (fun b => length (fst b)) (upserts t) = [1%nat]
    /\ reported t = []
    /\ In (Display (ErrorEmbeddingGeneration InMemory.unavailable)) t.
Proof.
  eexists _, _. split; [vm_compute; reflexivity|].
  repeat split. cbn. auto 10.
Qed.

(** C6 (amended). In a run on a store that reports no vector, the loop
    calls the embedding provider once for each record of the catalogue,
    in order, whatever fails; a failure of the provider or of a flush
    inside the loop is reported with the id of a record of the
    catalogue and does not stop the loop; every record whose embedding
    succeeded is sent to the store, and nothing else is; the run ends
    either normally or with an exception (that of the flush after the
    loop or of the final count) which is reported and raised again. *)
Theorem upload_isolates_loop_failures
    (World : Type) (services : Services World)
    (products : list Product.t) (w : World) (count : Z) (w0 : World) :
  describe_index_stats w = (Ok count, w0) ->
  (count <= 0)%Z ->
  exists r w' t,
    generate_and_upsert_embeddings products w = (r, w', t)
    /\ embedding_inputs t = map rich_description products
    /\ (forall input e, In (EmbeddingsCreate input (Exc e)) t ->
          exists product,
            In product products /\ rich_description product = input
            /\ In (Product.id product, e) (reported t))
    /\ (forall vectors e, In (IndexUpsert vectors (Exc e)) t ->
          (exists product values earlier,
              In product products
              /\ vectors = earlier ++ [vector_of product values]
              /\ In (Product.id product, e) (reported t))
          \/ r = Exc e)
    /\ (forall v, In v (embedded products t) ->
          exists batch, In batch (sent t) /\ In v batch)
    /\ (forall batch v, In batch (sent t) -> In v batch ->
          In v (embedded products t))
    /\ (r = Ok tt
        \/ exists e, r = Exc e /\ In (Display (ErrorEmbeddingGeneration e)) t).
Proof.
  intros Hstats Hcount.
  destruct (generate_uploads products w count w0 Hstats Hcount)
    as (r & w' & buffer & t1 & t2 & Hrun & Hturns & Hrep2 & Hreported2 & Hlast & Hexc).
  exists r, w', (DescribeIndexStats (Ok count) :: t1 ++ t2).
  split; [exact Hrun|].
  pose proof (turns_embedding_inputs products [] t1 buffer Hturns) as Hinputs.
  pose proof (turns_conservation products [] t1 buffer Hturns) as Hcons.
  destruct (turns_reported products [] t1 buffer Hturns) as (Hr1 & Hr2 & _).
  destruct (turns_sent_sound products [] t1 buffer Hturns) as (Hs1 & Hs2).
  cbn [app] in Hcons, Hs1, Hs2.
  assert (Hemb : embedded products (DescribeIndexStats (Ok count) :: t1 ++ t2)
                 = embedded products t1).
  { apply embedded_replies.
    change (embedding_replies (DescribeIndexStats (Ok count) :: ?l))
      with (embedding_replies l).
    rewrite embedding_replies_app, Hrep2. now rewrite List.app_nil_r. }
  assert (Hreported : reported (DescribeIndexStats (Ok count) :: t1 ++ t2)
                      = reported t1).
  { change (reported (DescribeIndexStats (Ok count) :: ?l)) with (reported l).
    rewrite reported_app, Hreported2. now rewrite List.app_nil_r. }
  assert (Hsent : sent (DescribeIndexStats (Ok count) :: t1 ++ t2)
                  = sent t1 ++ sent t2).
  { change (sent (DescribeIndexStats (Ok count) :: ?l)) with (sent l).
    apply sent_app. }
  assert (Hno_embedding : forall input reply, ~ In (EmbeddingsCreate input reply) t2).
  { intros input reply Hin. apply in_split in Hin as (l1 & l2 & ->).
    rewrite embedding_replies_app in Hrep2. cbn in Hrep2.
    now destruct (embedding_replies l1). }
  rewrite Hemb, Hreported, Hsent.
  split.
  { change (embedding_inputs (DescribeIndexStats (Ok count) :: ?l))
      with (embedding_inputs l).
    rewrite embedding_inputs_app, Hinputs.
    assert (Hnone : embedding_inputs t2 = []).
    { clear -Hno_embedding. induction t2 as [|ev t2 IH]; [reflexivity|].
      destruct ev; cbn; try (apply IH; intros i r' H; apply (Hno_embedding i r'); now right).
      exfalso. apply (Hno_embedding input reply). now left. }
    now rewrite Hnone, List.app_nil_r. }
  split.
  { intros input e [Hin|Hin]; [discriminate Hin|].
    apply in_app_or in Hin as [Hin|Hin]; [now apply Hr1|].
    now apply Hno_embedding in Hin. }
  split.
  { intros vectors e [Hin|Hin]; [discriminate Hin|].
    apply in_app_or in Hin as [Hin|Hin]; [left; now apply Hr2 with (vectors := vectors)|].
    right.
    assert (Hups : In (vectors, Exc e) (upserts t2)).
    { apply in_split in Hin as (l1 & l2 & ->). rewrite upserts_app. cbn.
      apply in_or_app. right. now left. }
    destruct buffer as [|v buffer].
    - rewrite Hlast in Hups. contradiction.
    - destruct Hlast as (reply & Hups2 & _ & Hreply). rewrite Hups2 in Hups.
      destruct Hups as [[= _ ->]|[]]. now apply Hreply. }
  split.
  { intros v Hv. rewrite Hcons in Hv. apply in_app_or in Hv as [Hv|Hv].
    - apply in_concat in Hv as (batch & Hb & Hv). exists batch.
      split; [|exact Hv]. apply in_or_app. left. now apply flushed_sent.
    - exists buffer. split; [|exact Hv]. apply in_or_app. right.
      unfold sent. destruct buffer as [|v0 buffer]; [contradiction|].
      destruct Hlast as (reply & -> & _). now left. }
  split.
  { intros batch v Hb Hv. apply in_app_or in Hb as [Hb|Hb].
    - now apply Hs2 with (batch := batch).
    - apply Hs1. unfold sent in Hb. destruct buffer as [|v0 buffer].
      + rewrite Hlast in Hb. contradiction.
      + destruct Hlast as (reply & Hups & _). rewrite Hups in Hb.
        destruct Hb as [<-|[]]. exact Hv. }
  destruct r as [[]|e]; [now left | right].
  exists e. split; [reflexivity|]. right. apply in_or_app. right. now apply Hexc.
Qed.

Lemma upload_isolates_loop_failures_witness :
  exists r w' t,
    generate_and_upsert_embeddings (services := InMemory.services)
      (InMemory.catalogue 3) (InMemory.empty_store 0)
    = (r, w', t)
    /\ embedding_inputs t = map rich_description (InMemory.catalogue 3).
Proof.
  destruct (upload_isolates_loop_failures InMemory.world InMemory.services
              (InMemory.catalogue 3) (InMemory.empty_store 0) 0%Z
              (InMemory.empty_store 0) eq_refl)
    as (r & w' & t & Hrun & Hinputs & _).
  - lia.
  - exists r, w', t. split; [exact Hrun | exact Hinputs].
Defined.

Lemma batches_of_50_lengths (batches : list (list Vector.t)) :
  batches_of_50 batches ->
  Forall (fun n => (1 <= n <= 50)%nat) (map (@length Vector.t) batches).
Proof. intros [_ H]. apply Forall_map. exact H. Qed.

(** C7, the code at an input where it departs from the property: with a
    catalogue of 51 records and a store that rejects the first call of
    [upsert], the batch of 50 that was rejected stays in the buffer and
    is sent again, with the next record, as a batch of 51; the batches
    are not of exactly 50 and 50 records are in two batches. *)
Theorem rejected_batch_is_sent_again :
  exists w' t first second,
    generate_and_upsert_embeddings (services := InMemory.services)
      (InMemory.catalogue 51) (InMemory.empty_store 1)
    = (Ok tt, w', t)
    /\ upserts t = [(first, Exc InMemory.unavailable); (second, Ok tt)]
    /\ length first = 50%nat
    /\ length second = 51%nat
    /\ firstn 50 second = first
    /\ ~ batches_of_50 (sent t)
    /\ ~ each_in_one_batch (InMemory.catalogue 51) t.
Proof.
  eexists _, _, _, _. split; [vm_compute; reflexivity|].
  split; [vm_compute; reflexivity|].
  split; [vm_compute; reflexivity|].
  split; [vm_compute; reflexivity|].
  split; [vm_compute; reflexivity|].
  split.
  - intros H. apply batches_of_50_lengths in H.
    match type of H with Forall _ ?l =>
      assert (Hl : l = [50; 51]%nat) by (vm_compute; reflexivity);
      rewrite Hl in H
    end.
    inversion H as [|? ? _ H']. inversion H' as [|? ? H'' _]. lia.
  - intros H. apply (f_equal (@length Vector.t)) in H.
    vm_compute in H. discriminate H.
Qed.
End Pipeline.

(* ================================================================== *)
(** * More facts about text and about the matcher *)
(* ================================================================== *)

Module MoreStrFacts.
Import PyStrFacts.

Lemma lstrip_fixed (s : str) : lstrip (lstrip s) = lstrip s.
Proof.
  induction s as [|c s IH]; [reflexivity|]. cbn [lstrip].
  destruct (isspace c) eqn:Hc; [exact IH|]. cbn [lstrip]. now rewrite Hc.
Qed.

(** What [lstrip] returns is empty or starts with a character that is
    not white space. *)
Lemma lstrip_head (s : str) :
  match lstrip s with [] => True | c :: _ => isspace c = false end.
Proof.
  induction s as [|c s IH]; [exact I|]. cbn [lstrip].
  destruct (isspace c) eqn:Hc; [exact IH | exact Hc].
Qed.

Lemma lstrip_snoc (s : str) (c : char) :
  isspace c = false -> lstrip (s ++ [c]) = lstrip s ++ [c].
Proof.
  intros Hc. induction s as [|d s IH]; cbn [app lstrip].
  - now rewrite Hc.
  - destruct (isspace d); [exact IH | reflexivity].
Qed.

Lemma rstrip_fixed (s : str) : rstrip (rstrip s) = rstrip s.
Proof. unfold rstrip. now rewrite rev_involutive, lstrip_fixed. Qed.

(** [rstrip] keeps a first character that is not white space. *)
Lemma rstrip_cons (c : char) (s : str) :
  isspace c = false -> rstrip (c :: s) = c :: rstrip s.
Proof.
  intros Hc. unfold rstrip. cbn [rev].
  rewrite lstrip_snoc by exact Hc. now rewrite rev_app_distr.
Qed.

Lemma strip_fixed (s : str) : strip (strip s) = strip s.
Proof.
  unfold strip. pose proof (lstrip_head s) as Hhead.
  destruct (lstrip s) as [|c a]; [reflexivity|].
  rewrite rstrip_cons by exact Hhead. cbn [lstrip]. rewrite Hhead.
  rewrite rstrip_cons by exact Hhead. now rewrite rstrip_fixed.
Qed.

(** [lstrip] and [rstrip] return a part of the text. *)
Lemma lstrip_incl (s : str) (c : char) : In c (lstrip s) -> In c s.
Proof.
  induction s as [|d s IH]; [auto|]. cbn [lstrip].
  destruct (isspace d); [intros H; right; now apply IH | auto].
Qed.

Lemma strip_incl (s : str) (c : char) : In c (strip s) -> In c s.
Proof.
  unfold strip, rstrip. intros H. apply in_rev, lstrip_incl, in_rev in H.
  now apply lstrip_incl.
Qed.

(** The last character of a stripped text is not white space. *)
Lemma strip_last (s a : str) (c : char) : strip s = a ++ [c] -> isspace c = false.
Proof.
  unfold strip, rstrip. intros H. apply (f_equal (@rev char)) in H.
  rewrite rev_involutive, rev_app_distr in H. cbn in H.
  pose proof (lstrip_head (rev (lstrip s))) as Hhead. now rewrite H in Hhead.
Qed.

Lemma strip_head (s a : str) (c : char) : strip s = c :: a -> isspace c = false.
Proof.
  unfold strip. pose proof (lstrip_head s) as Hhead.
  destruct (lstrip s) as [|d b]; [discriminate|].
  rewrite rstrip_cons by exact Hhead. now intros [= <- _].
Qed.

Lemma startswith_app (prefix rest : str) : startswith prefix (prefix ++ rest) = true.
Proof. apply startswith_iff. now exists rest. Qed.

(** A prefix of [a ++ b] no longer than [a] is a prefix of [a]. *)
Lemma startswith_app_short (prefix : str) : forall a b,
  startswith prefix (a ++ b) = true -> (length prefix <= length a)%nat ->
  startswith prefix a = true.
Proof.
  induction prefix as [|x prefix IH]; intros a b H Hlen; [reflexivity|].
  destruct a as [|y a]; [cbn in Hlen; lia|].
  cbn [app startswith] in H |- *. apply andb_true_iff in H as [Hx H].
  rewrite Hx. cbn [andb]. apply (IH a b H). cbn in Hlen. lia.
Qed.

Lemma contains_app_r (w1 w2 s : str) :
  contains (w1 ++ w2) s = true -> contains w2 s = true.
Proof.
  rewrite !contains_iff. intros [before [after ->]].
  exists (before ++ w1), after. now rewrite <- !app_assoc.
Qed.

Lemma contains_false_suffix (word a b : str) :
  contains word (a ++ b) = false -> startswith word b = false.
Proof.
  intros H. destruct (startswith word b) eqn:Hb; [|reflexivity].
  apply startswith_iff in Hb as [rest ->].
  assert (Hc : contains word (a ++ word ++ rest) = true)
    by (apply contains_iff; now exists a, rest).
  congruence.
Qed.

(** A text is white space followed by what [lstrip] returns. *)
Lemma lstrip_split (s : str) :
  exists ws, forallb isspace ws = true /\ s = ws ++ lstrip s.
Proof.
  induction s as [|c s (ws & Hws & IH)]; [now exists []|]. cbn [lstrip].
  destruct (isspace c) eqn:Hc.
  - exists (c :: ws). cbn. rewrite Hc, Hws. split; [reflexivity | now f_equal].
  - now exists [].
Qed.


(** White space before a text, and after it, is stripped. *)
Lemma lstrip_ws (ws s : str) :
  forallb isspace ws = true -> lstrip (ws ++ s) = lstrip s.
Proof.
  induction ws as [|c ws IH]; [reflexivity|]. cbn [forallb app lstrip].
  intros H. apply andb_true_iff in H as [Hc H]. rewrite Hc. now apply IH.
Qed.

Lemma rstrip_ws (s ws : str) :
  forallb isspace ws = true -> rstrip (s ++ ws) = rstrip s.
Proof.
  intros H. unfold rstrip. rewrite rev_app_distr, lstrip_ws; [reflexivity|].
  apply forallb_forall. intros c Hc. apply in_rev in Hc.
  rewrite forallb_forall in H. now apply H.
Qed.

Lemma lstrip_app (s t : str) :
  lstrip (s ++ t) = match lstrip s with [] => lstrip t | _ :: _ => lstrip s ++ t end.
Proof.
  induction s as [|c s IH]; [reflexivity|]. cbn [app lstrip].
  destruct (isspace c); [exact IH | reflexivity].
Qed.

Lemma strip_padding (ws1 s ws2 : str) :
  forallb isspace ws1 = true -> forallb isspace ws2 = true ->
  strip (ws1 ++ s ++ ws2) = strip s.
Proof.
  intros H1 H2. unfold strip. rewrite lstrip_ws by exact H1. rewrite lstrip_app.
  destruct (lstrip s) as [|c a] eqn:E.
  - rewrite <- (List.app_nil_r ws2), lstrip_ws by exact H2. reflexivity.
  - now apply rstrip_ws.
Qed.

End MoreStrFacts.

Module AcceptFacts.
Import Re ConvertProducts Spec More PyStrFacts MoreStrFacts.

Section WithRuntime.
Context {rt : Runtime}.

(** ** Where a repetition stops *)

(** A lazy repetition stops at the first place where what follows
    matches. *)
Lemma star_lazy_first a k (w rest : str) res :
  forallb (cset_mem a) w = true ->
  (forall w1 w2, w = w1 ++ w2 -> w2 <> [] -> k (w2 ++ rest) = None) ->
  k rest = Some res ->
  star a false k (w ++ rest) = Some res.
Proof.
  induction w as [|c w IH]; intros Hw Hearly Hk.
  - cbn [app]. destruct rest as [|c rest]; cbn [star]; [exact Hk|].
    destruct (cset_mem a c); now rewrite Hk.
  - cbn [forallb] in Hw. apply andb_true_iff in Hw as [Hc Hw].
    cbn [app star]. rewrite Hc.
    assert (H0 : k ((c :: w) ++ rest) = None)
      by (apply (Hearly [] (c :: w) eq_refl); discriminate).
    cbn [app] in H0. rewrite H0.
    apply IH; [exact Hw | | exact Hk].
    intros w1 w2 -> Hne. now apply (Hearly (c :: w1) w2).
Qed.

(** A greedy repetition takes the whole run when what follows the run
    matches. *)
Lemma star_greedy_all a k (w rest : str) res :
  forallb (cset_mem a) w = true ->
  starts_outside a rest = true ->
  k rest = Some res ->
  star a true k (w ++ rest) = Some res.
Proof.
  induction w as [|c w IH]; intros Hw Hrest Hk.
  - cbn [app]. destruct rest as [|c rest]; cbn [star]; [exact Hk|].
    cbn [starts_outside] in Hrest. apply negb_true_iff in Hrest.
    now rewrite Hrest.
  - cbn [forallb] in Hw. apply andb_true_iff in Hw as [Hc Hw].
    cbn [app star]. rewrite Hc. now rewrite (IH Hw Hrest Hk).
Qed.

(** A greedy repetition fails when what follows matches at no place of
    the run. *)
Lemma star_greedy_none a k (w rest : str) :
  forallb (cset_mem a) w = true ->
  starts_outside a rest = true ->
  (forall w1 w2, w = w1 ++ w2 -> k (w2 ++ rest) = None) ->
  star a true k (w ++ rest) = None.
Proof.
  induction w as [|c w IH]; intros Hw Hrest Hnone.
  - cbn [app]. specialize (Hnone [] [] eq_refl). cbn [app] in Hnone.
    destruct rest as [|c rest]; cbn [star]; [exact Hnone|].
    cbn [starts_outside] in Hrest. apply negb_true_iff in Hrest.
    now rewrite Hrest.
  - cbn [forallb] in Hw. apply andb_true_iff in Hw as [Hc Hw].
    cbn [app star]. rewrite Hc. rewrite IH; [| exact Hw | exact Hrest |].
    + exact (Hnone [] (c :: w) eq_refl).
    + intros w1 w2 ->. exact (Hnone (c :: w1) w2 eq_refl).
Qed.

Lemma starts_outside_app a (c : char) (l rest : str) :
  cset_mem a c = false -> starts_outside a ((c :: l) ++ rest) = true.
Proof. intros H. cbn. now rewrite H. Qed.

(** ** The matcher on a text of known shape *)

Lemma m_cat r1 r2 s g k :
  m (Cat r1 r2) s g k = m r1 s g (fun s' g' => m r2 s' g' k).
Proof. reflexivity. Qed.

Lemma m_lits l rest g k : m (Lits l) (l ++ rest) g k = k rest g.
Proof.
  cbn [m]. rewrite startswith_app.
  now rewrite skipn_app, skipn_all, Nat.sub_diag.
Qed.

Lemma m_lits_fail l s g k : startswith l s = false -> m (Lits l) s g k = None.
Proof. intros H. cbn [m]. now rewrite H. Qed.

Lemma m_star greedy a s g k :
  m (Star greedy a) s g k = star a greedy (fun s' => k s' g) s.
Proof. reflexivity. Qed.

Lemma m_star_greedy a (w rest : str) g k res :
  forallb (cset_mem a) w = true ->
  starts_outside a rest = true ->
  k rest g = Some res ->
  m (Star true a) (w ++ rest) g k = Some res.
Proof. intros Hw Hrest Hk. cbn [m]. now apply star_greedy_all. Qed.

Lemma group_text (w rest : str) :
  firstn (length (w ++ rest) - length rest) (w ++ rest) = w.
Proof.
  rewrite length_app, Nat.add_sub, firstn_app, firstn_all, Nat.sub_diag.
  cbn. apply List.app_nil_r.
Qed.

Lemma m_group_plus_greedy n a (w rest : str) g k res :
  w <> [] ->
  forallb (cset_mem a) w = true ->
  starts_outside a rest = true ->
  k rest ((n, w) :: g) = Some res ->
  m (Group n (Plus true a)) (w ++ rest) g k = Some res.
Proof.
  intros Hne Hw Hrest Hk. destruct w as [|c w]; [contradiction|].
  cbn [forallb] in Hw. apply andb_true_iff in Hw as [Hc Hw].
  cbn [m app]. rewrite Hc.
  apply star_greedy_all; [exact Hw | exact Hrest |].
  change (c :: w ++ rest) with ((c :: w) ++ rest). now rewrite group_text.
Qed.

Lemma m_group_plus_lazy n a (c : char) (w rest : str) g k res :
  forallb (cset_mem a) (c :: w) = true ->
  (forall w1 w2 g', w = w1 ++ w2 -> w2 <> [] -> k (w2 ++ rest) g' = None) ->
  k rest ((n, c :: w) :: g) = Some res ->
  m (Group n (Plus false a)) ((c :: w) ++ rest) g k = Some res.
Proof.
  intros Hw Hearly Hk.
  cbn [forallb] in Hw. apply andb_true_iff in Hw as [Hc Hw].
  cbn [m app]. rewrite Hc.
  apply star_lazy_first; [exact Hw | |].
  - intros w1 w2 Hsplit Hne. now apply (Hearly w1 w2).
  - change (c :: w ++ rest) with ((c :: w) ++ rest). now rewrite group_text.
Qed.

Lemma m_opt_skip r s g k : m r s g k = None -> m (Opt r) s g k = k s g.
Proof. intros H. cbn [m]. now rewrite H. Qed.

Lemma m_opt_take r s g k res : m r s g k = Some res -> m (Opt r) s g k = Some res.
Proof. intros H. cbn [m]. now rewrite H. Qed.

Lemma search_at_start r s g :
  m r s [] (fun _ g' => Some g') = Some g -> search r s = Some g.
Proof. intros H. destruct s; cbn [search]; now rewrite H. Qed.

Lemma starts_outside_nonempty a (w rest : str) :
  w <> [] -> starts_outside a w = true -> starts_outside a (w ++ rest) = true.
Proof. intros Hne H. destruct w; [contradiction | exact H]. Qed.

(** ** The pattern of line 37 on a line of the grammar *)

Lemma pattern_clause :
  pattern
  = (Lits (u "Sản phẩm ") ;; Group 1 (Plus false AnyChar) ;;
     Lits (u " có giá ") ;; Group 2 (Plus true number_chars) ;; Lits (u "đ") ;;
     Opt clause)%re.
Proof. reflexivity. Qed.

(** The title ends at the first " có giá ": nothing that follows a place
    inside the title starts with it. *)
Lemma title_ends_late (title_tail rest : str) :
  contains (u " có giá ") (title_tail ++ u " có giá") = false ->
  forall w1 w2, title_tail = w1 ++ w2 -> w2 <> [] ->
    startswith (u " có giá ") (w2 ++ u " có giá " ++ rest) = false.
Proof.
  intros H w1 w2 -> Hne.
  destruct (startswith (u " có giá ") (w2 ++ u " có giá " ++ rest)) eqn:E;
    [exfalso | reflexivity].
  rewrite <- app_assoc in H. apply contains_false_suffix in H.
  change (u " có giá ") with (u " có giá" ++ [32]) in E at 2.
  rewrite <- app_assoc, app_assoc in E.
  apply startswith_app_short in E; [congruence|].
  rewrite length_app. change (length (u " có giá ")) with 8%nat.
  change (length (u " có giá")) with 7%nat.
  destruct w2; [contradiction | cbn [length]; lia].
Qed.

(** The clause does not match a text that, after its white space, does
    not go on with "(Giảm". *)
Lemma clause_absent (tail : str) g k :
  startswith (u "(Giảm") (lstrip tail) = false -> m clause tail g k = None.
Proof.
  intros Htail. unfold clause. rewrite m_cat, m_star.
  destruct (lstrip_split tail) as (ws & Hws & Heq).
  set (body := lstrip tail) in *. rewrite Heq.
  apply star_greedy_none.
  - exact Hws.
  - pose proof (lstrip_head tail) as Hhead. fold body in Hhead.
    destruct body as [|c body]; [reflexivity|]. cbn. now rewrite Hhead.
  - intros w1 w2 Hsplit. cbv beta. rewrite m_cat. apply m_lits_fail.
    destruct w2 as [|x w2]; [exact Htail|].
    assert (Hx : isspace x = true).
    { rewrite Hsplit, forallb_app in Hws. apply andb_true_iff in Hws as [_ Hws].
      cbn [forallb] in Hws. now apply andb_true_iff in Hws as [Hws _]. }
    change (u "(Giảm") with (40 :: u "Giảm"). cbn [app startswith].
    destruct (N.eqb_spec 40 x) as [<-|Hne]; [|reflexivity].
    vm_compute in Hx. discriminate Hx.
Qed.

(** The clause on a text that has its five parts. *)
Lemma clause_present (ws1 ws2 percent ws3 ws4 original rest : str) g :
  forallb isspace ws1 = true -> forallb isspace ws2 = true ->
  forallb isspace ws3 = true -> forallb isspace ws4 = true ->
  percent <> [] -> forallb (cset_mem Digit) percent = true ->
  original <> [] -> forallb (cset_mem number_chars) original = true ->
  starts_outside Space percent = true ->
  starts_outside Space original = true ->
  to_decimal 37 = None -> to_decimal 273 = None ->
  m clause
    (ws1 ++ u "(Giảm" ++ ws2 ++ percent ++ u "%" ++ ws3 ++ u "từ" ++ ws4
     ++ original ++ u "đ)" ++ rest) g (fun _ g' => Some g')
  = Some ((4%nat, original) :: (3%nat, percent) :: g).
Proof.
  intros H1 H2 H3 H4 Hp1 Hp2 Ho1 Ho2 Hp3 Ho3 Hpercent Hdong.
  unfold clause. rewrite m_cat.
  apply m_star_greedy; [exact H1 | now apply (starts_outside_app Space 40 (u "Giảm")) |].
  rewrite m_cat, m_lits, m_cat.
  apply m_star_greedy; [exact H2 | now apply starts_outside_nonempty |].
  rewrite m_cat.
  apply m_group_plus_greedy; [exact Hp1 | exact Hp2 | |].
  { apply (starts_outside_app Digit 37 []). cbn. now rewrite Hpercent. }
  rewrite m_cat, m_lits, m_cat.
  apply m_star_greedy; [exact H3 | now apply (starts_outside_app Space 116 (u "ừ")) |].
  rewrite m_cat, m_lits, m_cat.
  apply m_star_greedy; [exact H4 | now apply starts_outside_nonempty |].
  rewrite m_cat.
  apply m_group_plus_greedy; [exact Ho1 | exact Ho2 | |].
  { apply (starts_outside_app number_chars 273 [41]). cbn. now rewrite Hdong. }
  now rewrite m_lits.
Qed.

(** What the search finds in a line of the grammar: the title up to the
    first " có giá ", the price, and the two numbers of the clause when
    there is one. *)
Lemma search_line (c : char) (title_tail price tail : str) (g : groups) :
  forallb (cset_mem AnyChar) (c :: title_tail) = true ->
  contains (u " có giá ") (title_tail ++ u " có giá") = false ->
  price <> [] -> forallb (cset_mem number_chars) price = true ->
  to_decimal 273 = None ->
  m (Opt clause) tail [(2%nat, price); (1%nat, c :: title_tail)]
    (fun _ g' => Some g') = Some g ->
  search pattern
    (u "Sản phẩm " ++ (c :: title_tail) ++ u " có giá " ++ price ++ u "đ" ++ tail)
  = Some g.
Proof.
  intros Ht Hearly Hp1 Hp2 Hdong Hclause.
  apply search_at_start. rewrite pattern_clause.
  rewrite m_cat, m_lits, m_cat.
  apply m_group_plus_lazy; [exact Ht | |].
  - intros w1 w2 g' Hsplit Hne. rewrite m_cat. apply m_lits_fail.
    exact (title_ends_late title_tail _ Hearly w1 w2 Hsplit Hne).
  - rewrite m_cat, m_lits, m_cat.
    apply m_group_plus_greedy; [exact Hp1 | exact Hp2 | |].
    { apply (starts_outside_app number_chars 273 []). cbn. now rewrite Hdong. }
    rewrite m_cat, m_lits. exact Hclause.
Qed.

End WithRuntime.
End AcceptFacts.

Module MoreParserFacts.
Import Re ConvertProducts Spec More PyStrFacts MoreStrFacts ReFacts ClassifyFacts
  PyNumFacts ParserFacts AcceptFacts.

Section WithRuntime.
Context {rt : Runtime}.

(** ** The conversions on what the pattern captures *)

Lemma without_separators_cons (c : char) (text : str) :
  without_separators (c :: text)
  = if (c =? 46) || (c =? 44) then without_separators text
    else c :: without_separators text.
Proof.
  unfold without_separators, remove_char. cbn [filter].
  destruct (c =? 46); cbn [negb orb]; [reflexivity|].
  cbn [filter]. now destruct (c =? 44).
Qed.

Lemma without_separators_digits (text : str) :
  forallb (cset_mem number_chars) text = true ->
  forall acc, exists n, digits_value acc (without_separators text) = Some n.
Proof.
  induction text as [|c text IH]; intros Hall acc.
  - now exists acc.
  - cbn [forallb] in Hall. apply andb_true_iff in Hall as [Hc Hall].
    rewrite without_separators_cons.
    destruct ((c =? 46) || (c =? 44)) eqn:Hsep; [now apply IH|].
    apply orb_false_iff in Hsep as [H46 H44].
    unfold number_chars in Hc. cbn [cset_mem] in Hc. rewrite H46, H44 in Hc.
    rewrite !orb_false_r in Hc. cbn [digits_value].
    destruct (to_decimal c) as [d|]; [now apply IH | discriminate Hc].
Qed.

(** The conversion of a captured number raises when nothing is left
    once the separators are removed, and returns a float otherwise. *)
Lemma parse_number_captured (text : str) :
  forallb (cset_mem number_chars) text = true ->
  (without_separators text = [] /\ parse_number text = Exc ValueError)
  \/ (without_separators text <> []
      /\ exists n, (0 <= n)%Z /\ parse_number text = Ok (float_of_Z n)).
Proof.
  intros Hall. unfold parse_number. fold (without_separators text).
  destruct (without_separators_digits text Hall 0%Z) as [n Hn].
  unfold float. destruct (without_separators text) as [|c rest] eqn:E.
  - now left.
  - right. split; [discriminate|]. rewrite Hn. exists n. split; [|reflexivity].
    now apply digits_value_nonneg in Hn.
Qed.

Lemma digits_all (text : str) :
  forallb (cset_mem Digit) text = true ->
  forall acc, exists n, digits_value acc text = Some n.
Proof.
  induction text as [|c text IH]; intros Hall acc.
  - now exists acc.
  - cbn [forallb cset_mem] in Hall. apply andb_true_iff in Hall as [Hc Hall].
    cbn [digits_value]. destruct (to_decimal c); [now apply IH | discriminate Hc].
Qed.

(** The conversion of a captured percentage raises when it has more
    digits than the interpreter converts, and returns otherwise. *)
Lemma int_captured (text : str) :
  text <> [] -> forallb (cset_mem Digit) text = true ->
  (int_max_str_digits <> 0%nat /\ (int_max_str_digits < length text)%nat
   /\ int text = Exc ValueError)
  \/ (~ (int_max_str_digits <> 0%nat /\ (int_max_str_digits < length text)%nat)
      /\ exists n, int text = Ok n).
Proof.
  intros Hne Hall. destruct (digits_all text Hall 0%Z) as [n Hn].
  unfold int. destruct text as [|c text]; [contradiction|].
  destruct (Nat.eqb_spec int_max_str_digits 0) as [Hzero|Hzero]; cbn [negb andb].
  - right. split; [tauto|]. rewrite Hn. now exists n.
  - destruct (Nat.ltb_spec int_max_str_digits (length (c :: text))) as [Hlong|Hshort].
    + left. auto.
    + right. split; [lia|]. rewrite Hn. now exists n.
Qed.

(** ** The record of a match *)

Lemma build_product_plain product_id title price :
  build_product product_id [(2, price); (1, title)]%nat
  = match parse_number price with
    | Ok current => Emitted (record product_id (strip title) current current 0)
    | Exc e => Raised e
    end.
Proof.
  unfold build_product. cbn [group Nat.eqb].
  destruct (parse_number price); reflexivity.
Qed.

Lemma build_product_clause product_id title price percent original :
  percent <> [] -> original <> [] ->
  build_product product_id
    [(4, original); (3, percent); (2, price); (1, title)]%nat
  = match parse_number price with
    | Exc e => Raised e
    | Ok current =>
        match parse_number original with
        | Exc e => Raised e
        | Ok before =>
            match int percent with
            | Exc e => Raised e
            | Ok discount =>
                Emitted (record product_id (strip title) current before discount)
            end
        end
    end.
Proof.
  intros Hpercent Horiginal.
  unfold build_product. cbn [group Nat.eqb].
  destruct (parse_number price); [|reflexivity].
  destruct original as [|c original]; [contradiction|].
  destruct (parse_number (c :: original)); [|reflexivity].
  destruct percent as [|d percent]; [contradiction|].
  destruct (int (d :: percent)); reflexivity.
Qed.

Lemma build_product_record product_id mt product :
  build_product product_id mt = Emitted product ->
  product = record product_id (Product.title product) (Product.price product)
              (Product.original_price product) (Product.discount_percent product).
Proof.
  unfold build_product.
  destruct (parse_number (match group mt 2 with Some s => s | None => [] end));
    [|intros [=]].
  destruct (match group mt 4 with
            | Some ((_ :: _) as text) => parse_number text
            | _ => Ok a
            end); [|intros [=]].
  destruct (match group mt 3 with
            | Some ((_ :: _) as text) => int text
            | _ => Ok 0%Z
            end); [|intros [=]].
  now intros [= <-].
Qed.


(** The captures of a match of the pattern in a line. *)
Lemma find_match_shape line mt :
  find_match line = Some mt ->
  exists title price,
    title <> [] /\ forallb (cset_mem AnyChar) title = true
    /\ price <> [] /\ forallb (cset_mem number_chars) price = true
    /\ (mt = [(2, price); (1, title)]%nat
        \/ exists percent original,
            percent <> [] /\ forallb (cset_mem Digit) percent = true
            /\ original <> []
            /\ forallb (cset_mem number_chars) original = true
            /\ mt = [(4, original); (3, percent); (2, price); (1, title)]%nat).
Proof.
  intros H. apply find_match_sound in H as (_ & before & w & after & _ & H).
  apply pattern_sound in H
    as (title & price & Ht & Hany & Hp & Hnum & [[-> _] | H]).
  - exists title, price. repeat split; try assumption. now left.
  - destruct H as (percent & original & clause & H1 & H2 & H3 & H4 & _ & -> & _).
    exists title, price. repeat split; try assumption. right.
    exists percent, original. repeat split; assumption.
Qed.

(** A turn raises a [ValueError] only, and only from a conversion: of a
    price or an original price without a digit, or of a percentage too
    long for the interpreter. *)
Lemma build_product_raised product_id mt e :
  (exists line, find_match line = Some mt) ->
  build_product product_id mt = Raised e <->
  e = ValueError
  /\ exists price, group mt 2 = Some price
     /\ (without_separators price = []
         \/ (exists original,
                group mt 4 = Some original /\ without_separators original = [])
         \/ (exists percent,
                group mt 3 = Some percent
                /\ int_max_str_digits <> 0%nat
                /\ (int_max_str_digits < length percent)%nat)).
Proof.
  intros [line Hfind].
  apply find_match_shape in Hfind
    as (title & price & Ht & Hany & Hp & Hnum & [-> | H]).
  - rewrite build_product_plain. cbn [group Nat.eqb].
    destruct (parse_number_captured price Hnum) as [[Hws ->] | [Hws (n & _ & ->)]].
    + split; [intros [= <-] | now intros [-> _]]. split; [reflexivity|].
      exists price. split; [reflexivity | now left].
    + split; [intros [=]|]. intros (_ & price' & [= <-] & [H | [H | H]]).
      * contradiction.
      * now destruct H as (? & [=] & _).
      * now destruct H as (? & [=] & _).
  - destruct H as (percent & original & Hpc & Hdigits & Ho & Hnum' & ->).
    rewrite build_product_clause by assumption. cbn [group Nat.eqb].
    destruct (parse_number_captured price Hnum) as [[Hws ->] | [Hws (n & _ & ->)]].
    { split; [intros [= <-] | now intros [-> _]]. split; [reflexivity|].
      exists price. split; [reflexivity | now left]. }
    destruct (parse_number_captured original Hnum')
      as [[Hws' ->] | [Hws' (n' & _ & ->)]].
    { split; [intros [= <-] | now intros [-> _]]. split; [reflexivity|].
      exists price. split; [reflexivity|]. right. left. now exists original. }
    destruct (int_captured percent Hpc Hdigits)
      as [(Hlimit & Hlong & ->) | [Hshort (d & ->)]].
    { split; [intros [= <-] | now intros [-> _]]. split; [reflexivity|].
      exists price. split; [reflexivity|]. right. right. now exists percent. }
    split; [intros [=]|]. intros (_ & price' & [= <-] & [H | [H | H]]).
    + contradiction.
    + destruct H as (? & [= <-] & H). contradiction.
    + destruct H as (? & [= <-] & H). tauto.
Qed.

(** ** One line under two values of the counter *)

Lemma build_product_shift product_id product_id' mt :
  build_product product_id' mt
  = match build_product product_id mt with
    | Emitted product => Emitted (with_id (format_id product_id') product)
    | other => other
    end.
Proof.
  unfold build_product.
  destruct (parse_number (match group mt 2 with Some s => s | None => [] end));
    [|reflexivity].
  destruct (match group mt 4 with
            | Some ((_ :: _) as text) => parse_number text
            | _ => Ok a
            end); [|reflexivity].
  destruct (match group mt 3 with
            | Some ((_ :: _) as text) => int text
            | _ => Ok 0%Z
            end); reflexivity.
Qed.

Lemma parse_line_shift product_id product_id' line :
  parse_line product_id' line
  = match parse_line product_id line with
    | Emitted product => Emitted (with_id (format_id product_id') product)
    | other => other
    end.
Proof.
  unfold parse_line. destruct (find_match line) as [mt|]; [|reflexivity].
  apply build_product_shift.
Qed.

Lemma parse_line_raised_shift product_id product_id' line e :
  parse_line product_id line = Raised e -> parse_line product_id' line = Raised e.
Proof. intros H. now rewrite (parse_line_shift product_id product_id'), H. Qed.

(** ** The loop on two lists of lines *)

Lemma parse_loop_app l1 l2 : forall product_id products,
  parse_loop (l1 ++ l2) product_id products
  = match parse_loop l1 product_id products with
    | Ok result =>
        parse_loop l2 (product_id + length result - length products) result
    | Exc e => Exc e
    end.
Proof.
  induction l1 as [|line l1 IH]; intros product_id products; cbn [app parse_loop].
  - f_equal. lia.
  - destruct (parse_line product_id line) as [|product|e]; [apply IH | | reflexivity].
    rewrite IH.
    destruct (parse_loop l1 (S product_id) (products ++ [product])); [|reflexivity].
    f_equal. rewrite length_app. cbn [length]. lia.
Qed.

Lemma skipn_length_app (A : Type) (l r : list A) : skipn (length l) (l ++ r) = r.
Proof. induction l as [|x l IH]; [reflexivity | exact IH]. Qed.

Lemma renumber_length start products :
  length (renumber start products) = length products.
Proof.
  revert start. induction products as [|p products IH]; intros start;
    cbn [renumber length]; [reflexivity | now rewrite IH].
Qed.

Lemma parse_loop_renumber lines : forall product_id products product_id' products',
  parse_loop lines product_id' products'
  = match parse_loop lines product_id products with
    | Ok result =>
        Ok (products' ++ renumber product_id' (skipn (length products) result))
    | Exc e => Exc e
    end.
Proof.
  induction lines as [|line lines IH];
    intros product_id products product_id' products'; cbn [parse_loop].
  - now rewrite skipn_all, List.app_nil_r.
  - rewrite (parse_line_shift product_id product_id' line).
    destruct (parse_line product_id line) as [|product|e] eqn:Hline;
      [apply IH | | reflexivity].
    rewrite (IH (S product_id) (products ++ [product])).
    destruct (parse_loop lines (S product_id) (products ++ [product]))
      as [result|e] eqn:Hloop; [|reflexivity].
    apply parse_loop_ids in Hloop as (added & -> & _).
    rewrite skipn_length_app.
    rewrite <- (List.app_assoc products [product] added), skipn_length_app.
    cbn [app renumber]. now rewrite <- List.app_assoc.
Qed.

(** The run raises at the first line whose turn raises. *)
Lemma parse_loop_raises lines : forall product_id products e,
  parse_loop lines product_id products = Exc e <->
  exists before line after,
    lines = before ++ line :: after
    /\ (forall l, In l before -> forall n e', parse_line n l <> Raised e')
    /\ (forall n, parse_line n line = Raised e).
Proof.
  induction lines as [|l lines IH]; intros product_id products e;
    cbn [parse_loop].
  - split; [intros [=]|]. intros (before & line & after & H & _).
    now destruct before.
  - destruct (parse_line product_id l) as [|product|e0] eqn:Hl.
    + rewrite IH. split.
      * intros (before & line & after & -> & Hbefore & Hline).
        exists (l :: before), line, after. repeat split; [|exact Hline].
        intros l' [<- | Hin] n e' Hraise; [|now apply (Hbefore l' Hin n e')].
        apply (parse_line_raised_shift n product_id) in Hraise. congruence.
      * intros ([|l' before] & line & after & Heq & Hbefore & Hline);
          injection Heq as <- ->.
        -- specialize (Hline product_id). congruence.
        -- exists before, line, after. repeat split; [|exact Hline].
           intros l' Hin. apply Hbefore. now right.
    + rewrite IH. split.
      * intros (before & line & after & -> & Hbefore & Hline).
        exists (l :: before), line, after. repeat split; [|exact Hline].
        intros l' [<- | Hin] n e' Hraise; [|now apply (Hbefore l' Hin n e')].
        apply (parse_line_raised_shift n product_id) in Hraise. congruence.
      * intros ([|l' before] & line & after & Heq & Hbefore & Hline);
          injection Heq as <- ->.
        -- specialize (Hline product_id). congruence.
        -- exists before, line, after. repeat split; [|exact Hline].
           intros l' Hin. apply Hbefore. now right.
    + split.
      * intros [= <-]. exists [], l, lines. repeat split.
        -- intros l' [].
        -- intros n. now apply (parse_line_raised_shift product_id n).
      * intros ([|l' before] & line & after & Heq & Hbefore & Hline);
          injection Heq as <- ->.
        -- specialize (Hline product_id). congruence.
        -- exfalso. apply (Hbefore l (or_introl eq_refl) product_id e0 Hl).
Qed.

(** ** Ids *)

Lemma format_id_injective (i j : nat) : format_id i = format_id j -> i = j.
Proof.
  intros H. apply (f_equal id_index) in H.
  rewrite !id_index_format_id in H. now injection H.
Qed.

Lemma NoDup_format_id (l : list nat) : NoDup l -> NoDup (map format_id l).
Proof.
  induction 1 as [|i l Hi Hl IH]; cbn [map]; constructor; [|exact IH].
  intros Hin. apply in_map_iff in Hin as (j & Hj & Hin).
  apply format_id_injective in Hj. now subst j.
Qed.

(** ** Keywords that never decide *)

Lemma polo_decides (t : str) :
  existsb (fun word => contains word t) [u "áo polo"; u "polo"]
  = existsb (fun word => contains word t) [u "polo"].
Proof.
  cbn [existsb]. destruct (contains (u "áo polo") t) eqn:E; [|reflexivity].
  change (u "áo polo") with (u "áo " ++ u "polo") in E.
  apply contains_app_r in E. now rewrite E.
Qed.

Lemma bra_decides (t : str) :
  existsb (fun word => contains word t) [u "bra"; u "áo bra"]
  = existsb (fun word => contains word t) [u "bra"].
Proof.
  cbn [existsb]. destruct (contains (u "áo bra") t) eqn:E;
    [|now rewrite !orb_false_r].
  change (u "áo bra") with (u "áo " ++ u "bra") in E.
  apply contains_app_r in E. now rewrite E.
Qed.

Lemma quan_lot_decided (t : str) :
  existsb (fun word => contains word t) [u "quần"; u "shorts"; u "pants"] = false ->
  existsb (fun word => contains word t) [u "quần lót"; u "trunk"; u "briefs"]
  = existsb (fun word => contains word t) [u "trunk"; u "briefs"].
Proof.
  cbn [existsb]. intros H. apply orb_false_iff in H as [H _].
  destruct (contains (u "quần lót") t) eqn:E; [|reflexivity].
  apply quan_lot_has_quan in E. congruence.
Qed.

End WithRuntime.
End MoreParserFacts.

(* ================================================================== *)
(** * More properties of the parser *)
(* ================================================================== *)

Section MoreParser.
Import Re ConvertProducts Spec More PyStrFacts MoreStrFacts ReFacts ClassifyFacts
  PyNumFacts ParserFacts AcceptFacts MoreParserFacts.

Lemma stripped_line_searched {rt : Runtime} (line rest : str) :
  strip line = u "Sản phẩm " ++ rest ->
  find_match line = search pattern (strip line).
Proof.
  intros Hline. unfold find_match. rewrite Hline.
  change (u "Sản phẩm " ++ rest) with (u "Sản phẩm" ++ 32 :: rest) at 1 2.
  now rewrite startswith_app.
Qed.

(** X1. A line that, once stripped, reads "Sản phẩm <title> có giá
    <price>đ" followed by anything that does not open a discount clause
    is accepted: the pattern captures the title and the price only, and
    the turn emits the record of the stripped title with the price as
    original price and no discount, or raises what the conversion of
    the price raises. *)
Theorem plain_line_record (rt : Runtime) (product_id : nat)
    (line title price tail : str) :
  strip line = u "Sản phẩm " ++ title ++ u " có giá " ++ price ++ u "đ" ++ tail ->
  title <> [] -> forallb (cset_mem AnyChar) title = true ->
  contains (u " có giá ") (tl title ++ u " có giá") = false ->
  price <> [] -> forallb (cset_mem number_chars) price = true ->
  to_decimal 273 = None ->
  startswith (u "(Giảm") (lstrip tail) = false ->
  find_match line = Some [(2, price); (1, title)]%nat
  /\ parse_line product_id line
     = match parse_number price with
       | Ok current => Emitted (record product_id (strip title) current current 0)
       | Exc e => Raised e
       end.
Proof.
  intros Hline Htitle Hany Hearly Hprice Hnum Hdong Htail.
  assert (Hfind : find_match line = Some [(2, price); (1, title)]%nat).
  { rewrite (stripped_line_searched line _ Hline), Hline.
    destruct title as [|c title_tail]; [contradiction|].
    apply search_line; try assumption.
    rewrite m_opt_skip by now apply clause_absent.
    reflexivity. }
  split; [exact Hfind|].
  unfold parse_line. rewrite Hfind. apply build_product_plain.
Qed.

Lemma plain_line_record_witness :
  find_match (rt := Vietnamese.runtime) Examples.tshirt_line
  = Some [(2, u "199.000"); (1, u "Tshirt chạy bộ AirRush Gradient")]%nat
  /\ parse_line (rt := Vietnamese.runtime) 1 Examples.tshirt_line
     = match parse_number (rt := Vietnamese.runtime) (u "199.000") with
       | Ok current =>
           Emitted (record (rt := Vietnamese.runtime) 1
                      (strip (u "Tshirt chạy bộ AirRush Gradient"))
                      current current 0)
       | Exc e => Raised e
       end.
Proof.
  apply (plain_line_record Vietnamese.runtime 1 Examples.tshirt_line
           (u "Tshirt chạy bộ AirRush Gradient") (u "199.000") []);
    first [ discriminate | vm_compute; reflexivity ].
Defined.

(** X2. A line that, once stripped, reads "Sản phẩm <title> có giá
    <price>đ", a discount clause "(Giảm <percent>% từ <original>đ)" with
    any white space around its parts, and anything after it, is
    accepted with its four captures, and the turn emits the record of
    the stripped title, the price, the original price and the
    percentage of the clause, or raises what the first failing
    conversion raises. *)
Theorem discount_line_record (rt : Runtime) (product_id : nat)
    (line title price percent original clause_text rest : str) :
  strip line = u "Sản phẩm " ++ title ++ u " có giá " ++ price ++ u "đ"
               ++ clause_text ++ rest ->
  discount_clause percent original clause_text ->
  title <> [] -> forallb (cset_mem AnyChar) title = true ->
  contains (u " có giá ") (tl title ++ u " có giá") = false ->
  price <> [] -> forallb (cset_mem number_chars) price = true ->
  percent <> [] -> forallb (cset_mem Digit) percent = true ->
  original <> [] -> forallb (cset_mem number_chars) original = true ->
  starts_outside Space percent = true ->
  starts_outside Space original = true ->
  to_decimal 37 = None -> to_decimal 273 = None ->
  find_match line
  = Some [(4, original); (3, percent); (2, price); (1, title)]%nat
  /\ parse_line product_id line
     = match parse_number price with
       | Exc e => Raised e
       | Ok current =>
           match parse_number original with
           | Exc e => Raised e
           | Ok before =>
               match int percent with
               | Exc e => Raised e
               | Ok discount =>
                   Emitted (record product_id (strip title) current before discount)
               end
           end
       end.
Proof.
  intros Hline (ws1 & ws2 & ws3 & ws4 & H1 & H2 & H3 & H4 & ->)
    Htitle Hany Hearly Hprice Hnum Hpercent Hdigits Horiginal Hnum'
    Hp Ho H37 H273.
  assert (Hfind : find_match line
                  = Some [(4, original); (3, percent); (2, price); (1, title)]%nat).
  { rewrite (stripped_line_searched line _ Hline), Hline.
    destruct title as [|c title_tail]; [contradiction|].
    apply search_line; try assumption.
    apply m_opt_take. rewrite <- !List.app_assoc.
    now apply clause_present. }
  split; [exact Hfind|].
  unfold parse_line. rewrite Hfind. now apply build_product_clause.
Qed.

Lemma discount_line_record_witness :
  find_match (rt := Vietnamese.runtime) Examples.viet_devils_line
  = Some [(4, u "389.000"); (3, u "15"); (2, u "329.000");
          (1, u "Áo Thun Nam Viet Devils - Bật Như Man")]%nat
  /\ parse_line (rt := Vietnamese.runtime) 8 Examples.viet_devils_line
     = Emitted (record (rt := Vietnamese.runtime) 8
                  (u "Áo Thun Nam Viet Devils - Bật Như Man")
                  (Fin 329000) (Fin 389000) 15).
Proof.
  destruct (discount_line_record Vietnamese.runtime 8 Examples.viet_devils_line
              (u "Áo Thun Nam Viet Devils - Bật Như Man") (u "329.000")
              (u "15") (u "389.000") (u " (Giảm 15% từ 389.000đ)") [])
    as [Hfind Hparse];
    try first [ discriminate | vm_compute; reflexivity ].
  - exists [32], [32], [32], [32]. repeat split; vm_compute; reflexivity.
  - split; [exact Hfind|]. rewrite Hparse. vm_compute. reflexivity.
Defined.

(** X3. A turn raises exactly when a conversion fails, and what it
    raises is a [ValueError]: the line matches the pattern and the
    price, or the original price of the clause, has no digit once its
    separators are removed, or the percentage of the clause has more
    digits than the interpreter converts. *)
Theorem line_raises_exactly (rt : Runtime) (product_id : nat) (line : str)
    (e : exn) :
  parse_line product_id line = Raised e <->
  e = ValueError
  /\ exists mt price,
      find_match line = Some mt /\ group mt 2 = Some price
      /\ (without_separators price = []
          \/ (exists original,
                 group mt 4 = Some original /\ without_separators original = [])
          \/ (exists percent,
                 group mt 3 = Some percent
                 /\ int_max_str_digits <> 0%nat
                 /\ (int_max_str_digits < length percent)%nat)).
Proof.
  unfold parse_line. destruct (find_match line) as [mt|] eqn:Hfind.
  - rewrite (build_product_raised product_id mt e) by now exists line.
    split.
    + intros (He & price & H). split; [exact He|]. now exists mt, price.
    + intros (He & mt' & price & [= <-] & H). split; [exact He|]. now exists price.
  - split; [intros [=]|]. now intros (_ & mt & price & [=] & _).
Qed.

Lemma line_raises_exactly_witness :
  parse_line (rt := Vietnamese.runtime) 1 Examples.no_digit_line
  = Raised ValueError.
Proof.
  apply (line_raises_exactly Vietnamese.runtime 1 Examples.no_digit_line ValueError).
  split; [reflexivity|].
  exists [(2, u "."); (1, u "Áo")]%nat, (u ".").
  split; [vm_compute; reflexivity|]. split; [reflexivity|]. left. reflexivity.
Defined.

(** X4. The title of an emitted record is stripped and holds no line
    feed, and the record is what lines 72-81 build from that title and
    the three numbers: the category, the short description and the
    description are functions of them. *)
Theorem emitted_title_stripped (rt : Runtime) (product_id : nat) (line : str)
    (product : Product.t) :
  parse_line product_id line = Emitted product ->
  strip (Product.title product) = Product.title product
  /\ ~ In 10 (Product.title product)
  /\ product = record product_id (Product.title product) (Product.price product)
                (Product.original_price product)
                (Product.discount_percent product).
Proof.
  intros H. apply parse_line_inv in H as (mt & Hfind & Hbuild).
  pose proof (build_product_record product_id mt product Hbuild) as Hrecord.
  apply build_product_inv in Hbuild
    as (current & original & discount & _ & _ & _ & _ & Htitle & _).
  apply find_match_shape in Hfind
    as (title & price & _ & Hany & _ & _ & Hshape).
  assert (Hgroup : group mt 1 = Some title).
  { destruct Hshape as [-> | (percent & original' & _ & _ & _ & _ & ->)];
      reflexivity. }
  rewrite Hgroup in Htitle. repeat split.
  - rewrite Htitle. apply strip_fixed.
  - rewrite Htitle. intros Hin. apply strip_incl in Hin.
    rewrite forallb_forall in Hany. specialize (Hany 10 Hin). discriminate Hany.
  - exact Hrecord.
Qed.

Lemma emitted_title_stripped_witness :
  exists product,
    parse_line (rt := Vietnamese.runtime) 1 (u "  Sản phẩm  Quần   có giá 200đ  ")
    = Emitted product
    /\ Product.title product = u "Quần"
    /\ strip (Product.title product) = Product.title product.
Proof.
  eexists. split; [vm_compute; reflexivity|].
  split; [reflexivity|].
  destruct (emitted_title_stripped Vietnamese.runtime 1
              (u "  Sản phẩm  Quần   có giá 200đ  ") _ eq_refl) as (H & _).
  exact H.
Defined.

(** X5. No two records of a run have the same id. *)
Theorem ids_pairwise_distinct (rt : Runtime) (file : option (list str))
    (products : list Product.t) :
  parse_products_from_text file = Ok products ->
  NoDup (map Product.id products).
Proof.
  unfold parse_products_from_text. intros H.
  apply parse_loop_ids in H as (added & -> & Hids & _). cbn [app].
  rewrite Hids. apply NoDup_format_id, seq_NoDup.
Qed.

Lemma ids_pairwise_distinct_witness :
  exists products,
    parse_products_from_text (rt := Vietnamese.runtime) (Some Examples.mixed_lines)
    = Ok products
    /\ length products = 2%nat
    /\ NoDup (map Product.id products).
Proof.
  eexists. split; [vm_compute; reflexivity|]. split; [reflexivity|].
  apply (ids_pairwise_distinct Vietnamese.runtime (Some Examples.mixed_lines)).
  vm_compute. reflexivity.
Defined.

(** X6. Parsing two lists of lines one after the other: the run on
    [lines1 ++ lines2] raises what the run on [lines1] raises, else what
    the run on [lines2] raises, and otherwise returns the records of
    [lines1] followed by the records of [lines2] with ids that continue
    the count. *)
Theorem parse_concatenation (rt : Runtime) (lines1 lines2 : list str) :
  parse_products_from_text (Some (lines1 ++ lines2))
  = match parse_products_from_text (Some lines1) with
    | Exc e => Exc e
    | Ok products1 =>
        match parse_products_from_text (Some lines2) with
        | Exc e => Exc e
        | Ok products2 =>
            Ok (products1 ++ renumber (S (length products1)) products2)
        end
    end.
Proof.
  unfold parse_products_from_text. rewrite parse_loop_app.
  destruct (parse_loop lines1 1 []) as [products1|e]; [|reflexivity].
  cbn [length]. replace (1 + length products1 - 0)%nat with (S (length products1)) by lia.
  rewrite (parse_loop_renumber lines2 1 [] (S (length products1)) products1).
  destruct (parse_loop lines2 1 []); reflexivity.
Qed.

(** X7. A run raises exactly when the turn of some line raises, and it
    raises what the turn of the first such line raises, whatever the
    lines before it produced; a turn raises or not whatever the value
    of the counter. *)
Theorem run_raises_at_first_raising_line (rt : Runtime) (lines : list str)
    (e : exn) :
  parse_products_from_text (Some lines) = Exc e <->
  exists before line after,
    lines = before ++ line :: after
    /\ (forall l, In l before ->
          forall product_id e', parse_line product_id l <> Raised e')
    /\ (forall product_id, parse_line product_id line = Raised e).
Proof. unfold parse_products_from_text. apply parse_loop_raises. Qed.

Lemma run_raises_at_first_raising_line_witness :
  parse_products_from_text (rt := Vietnamese.runtime)
    (Some [Examples.tshirt_line; Examples.no_digit_line; Examples.tshirt_line])
  = Exc ValueError.
Proof.
  apply (run_raises_at_first_raising_line Vietnamese.runtime).
  exists [Examples.tshirt_line], Examples.no_digit_line, [Examples.tshirt_line].
  split; [reflexivity|]. split.
  - intros l [<- | []] product_id e' H.
    rewrite (parse_line_shift 1 product_id) in H. vm_compute in H. discriminate H.
  - intros product_id. rewrite (parse_line_shift 1 product_id).
    vm_compute. reflexivity.
Defined.

(** X8. White space around a line changes nothing: indentation and the
    line feed that [readlines] leaves at the end are stripped before
    anything is tested. *)
Theorem padding_ignored (rt : Runtime) (product_id : nat) (ws1 line ws2 : str) :
  forallb isspace ws1 = true -> forallb isspace ws2 = true ->
  parse_line product_id (ws1 ++ line ++ ws2) = parse_line product_id line.
Proof.
  intros H1 H2. unfold parse_line, find_match.
  now rewrite (strip_padding ws1 line ws2 H1 H2).
Qed.

Lemma padding_ignored_witness :
  parse_line (rt := Vietnamese.runtime) 3
    (u "  " ++ Examples.viet_devils_line ++ [32; 13; 10])
  = parse_line (rt := Vietnamese.runtime) 3 Examples.viet_devils_line.
Proof.
  apply (padding_ignored Vietnamese.runtime 3 (u "  ") Examples.viet_devils_line
           [32; 13; 10]); vm_compute; reflexivity.
Defined.

(** X9. Three keywords of the tests never decide the category: "áo
    polo" and "áo bra" contain a keyword of their own test, and "quần
    lót" a keyword of a test made before.  The classifier is the
    first-match lookup in the table without them. *)
Theorem three_keywords_never_decide (rt : Runtime) (title : str) :
  classify title = first_match shorter_rules (lower title).
Proof.
  rewrite classify_table. unfold category_rules, shorter_rules.
  cbn [first_match]. rewrite polo_decides, bra_decides.
  destruct (existsb _ [u "áo thun"; u "tshirt"; u "t-shirt"]); [reflexivity|].
  destruct (existsb _ [u "quần"; u "shorts"; u "pants"]) eqn:Hquan; [reflexivity|].
  now rewrite (quan_lot_decided _ Hquan).
Qed.

End MoreParser.

Module MorePipelineFacts.
Import Assignment10 Spec More Main PyStrFacts PipelineFacts UploadFacts QueryFacts.

(** ** Reading a trace *)

Lemma displayed_app t1 t2 : displayed (t1 ++ t2) = displayed t1 ++ displayed t2.
Proof. apply flat_map_app. Qed.

Lemma sent_last_flush buffer :
  sent (last_flush buffer) = match buffer with [] => [] | _ :: _ => [buffer] end.
Proof. now destruct buffer. Qed.

Lemma flushed_last_flush buffer :
  flushed (last_flush buffer) = match buffer with [] => [] | _ :: _ => [buffer] end.
Proof. now destruct buffer. Qed.

Lemma embedding_replies_last_flush buffer : embedding_replies (last_flush buffer) = [].
Proof. now destruct buffer. Qed.

Lemma Forall_removelast {A} (P : A -> Prop) (l : list A) :
  Forall P l -> Forall P (removelast l).
Proof.
  induction 1 as [|x l Hx Hl IH]; [constructor|]. cbn [removelast].
  destruct l; [constructor | now constructor].
Qed.

(** The batches sent inside the loop hold at least 50 vectors. *)
Lemma turns_sent_large products buffer t buffer' :
  turns products buffer t buffer' ->
  Forall (fun batch => (50 <= length batch)%nat) (sent t).
Proof.
  induction 1 as [buffer|product products buffer t1 buffer1 t2 buffer2 Hturn _ IH].
  - constructor.
  - rewrite sent_app. apply Forall_app. split; [|exact IH].
    destruct Hturn; cbn; repeat constructor; assumption.
Qed.

(** The number of batches of 50, the last of which may hold fewer. *)
Lemma batches_of_50_count (batches : list (list Vector.t)) :
  batches_of_50 batches ->
  length batches = ((length (concat batches) + 49) / 50)%nat.
Proof.
  unfold batches_of_50. induction batches as [|batch batches IH]; [reflexivity|].
  intros [Hfull Hall]. inversion Hall as [|? ? Hbatch Hrest]; subst.
  cbn [concat length]. rewrite length_app.
  destruct batches as [|next batches].
  - cbn [concat length]. rewrite Nat.add_0_r.
    cbn [length]. apply Nat.div_unique with (r := (length batch - 1)%nat); lia.
  - cbn [removelast] in Hfull. inversion Hfull as [|? ? H50 Hfull']; subst.
    rewrite IH by (split; assumption). rewrite H50.
    replace (50 + length (concat (next :: batches)) + 49)%nat
      with (length (concat (next :: batches)) + 49 + 1 * 50)%nat by lia.
    rewrite Nat.div_add by lia. lia.
Qed.

Section WithServices.
Context {World : Type} {services : Services World}.

(** ** The end of an upload *)

(** The run on a store that reports no vector: the loop, then either
    the last flush raises, or the success is displayed and the final
    count raises or returns. *)
Lemma generate_upload_end products w count w0 :
  describe_index_stats w = (Ok count, w0) ->
  (count <= 0)%Z ->
  exists r w' buffer t1 t2,
    generate_and_upsert_embeddings products w
    = (r, w', DescribeIndexStats (Ok count) :: t1 ++ t2)
    /\ turns products [] t1 buffer
    /\ ((exists e,
           buffer <> [] /\ r = Exc e
           /\ t2 = [IndexUpsert buffer (Exc e); Display (ErrorEmbeddingGeneration e)])
        \/ (exists e,
              r = Exc e
              /\ t2 = last_flush buffer
                      ++ [Display (SuccessUploaded (length products));
                          DescribeIndexStats (Exc e);
                          Display (ErrorEmbeddingGeneration e)])
        \/ (exists final,
              r = Ok tt
              /\ t2 = last_flush buffer
                      ++ [Display (SuccessUploaded (length products));
                          DescribeIndexStats (Ok final);
                          Display (InfoFinalStats final)])).
Proof.
  intros Hstats Hcount.
  unfold generate_and_upsert_embeddings, try_except, bind,
    index_describe_index_stats, index_upsert_vectors, display, raise, ret.
  rewrite Hstats. apply Z.ltb_ge in Hcount. rewrite Hcount.
  destruct (upload_loop products [] w0) as [[r1 w1] t1] eqn:Hloop.
  apply upload_loop_turns in Hloop as (buffer & -> & Hturns).
  destruct buffer as [|v buffer]; cbn [nonempty].
  - destruct (describe_index_stats w1) as [[final|e] w2];
      rewrite <- ?List.app_assoc; cbn [app];
      eexists _, _, [], t1, _; (split; [reflexivity|]);
      (split; [assumption|]).
    + right. right. exists final. split; reflexivity.
    + right. left. exists e. split; reflexivity.
  - destruct (index_upsert (v :: buffer) w1) as [[[]|e] w2].
    + destruct (describe_index_stats w2) as [[final|e] w3];
        rewrite <- ?List.app_assoc; cbn [app];
        eexists _, _, (v :: buffer), t1, _; (split; [reflexivity|]);
        (split; [assumption|]).
      * right. right. exists final. split; reflexivity.
      * right. left. exists e. split; reflexivity.
    + rewrite <- ?List.app_assoc; cbn [app].
      eexists _, _, (v :: buffer), t1, _. split; [reflexivity|].
      split; [assumption|]. left. exists e. repeat split. discriminate.
Qed.

(** What the run does for each reply to the first count. *)
Lemma generate_stats_fail products w e w0 :
  describe_index_stats w = (Exc e, w0) ->
  generate_and_upsert_embeddings products w
  = (Exc e, w0, [DescribeIndexStats (Exc e); Display (ErrorEmbeddingGeneration e)]).
Proof.
  intros Hstats.
  unfold generate_and_upsert_embeddings, try_except, bind,
    index_describe_index_stats, display, raise.
  now rewrite Hstats.
Qed.


(** ** A search *)

Lemma search_cases query top_k w :
  (exists e w1,
      embeddings_create query w = (Exc e, w1)
      /\ search_similar_products query top_k w
         = (Ok [], w1,
            [EmbeddingsCreate query (Exc e); Display (ErrorGettingEmbedding e);
             Display (ErrorDuringSearch e)]))
  \/ (exists vector w1 e w2,
         embeddings_create query w = (Ok vector, w1)
         /\ index_query vector top_k w1 = (Exc e, w2)
         /\ search_similar_products query top_k w
            = (Ok [], w2,
               [EmbeddingsCreate query (Ok vector); IndexQuery vector top_k (Exc e);
                Display (ErrorDuringSearch e)]))
  \/ (exists vector w1 matches w2,
         embeddings_create query w = (Ok vector, w1)
         /\ index_query vector top_k w1 = (Ok matches, w2)
         /\ search_similar_products query top_k w
            = (Ok matches, w2,
               [EmbeddingsCreate query (Ok vector);
                IndexQuery vector top_k (Ok matches)])).
Proof.
  unfold search_similar_products, get_embedding, try_except, bind,
    client_embeddings_create, index_query_matches, display, raise, ret.
  destruct (embeddings_create query w) as [[vector|e] w1].
  - destruct (index_query vector top_k w1) as [[matches|e] w2] eqn:Hquery.
    + right. right. exists vector, w1, matches, w2.
      split; [reflexivity|]. split; [exact Hquery | reflexivity].
    + right. left. exists vector, w1, e, w2.
      split; [reflexivity|]. split; [exact Hquery | reflexivity].
  - left. now exists e, w1.
Qed.

End WithServices.

(** ** The bounds of the price slider *)









End MorePipelineFacts.

(* ================================================================== *)
(** * More properties of the upload and of the search *)
(* ================================================================== *)

Section MorePipeline.
Import Assignment10 Spec More Main PyStrFacts PipelineFacts UploadFacts QueryFacts
  MorePipelineFacts.

Lemma turns_no_success products buffer t buffer' :
  turns products buffer t buffer' ->
  forall n, ~ In (Display (SuccessUploaded n)) t.
Proof.
  induction 1 as [buffer|product products buffer t1 buffer1 t2 buffer2 Hturn _ IH];
    intros n Hin; [contradiction|].
  apply in_app_or in Hin as [Hin | Hin]; [|now apply (IH n)].
  destruct Hturn; cbn in Hin; intuition discriminate.
Qed.

Lemma sent_cons_stats reply t : sent (DescribeIndexStats reply :: t) = sent t.
Proof. reflexivity. Qed.

(** X10. The search never raises.  When the embedding of the query
    fails, the index is not queried, the failure is displayed twice (by
    [get_embedding] and by the search) and no match is returned; when
    the query of the index fails, it is displayed once and no match is
    returned; when nothing is displayed, the trace is the two calls and
    the result is the reply of the index. *)
Theorem search_failures_give_no_match (World : Type) (services : Services World)
    (query : str) (top_k : Z) (w : World) :
  exists matches w' t,
    search_similar_products query top_k w = (Ok matches, w', t)
    /\ embedding_inputs t = [query]
    /\ (forall e, In (EmbeddingsCreate query (Exc e)) t ->
          queries t = [] /\ matches = []
          /\ displayed t = [ErrorGettingEmbedding e; ErrorDuringSearch e])
    /\ (forall vector e, In (IndexQuery vector top_k (Exc e)) t ->
          matches = [] /\ displayed t = [ErrorDuringSearch e])
    /\ (displayed t = [] ->
        exists vector,
          t = [EmbeddingsCreate query (Ok vector);
               IndexQuery vector top_k (Ok matches)]).
Proof.
  destruct (search_cases query top_k w)
    as [(e & w1 & _ & ->) | [(v & w1 & e & w2 & _ & _ & ->)
                            | (v & w1 & ms & w2 & _ & _ & ->)]];
    eexists _, _, _; (split; [reflexivity|]); (split; [reflexivity|]).
  - split; [|split].
    + intros e' [[= <-] | [[=] | [[=] | []]]]. repeat split.
    + intros v e' [[=] | [[=] | [[=] | []]]].
    + intros [=].
  - split; [|split].
    + intros e' [[=] | [[=] | [[=] | []]]].
    + intros v' e' [[=] | [[= <- <-] | [[=] | []]]]. repeat split.
    + intros [=].
  - split; [|split].
    + intros e' [[=] | [[=] | []]].
    + intros v' e' [[=] | [[=] | []]].
    + intros _. now exists v.
Qed.


(** X12. When the first count of the store raises, the upload calls
    neither the embedding provider nor [upsert]: it displays the error
    and raises it again. *)
Theorem stats_failure_ends_upload (World : Type) (services : Services World)
    (products : list Product.t) (w : World) (e : exn) (w0 : World) :
  describe_index_stats w = (Exc e, w0) ->
  generate_and_upsert_embeddings products w
  = (Exc e, w0, [DescribeIndexStats (Exc e); Display (ErrorEmbeddingGeneration e)]).
Proof.
  intros Hstats.
  unfold generate_and_upsert_embeddings, try_except, bind,
    index_describe_index_stats, display, raise.
  now rewrite Hstats.
Qed.

Lemma stats_failure_ends_upload_witness :
  generate_and_upsert_embeddings (services := Offline.services)
    (InMemory.catalogue 3) tt
  = (Exc InMemory.unavailable, tt,
     [DescribeIndexStats (Exc InMemory.unavailable);
      Display (ErrorEmbeddingGeneration InMemory.unavailable)]).
Proof.
  apply (stats_failure_ends_upload unit Offline.services (InMemory.catalogue 3) tt
           InMemory.unavailable tt).
  reflexivity.
Defined.

(** X13. On a store that reports no vector and accepts every batch it
    is sent, the upload sends batches of exactly 50 and a last batch
    with what is left, every embedded record is in exactly one batch,
    and the number of calls of [upsert] is the number of embedded
    records divided by 50, rounded up. *)
Theorem healthy_upload_batches (World : Type) (services : Services World)
    (products : list Product.t) (w : World) (count : Z) (w0 : World)
    (r : result unit) (w' : World) (t : list event) :
  describe_index_stats w = (Ok count, w0) ->
  (count <= 0)%Z ->
  generate_and_upsert_embeddings products w = (r, w', t) ->
  forallb (fun b => is_ok (snd b)) (upserts t) = true ->
  batches_of_50 (sent t)
  /\ each_in_one_batch products t
  /\ length (upserts t) = ((length (embedded products t) + 49) / 50)%nat.
Proof.
  intros Hstats Hcount Hrun Hok.
  destruct (upload_batches_when_store_accepts products w count w0 r w' t
              Hstats Hcount Hrun Hok) as [Hbatches Heach].
  split; [exact Hbatches|]. split; [exact Heach|].
  unfold each_in_one_batch in Heach. rewrite <- Heach.
  rewrite <- (batches_of_50_count (sent t) Hbatches).
  unfold sent. now rewrite length_map.
Qed.

Lemma healthy_upload_batches_witness :
  exists r w' t,
    generate_and_upsert_embeddings (services := InMemory.services)
      (InMemory.catalogue 51) (InMemory.empty_store 0)
    = (r, w', t)
    /\ map (@length Vector.t) (sent t) = [50; 1]%nat
    /\ batches_of_50 (sent t).
Proof.
  eexists _, _, _. split; [vm_compute; reflexivity|].
  split; [vm_compute; reflexivity|].
  eapply (healthy_upload_batches InMemory.world InMemory.services
            (InMemory.catalogue 51) (InMemory.empty_store 0) 0%Z
            (InMemory.empty_store 0) _ _ _ eq_refl).
  - lia.
  - vm_compute. reflexivity.
  - vm_compute. reflexivity.
Defined.

(** X14. When an upload on a store that reported no vector returns,
    the batches the store accepted, put end to end, are the embedded
    records in the order of the catalogue: no embedded record is
    missing from the store or accepted twice, whatever failed and was
    sent again on the way. *)
Theorem accepted_batches_partition (World : Type) (services : Services World)
    (products : list Product.t) (w : World) (count : Z) (w0 w' : World)
    (t : list event) :
  describe_index_stats w = (Ok count, w0) ->
  (count <= 0)%Z ->
  generate_and_upsert_embeddings products w = (Ok tt, w', t) ->
  concat (flushed t) = embedded products t.
Proof.
  intros Hstats Hcount Hrun.
  destruct (generate_upload_end products w count w0 Hstats Hcount)
    as (r & w1 & buffer & t1 & t2 & Hrun' & Hturns & Hend).
  rewrite Hrun in Hrun'. injection Hrun' as <- <- ->.
  destruct Hend as [(e & _ & [=] & _) | [(e & [=] & _) | (final & _ & ->)]].
  pose proof (turns_conservation products [] t1 buffer Hturns) as Hcons.
  cbn [app] in Hcons.
  change (DescribeIndexStats (Ok count) :: ?l)
    with ([DescribeIndexStats (Ok count)] ++ l).
  rewrite (embedded_replies products _ t1).
  - rewrite !flushed_app, flushed_last_flush, Hcons. cbn [flushed upserts flat_map
      filter map app]. rewrite List.app_nil_r, concat_app. f_equal.
    destruct buffer; cbn; now rewrite ?List.app_nil_r.
  - rewrite !embedding_replies_app, embedding_replies_last_flush. cbn.
    now rewrite List.app_nil_r.
Qed.

Lemma accepted_batches_partition_witness :
  exists w' t,
    generate_and_upsert_embeddings (services := InMemory.services)
      (InMemory.catalogue 51) (InMemory.empty_store 1)
    = (Ok tt, w', t)
    /\ map (@length Vector.t) (sent t) = [50; 51]%nat
    /\ map (@length Vector.t) (flushed t) = [51]%nat
    /\ concat (flushed t) = embedded (InMemory.catalogue 51) t.
Proof.
  eexists _, _. split; [vm_compute; reflexivity|].
  split; [vm_compute; reflexivity|]. split; [vm_compute; reflexivity|].
  eapply (accepted_batches_partition InMemory.world InMemory.services
            (InMemory.catalogue 51) (InMemory.empty_store 1) 0%Z
            (InMemory.empty_store 1) _ _ eq_refl).
  - lia.
  - vm_compute. reflexivity.
Defined.

(** X15. When an upload on a store that reported no vector returns, it
    has displayed one message of success, and the number in it is the
    number of records of the catalogue, whatever the number of records
    that were embedded and accepted. *)
Theorem success_counts_catalogue (World : Type) (services : Services World)
    (products : list Product.t) (w : World) (count : Z) (w0 w' : World)
    (t : list event) :
  describe_index_stats w = (Ok count, w0) ->
  (count <= 0)%Z ->
  generate_and_upsert_embeddings products w = (Ok tt, w', t) ->
  In (Display (SuccessUploaded (length products))) t
  /\ forall n, In (Display (SuccessUploaded n)) t -> n = length products.
Proof.
  intros Hstats Hcount Hrun.
  destruct (generate_upload_end products w count w0 Hstats Hcount)
    as (r & w1 & buffer & t1 & t2 & Hrun' & Hturns & Hend).
  rewrite Hrun in Hrun'. injection Hrun' as <- <- ->.
  destruct Hend as [(e & _ & [=] & _) | [(e & [=] & _) | (final & _ & ->)]].
  split.
  - right. apply in_or_app. right. apply in_or_app. right. now left.
  - intros n [[=] | Hin].
    apply in_app_or in Hin as [Hin | Hin];
      [now apply (turns_no_success _ _ _ _ Hturns) in Hin|].
    apply in_app_or in Hin as [Hin | Hin].
    + destruct buffer; cbn in Hin; intuition discriminate.
    + destruct Hin as [[= <-] | [[=] | [[=] | []]]]. reflexivity.
Qed.

Lemma success_counts_catalogue_witness :
  exists w' t,
    generate_and_upsert_embeddings (services := InMemory.services)
      (InMemory.catalogue 2) (Offline.rejecting_provider 2)
    = (Ok tt, w', t)
    /\ embedded (InMemory.catalogue 2) t = []
    /\ In (Display (SuccessUploaded 2)) t.
Proof.
  eexists _, _. split; [vm_compute; reflexivity|].
  split; [vm_compute; reflexivity|].
  eapply (success_counts_catalogue InMemory.world InMemory.services
            (InMemory.catalogue 2) (Offline.rejecting_provider 2) 0%Z
            (Offline.rejecting_provider 2) _ _ eq_refl).
  - lia.
  - vm_compute. reflexivity.
Defined.

(** X16. Whatever the services reply, no call of [upsert] is made with
    an empty batch, and every batch but the last one sent holds at
    least 50 vectors. *)
Theorem batches_never_small (World : Type) (services : Services World)
    (products : list Product.t) (w : World) :
  let t := snd (generate_and_upsert_embeddings products w) in
  Forall (fun batch => (50 <= length batch)%nat) (removelast (sent t))
  /\ Forall (fun batch => (1 <= length batch)%nat) (sent t).
Proof.
  destruct (describe_index_stats w) as [[count|e] w0] eqn:Hstats.
  - destruct (Z.ltb_spec 0 count) as [Hpos|Hzero].
    + rewrite (generate_skips products w count w0 Hstats Hpos). cbn.
      split; constructor.
    + destruct (generate_upload_end products w count w0 Hstats Hzero)
        as (r & w1 & buffer & t1 & t2 & -> & Hturns & Hend).
      cbn [snd]. rewrite sent_cons_stats, sent_app.
      pose proof (turns_sent_large products [] t1 buffer Hturns) as Hlarge.
      assert (Hsmall : Forall (fun batch : list Vector.t => (1 <= length batch)%nat)
                         (sent t1)).
      { eapply Forall_impl; [|exact Hlarge]. cbn. intros; lia. }
      assert (Hlast : sent t2 = [] \/ (sent t2 = [buffer] /\ buffer <> [])).
      { destruct Hend as [(e & Hne & _ & ->) | [(e & _ & ->) | (final & _ & ->)]].
        - right. now split.
        - rewrite sent_app, sent_last_flush. destruct buffer; [now left|].
          right. split; [reflexivity | discriminate].
        - rewrite sent_app, sent_last_flush. destruct buffer; [now left|].
          right. split; [reflexivity | discriminate]. }
      destruct Hlast as [-> | [-> Hne]].
      * rewrite List.app_nil_r. split; [now apply Forall_removelast | exact Hsmall].
      * rewrite removelast_last. split; [exact Hlarge|].
        apply Forall_app. split; [exact Hsmall|]. constructor; [|constructor].
        destruct buffer; [contradiction | cbn; lia].
  - rewrite (generate_stats_fail products w e w0 Hstats). cbn. split; constructor.
Qed.





End MorePipeline.

Module RoundTripFacts.
Import ConvertProducts More PyNumFacts ClassifyFacts MoreParserFacts.

(** ** Doubles that are integers *)



(** ** The digits of a formatted number *)






(** ** The commas of a formatted number *)






End RoundTripFacts.

(* ================================================================== *)
(** * The price written in the description *)
(* ================================================================== *)

Section RoundTrip.
Import ConvertProducts More PyNumFacts ClassifyFacts MoreParserFacts RoundTripFacts.



End RoundTrip.
